(** * Real-time delivery core of the chat backend

    A shallow embedding of [src/messages/chat.gateway.ts] (presence
    registry and fan-out), [src/messages/messages.service.ts] (message
    store operations) and the parts of [conversations.service.ts] they
    call, followed by the properties of the specification.

    Conventions of the embedding:
    - identifiers (uuid columns, socket ids, room names) are [string];
    - [Date] values are [Z] (milliseconds); [new Date()] and generated
      primary keys are passed in explicitly ([now], [newId]);
    - a TypeORM repository is the list of its rows in insertion order;
    - the presence maps are [gmap]s from stdpp, a JS [Set] is a [gset];
    - a service method is a computation in the monad [M]: it threads the
      store and may throw an [HttpException], keeping every write that
      happened before the throw. *)

From Stdlib Require Import ZArith Ascii String List Lia Permutation.
From stdpp Require Import base option list sorting gmap strings.

Local Open Scope string_scope.
Local Open Scope nat_scope.

(* ===================================================================== *)
(** ** Data model *)
(* ===================================================================== *)

(** [entities/message.entity.ts]: [enum MessageStatus]. *)
Inductive MessageStatus := SENDING | SENT | DELIVERED | READ.

(** [enums/message-type.enum.ts]: [enum MessageType]. *)
Inductive MessageType := TEXT | IMAGE | FILE | VIDEO | AUDIO | SYSTEM.

#[global] Instance MessageStatus_eq_dec : EqDecision MessageStatus.
Proof. solve_decision. Defined.

#[global] Instance MessageType_eq_dec : EqDecision MessageType.
Proof. solve_decision. Defined.

(** Position of a status on the line SENDING, SENT, DELIVERED, READ. *)
Definition status_rank (s : MessageStatus) : nat :=
  match s with SENDING => 0 | SENT => 1 | DELIVERED => 2 | READ => 3 end.

(** [entities/message.entity.ts]: [class Message].  The ORM-maintained
    [updatedAt] column is read by none of the operations below and is
    left out. *)
Module Message.
Record t := mk {
  id : string;
  conversationId : string;
  senderId : string;
  content : option string;
  type : MessageType;
  fileUrl : option string;
  fileName : option string;
  fileMimeType : option string;
  fileSize : option Z;
  status : MessageStatus;
  isDeleted : bool;
  replyToMessageId : option string;
  forwardedFromId : option string;
  editedAt : option Z;
  createdAt : Z
}.

Definition set_status (s : MessageStatus) (m : t) : t :=
  mk (id m) (conversationId m) (senderId m) (content m) (type m)
     (fileUrl m) (fileName m) (fileMimeType m) (fileSize m)
     s (isDeleted m) (replyToMessageId m) (forwardedFromId m)
     (editedAt m) (createdAt m).

Definition set_content (c : option string) (m : t) : t :=
  mk (id m) (conversationId m) (senderId m) c (type m)
     (fileUrl m) (fileName m) (fileMimeType m) (fileSize m)
     (status m) (isDeleted m) (replyToMessageId m) (forwardedFromId m)
     (editedAt m) (createdAt m).

Definition set_isDeleted (b : bool) (m : t) : t :=
  mk (id m) (conversationId m) (senderId m) (content m) (type m)
     (fileUrl m) (fileName m) (fileMimeType m) (fileSize m)
     (status m) b (replyToMessageId m) (forwardedFromId m)
     (editedAt m) (createdAt m).

Definition set_editedAt (d : option Z) (m : t) : t :=
  mk (id m) (conversationId m) (senderId m) (content m) (type m)
     (fileUrl m) (fileName m) (fileMimeType m) (fileSize m)
     (status m) (isDeleted m) (replyToMessageId m) (forwardedFromId m)
     d (createdAt m).
End Message.

(** [entities/message-deletion.entity.ts]: [class MessageDeletion]. *)
Module MessageDeletion.
Record t := mk {
  id : string;
  messageId : string;
  userId : string;
  deletedAt : Z
}.
End MessageDeletion.

(** [entities/conversation-participant.entity.ts].  [role], [nickname]
    and [joinedAt] are read by none of the operations below. *)
Module ConversationParticipant.
Record t := mk {
  conversationId : string;
  userId : string;
  lastReadAt : option Z
}.

Definition set_lastReadAt (d : option Z) (p : t) : t :=
  mk (conversationId p) (userId p) d.
End ConversationParticipant.

(** [entities/conversation.entity.ts]: the primary key, the last-message
    preview columns and [updatedAt] (the sort key of [findByUserId]). *)
Module Conversation.
Record t := mk {
  id : string;
  lastMessageId : option string;
  lastMessageContent : option string;
  lastMessageSenderId : option string;
  lastMessageType : option MessageType;
  lastMessageAt : option Z;
  updatedAt : Z
}.
End Conversation.

(** [dto/create-message.dto.ts]: [class CreateMessageDto]. *)
Module CreateMessageDto.
Record t := mk {
  conversationId : string;
  senderId : string;
  content : option string;
  type : MessageType;
  fileUrl : option string;
  fileName : option string;
  fileMimeType : option string;
  fileSize : option Z;
  replyToMessageId : option string
}.
End CreateMessageDto.

(** [dto/message-response.dto.ts]: [class MessageResponseDto] (the
    optional [sender] and [reactions] are never filled by the callers of
    [broadcastToConversation]). *)
Module MessageResponseDto.
Record t := mk {
  id : string;
  conversationId : string;
  senderId : string;
  content : option string;
  type : MessageType;
  fileUrl : option string;
  fileName : option string;
  fileMimeType : option string;
  fileSize : option Z;
  status : MessageStatus;
  replyToMessageId : option string;
  forwardedFromId : option string;
  editedAt : option Z;
  createdAt : Z
}.
End MessageResponseDto.

(** The four tables the message service reads and writes. *)
Record Store := mkStore {
  messages : list Message.t;
  deletions : list MessageDeletion.t;
  participants : list ConversationParticipant.t;
  conversations : list Conversation.t
}.

Definition set_messages (ms : list Message.t) (st : Store) : Store :=
  mkStore ms (deletions st) (participants st) (conversations st).

Definition set_deletions (ds : list MessageDeletion.t) (st : Store) : Store :=
  mkStore (messages st) ds (participants st) (conversations st).

Definition set_participants (ps : list ConversationParticipant.t) (st : Store) : Store :=
  mkStore (messages st) (deletions st) ps (conversations st).

Definition set_conversations (cs : list Conversation.t) (st : Store) : Store :=
  mkStore (messages st) (deletions st) (participants st) cs.

(* ===================================================================== *)
(** ** Exceptions and the service monad *)
(* ===================================================================== *)

Inductive HttpException :=
| BadRequestException (message : string)
| ForbiddenException (message : string)
| NotFoundException (message : string)
| InternalServerErrorException (message : string).

Inductive Outcome (A : Type) :=
| Returned (a : A)
| Thrown (e : HttpException).
Arguments Returned {A} a.
Arguments Thrown {A} e.

(** A computation over the store: the outcome together with the store it
    leaves behind, whether it returns or throws. *)
Definition M (A : Type) : Type := Store -> Outcome A * Store.

Definition ret {A} (a : A) : M A := fun st => (Returned a, st).

Definition throw {A} (e : HttpException) : M A := fun st => (Thrown e, st).

Definition bind {A B} (m : M A) (k : A -> M B) : M B :=
  fun st =>
    match m st with
    | (Returned a, st') => k a st'
    | (Thrown e, st') => (Thrown e, st')
    end.

(** [try { m } catch (error) { h error }]. *)
Definition try_catch {A} (m : M A) (h : HttpException -> M A) : M A :=
  fun st =>
    match m st with
    | (Returned a, st') => (Returned a, st')
    | (Thrown e, st') => h e st'
    end.

Notation "'let!' x ':=' m 'in' k" := (bind m (fun x => k))
  (at level 10, x name, m at level 100, k at level 200).
Notation "'do!' m 'in' k" := (bind m (fun _ => k))
  (at level 10, m at level 100, k at level 200).

(** Store left behind and value produced by a computation. *)
Definition store_after {A} (m : M A) (st : Store) : Store := snd (m st).
Definition outcome_of {A} (m : M A) (st : Store) : Outcome A := fst (m st).

(* ===================================================================== *)
(** ** Presence registry and fan-out: [chat.gateway.ts] *)
(* ===================================================================== *)

(** What travels with an event ([data: any] in the source). *)
Inductive Payload :=
| PresenceData (userId : string) (onlineUsers : list string)
| ErrorData (message : string)
| NewMessageData (messageResponse : MessageResponseDto.t)
| ConversationUpdatedData
    (conversationId : string)
    (lastMessage_id : string) (lastMessage_content : option string)
    (lastMessage_type : MessageType) (lastMessage_senderId : string)
    (lastMessage_createdAt : Z)
    (updatedAt : Z)
| MessagesDeliveredData (conversationId deliveredTo : string) (deliveredAt : Z)
| MessagesReadData (conversationId readBy : string) (readAt : Z) (updatedCount : nat).

(** Everything a gateway handler does to the outside world. *)
Inductive Effect :=
| ServerEmit (event : string) (data : Payload)
    (* [this.server.emit(event, data)]: to every connected socket *)
| ToEmit (room : string) (event : string) (data : Payload)
    (* [this.server.to(room).emit(event, data)]; a socket id is the
       name of that socket's private room *)
| ClientEmit (socketId : string) (event : string) (data : Payload)
    (* [client.emit(event, data)] *)
| ClientDisconnect (socketId : string)
    (* [client.disconnect()] *)
| DeliveredBackfill (userId : string).
    (* the un-awaited call [this.markMessagesAsDeliveredForUser(userId)] *)

(** A [Socket] as the handlers see it: [client.id] and
    [client.handshake.query.userId]. *)
Record Socket := mkSocket {
  socket_id : string;
  handshake_query_userId : option string
}.

(** JS truthiness of a possibly undefined string. *)
Definition truthy (s : option string) : option string :=
  match s with
  | Some EmptyString => None
  | Some u => Some u
  | None => None
  end.

Module ChatGateway.

(** The two private maps of the gateway. *)
Record t := mk {
  userSockets : gmap string (gset string);
  socketUsers : gmap string string
}.

Definition initial : t := mk ∅ ∅.

(** [getOnlineUserIds()]: the keys of [userSockets]. *)
Definition getOnlineUserIds (g : t) : list string :=
  elements (dom (userSockets g)).

(** [isUserOnline(userId)]. *)
Definition isUserOnline (g : t) (userId : string) : bool :=
  bool_decide (is_Some (userSockets g !! userId)).

(** The connection set of a user; empty when the key is absent. *)
Definition connectionsOf (g : t) (userId : string) : gset string :=
  default ∅ (userSockets g !! userId).

(** [handleConnection(client)]. *)
Definition handleConnection (g : t) (client : Socket) : t * list Effect :=
  match truthy (handshake_query_userId client) with
  | Some userId =>
      let socketUsers1 := <[socket_id client := userId]> (socketUsers g) in
      let userSockets1 :=
        match userSockets g !! userId with
        | Some _ => userSockets g
        | None => <[userId := ∅]> (userSockets g)
        end in
      let userSockets2 :=
        <[userId := {[socket_id client]} ∪ default ∅ (userSockets1 !! userId)]>
          userSockets1 in
      let g' := mk userSockets2 socketUsers1 in
      (g', [DeliveredBackfill userId;
            ServerEmit "userOnline" (PresenceData userId (getOnlineUserIds g'))])
  | None =>
      (g, [ClientEmit (socket_id client) "error" (ErrorData "userId is required");
           ClientDisconnect (socket_id client)])
  end.

(** [handleDisconnect(client)]. *)
Definition handleDisconnect (g : t) (client : Socket) : t * list Effect :=
  match truthy (socketUsers g !! socket_id client) with
  | Some userId =>
      let '(userSockets', out) :=
        match userSockets g !! userId with
        | Some userSocketSet =>
            let userSocketSet' := userSocketSet ∖ {[socket_id client]} in
            if bool_decide (size userSocketSet' = 0)
            then
              let us := delete userId (userSockets g) in
              (us, [ServerEmit "userOffline"
                      (PresenceData userId (elements (dom us)))])
            else (<[userId := userSocketSet']> (userSockets g), [])
        | None => (userSockets g, [])
        end in
      (mk userSockets' (delete (socket_id client) (socketUsers g)), out)
  | None => (g, [])
  end.

(** [sendToUser(userId, event, data)]: one emit per connected device. *)
Definition sendToUser (g : t) (userId : string) (event : string) (data : Payload)
  : list Effect :=
  match userSockets g !! userId with
  | Some userSocketSet =>
      map (fun socketId => ToEmit socketId event data) (elements userSocketSet)
  | None => []
  end.

(** [broadcastToConversation(conversationId, messageResponse, participantIds?)].
    [now] is the value of [new Date()], read once for the whole loop. *)
Definition broadcastToConversation (g : t) (now : Z)
    (conversationId : string) (messageResponse : MessageResponseDto.t)
    (participantIds : option (list string)) : list Effect :=
  ToEmit ("conversation:" +:+ conversationId) "newMessage"
         (NewMessageData messageResponse)
  :: match participantIds with
     | Some ((_ :: _) as ids) =>
         flat_map
           (fun participantId =>
              if bool_decide (participantId ≠ MessageResponseDto.senderId messageResponse)
              then sendToUser g participantId "conversationUpdated"
                     (ConversationUpdatedData conversationId
                        (MessageResponseDto.id messageResponse)
                        (MessageResponseDto.content messageResponse)
                        (MessageResponseDto.type messageResponse)
                        (MessageResponseDto.senderId messageResponse)
                        (MessageResponseDto.createdAt messageResponse)
                        now)
              else [])
           ids
     | _ => []
     end.

End ChatGateway.

(** Connection events of the transport, and the registry they lead to. *)
Inductive ConnEvent :=
| Connect (client : Socket)
| Disconnect (client : Socket).

Definition presence_step (g : ChatGateway.t) (e : ConnEvent)
  : ChatGateway.t * list Effect :=
  match e with
  | Connect c => ChatGateway.handleConnection g c
  | Disconnect c => ChatGateway.handleDisconnect g c
  end.

Definition presence_run (g : ChatGateway.t) (es : list ConnEvent) : ChatGateway.t :=
  fold_left (fun g e => fst (presence_step g e)) es g.

(** A [userOffline] event about [userId] occurs in a list of effects. *)
Definition emits_offline (userId : string) (out : list Effect) : Prop :=
  ∃ online, In (ServerEmit "userOffline" (PresenceData userId online)) out.

(* ===================================================================== *)
(** ** Strings: [trim], [toLowerCase] and SQL [LIKE] *)
(* ===================================================================== *)

(** A string is the sequence of the bytes of a text in UTF-8, the
    encoding of the database and of the literals of this file; a
    character of the ASCII range is one byte, every other character a
    lead byte from 194 up followed by one to three bytes from 128 to
    191. *)
Definition byte (c : ascii) : nat := nat_of_ascii c.

(** The white space of [String.prototype.trim] (WhiteSpace and
    LineTerminator of ECMAScript) by the length of its encoding.  One
    byte: TAB, LF, VT, FF, CR and SPACE. *)
Definition is_white_space (c : ascii) : bool :=
  ((9 <=? byte c) && (byte c <=? 13)) || (byte c =? 32).

(** Two bytes: U+00A0, the no-break space. *)
Definition is_white_space2 (c1 c2 : ascii) : bool :=
  (byte c1 =? 194) && (byte c2 =? 160).

(** Three bytes: U+1680; U+2000 to U+200A, U+2028, U+2029 and U+202F;
    U+205F; U+3000; U+FEFF. *)
Definition is_white_space3 (c1 c2 c3 : ascii) : bool :=
  ((byte c1 =? 225) && (byte c2 =? 154) && (byte c3 =? 128))
  || ((byte c1 =? 226) && (byte c2 =? 128)
      && (((128 <=? byte c3) && (byte c3 <=? 138))
          || (byte c3 =? 168) || (byte c3 =? 169) || (byte c3 =? 175)))
  || ((byte c1 =? 226) && (byte c2 =? 129) && (byte c3 =? 159))
  || ((byte c1 =? 227) && (byte c2 =? 128) && (byte c3 =? 128))
  || ((byte c1 =? 239) && (byte c2 =? 187) && (byte c3 =? 191)).

(** Every character of the string is white space. *)
Fixpoint all_white_space (s : string) : bool :=
  match s with
  | EmptyString => true
  | String c1 s1 =>
      if is_white_space c1 then all_white_space s1
      else
        match s1 with
        | EmptyString => false
        | String c2 s2 =>
            if is_white_space2 c1 c2 then all_white_space s2
            else
              match s2 with
              | EmptyString => false
              | String c3 s3 => is_white_space3 c1 c2 c3 && all_white_space s3
              end
        end
  end.

(** [s.trimStart()]: the leading white-space characters are dropped. *)
Fixpoint trimStart (s : string) : string :=
  match s with
  | EmptyString => EmptyString
  | String c1 s1 =>
      if is_white_space c1 then trimStart s1
      else
        match s1 with
        | EmptyString => s
        | String c2 s2 =>
            if is_white_space2 c1 c2 then trimStart s2
            else
              match s2 with
              | EmptyString => s
              | String c3 s3 => if is_white_space3 c1 c2 c3 then trimStart s3 else s
              end
        end
  end.

(** [s.trimEnd()]: the string is cut where its longest suffix of
    white-space characters starts. *)
Fixpoint trimEnd (s : string) : string :=
  match s with
  | EmptyString => EmptyString
  | String c s' => if all_white_space s then EmptyString else String c (trimEnd s')
  end.

(** [s.trim()]. *)
Definition trim (s : string) : string := trimEnd (trimStart s).

(** [!value?.trim()] for an optional string. *)
Definition blank (value : option string) : bool :=
  match value with
  | None => true
  | Some s => match trim s with EmptyString => true | _ => false end
  end.

(** Lower-casing of one byte: [A-Z] to [a-z], the rest unchanged. *)
Definition lower_char (c : ascii) : ascii :=
  let n := nat_of_ascii c in
  if (65 <=? n) && (n <=? 90) then ascii_of_nat (n + 32) else c.

(** [LOWER(s)] in the database.  The README names SQLite, whose
    built-in [lower()] converts the letters of the ASCII range and leaves
    every other character, so every byte from 128 up, as it is. *)
Fixpoint LOWER (s : string) : string :=
  match s with
  | EmptyString => EmptyString
  | String c s' => String (lower_char c) (LOWER s')
  end.


(** [s.toLowerCase()] in the service.  On a text of the ASCII range the
    runtime maps [A-Z] to [a-z], which is the byte map above.  A
    character outside that range goes through the Unicode case tables of
    the runtime, which this development does not hold: what is said
    below about the rows a search returns is said for a query that is an
    [ascii_text]. *)
Definition toLowerCase (s : string) : string := LOWER s.

(** [text LIKE pattern] without an escape character (SQLite, the
    database named by the README): [%] stands for any run of characters,
    [_] for any one character, every other character for itself.  The
    comparison runs over the bytes, so [_] takes one byte, which is one
    character of the ASCII range; the service applies it to lower-cased
    operands, where the folding of ASCII letters that SQLite adds makes no
    difference. *)
Fixpoint like (pattern text : string) : bool :=
  match pattern with
  | EmptyString => match text with EmptyString => true | _ => false end
  | String p pattern' =>
      if Ascii.eqb p "%"
      then (fix any_suffix (text : string) : bool :=
              like pattern' text
              || match text with
                 | EmptyString => false
                 | String _ text' => any_suffix text'
                 end) text
      else match text with
           | EmptyString => false
           | String c text' =>
               (Ascii.eqb p "_" || Ascii.eqb p c) && like pattern' text'
           end
  end.




(* ===================================================================== *)
(** ** Query helpers: ordering and paging *)
(* ===================================================================== *)

(** [ORDER BY]: a stable insertion sort (rows that tie keep their
    storage order). *)
Fixpoint insert_by {A} (le : A -> A -> bool) (x : A) (l : list A) : list A :=
  match l with
  | [] => [x]
  | y :: l' => if le x y then x :: l else y :: insert_by le x l'
  end.

Fixpoint sort_by {A} (le : A -> A -> bool) (l : list A) : list A :=
  match l with
  | [] => []
  | x :: l' => insert_by le x (sort_by le l')
  end.

Definition createdAt_asc (a b : Message.t) : bool :=
  (Message.createdAt a <=? Message.createdAt b)%Z.

Definition createdAt_desc (a b : Message.t) : bool :=
  (Message.createdAt b <=? Message.createdAt a)%Z.

Definition updatedAt_desc (a b : Conversation.t) : bool :=
  (Conversation.updatedAt b <=? Conversation.updatedAt a)%Z.

(** [.skip(offset).take(limit)] for natural numbers.  The callers pass a
    positive limit by default (20 or 50); what the ORM does with a limit
    of zero is not fixed by the source, and the statements below that
    speak about the size of a result ask for a positive limit. *)
Definition page {A} (limit offset : nat) (l : list A) : list A :=
  take limit (drop offset l).

Definition str_eqb (a b : string) : bool := bool_decide (a = b).

Definition in_strings (x : string) (l : list string) : bool :=
  bool_decide (x ∈ l).

(* ===================================================================== *)
(** ** Repositories *)
(* ===================================================================== *)

(** [messageRepository.findOne({ where: { id } })]. *)
Definition message_findOne (id : string) : M (option Message.t) :=
  fun st => (Returned (List.find (fun m => str_eqb (Message.id m) id) (messages st)), st).

(** [messageRepository.save(message)] for a loaded row: the row with
    that primary key is overwritten. *)
Definition message_save (message : Message.t) : M Message.t :=
  fun st =>
    (Returned message,
     set_messages
       (map (fun m => if str_eqb (Message.id m) (Message.id message) then message else m)
            (messages st))
       st).

(** [messageRepository.save(message)] for a row just made by
    [create(...)]: it is inserted. *)
Definition message_insert (message : Message.t) : M Message.t :=
  fun st => (Returned message, set_messages (messages st ++ [message]) st).

(** [messageRepository.remove(message)]. *)
Definition message_remove (message : Message.t) : M unit :=
  fun st =>
    (Returned tt,
     set_messages
       (List.filter (fun m => negb (str_eqb (Message.id m) (Message.id message)))
                    (messages st))
       st).

(** [createQueryBuilder().update(Message).set(...).where(...).execute()]:
    every selected row is rewritten, [affected] is their number. *)
Definition message_update_where (selected : Message.t -> bool)
    (change : Message.t -> Message.t) : M nat :=
  fun st =>
    (Returned (length (List.filter selected (messages st))),
     set_messages (map (fun m => if selected m then change m else m) (messages st)) st).

(** [createQueryBuilder('message').where(...).getMany()]. *)
Definition message_select_where (selected : Message.t -> bool) : M (list Message.t) :=
  fun st => (Returned (List.filter selected (messages st)), st).

(** [deletionRepository.findOne({ where: { messageId, userId } })]. *)
Definition deletion_findOne (messageId userId : string) : M (option MessageDeletion.t) :=
  fun st =>
    (Returned
       (List.find (fun d => str_eqb (MessageDeletion.messageId d) messageId
                         && str_eqb (MessageDeletion.userId d) userId)
                  (deletions st)),
     st).

(** [deletionRepository.save(deletion)] for a new row. *)
Definition deletion_insert (deletion : MessageDeletion.t) : M unit :=
  fun st => (Returned tt, set_deletions (deletions st ++ [deletion]) st).

(** [deletionRepository.find({ where: { userId } })]. *)
Definition deletion_find_by_user (userId : string) : M (list MessageDeletion.t) :=
  fun st =>
    (Returned (List.filter (fun d => str_eqb (MessageDeletion.userId d) userId)
                           (deletions st)),
     st).

(* ===================================================================== *)
(** ** [conversations.service.ts]: the membership resolver *)
(* ===================================================================== *)

Module ConversationsService.

(** [isParticipant(conversationId, userId)]. *)
Definition isParticipant (conversationId userId : string) : M bool :=
  fun st =>
    (Returned
       (existsb (fun p => str_eqb (ConversationParticipant.conversationId p) conversationId
                       && str_eqb (ConversationParticipant.userId p) userId)
                (participants st)),
     st).

(** [findByUserId(userId)]. *)
Definition findByUserId (userId : string) : M (list Conversation.t) :=
  fun st =>
    let participations :=
      List.filter (fun p => str_eqb (ConversationParticipant.userId p) userId)
                  (participants st) in
    let conversationIds := map ConversationParticipant.conversationId participations in
    match conversationIds with
    | [] => (Returned [], st)
    | _ :: _ =>
        (Returned
           (sort_by updatedAt_desc
              (List.filter (fun c => in_strings (Conversation.id c) conversationIds)
                           (conversations st))),
         st)
    end.

(** [updateLastRead(conversationId, userId)]. *)
Definition updateLastRead (now : Z) (conversationId userId : string) : M unit :=
  fun st =>
    (Returned tt,
     set_participants
       (map (fun p =>
               if str_eqb (ConversationParticipant.conversationId p) conversationId
                  && str_eqb (ConversationParticipant.userId p) userId
               then ConversationParticipant.set_lastReadAt (Some now) p
               else p)
            (participants st))
       st).

(** [updateLastMessage(conversationId, messageId, content, senderId, type)].
    [now] is the [new Date()] the service writes to [lastMessageAt];
    [updatedAt] is the value the ORM and the database give the
    [@UpdateDateColumn] of the updated row, a clock of their own. *)
Definition updateLastMessage (now updatedAt : Z) (conversationId messageId : string)
    (content : option string) (senderId : string) (type : MessageType) : M unit :=
  fun st =>
    (Returned tt,
     set_conversations
       (map (fun c =>
               if str_eqb (Conversation.id c) conversationId
               then Conversation.mk (Conversation.id c) (Some messageId) content
                      (Some senderId) (Some type) (Some now) updatedAt
               else c)
            (conversations st))
       st).

End ConversationsService.

(* ===================================================================== *)
(** ** [messages.service.ts] *)
(* ===================================================================== *)

Module MessagesService.

Import ConversationsService.

(** [validateMessageContent(dto)]. *)
Definition validateMessageContent (dto : CreateMessageDto.t) : M unit :=
  do! (if bool_decide (CreateMessageDto.type dto = TEXT)
          && blank (CreateMessageDto.content dto)
       then throw (BadRequestException "Content is required for text messages")
       else ret tt) in
  if (bool_decide (CreateMessageDto.type dto = IMAGE)
      || bool_decide (CreateMessageDto.type dto = FILE))
     && blank (CreateMessageDto.fileUrl dto)
  then throw (BadRequestException "File URL is required for file messages")
  else ret tt.

(** [saveMessage(createMessageDto)].  [newId] and [createdAt] are the
    generated primary key and creation date of the new row, [now] and
    [updatedAt] the two clocks of [updateLastMessage]. *)
Definition saveMessage (newId : string) (createdAt now updatedAt : Z)
    (createMessageDto : CreateMessageDto.t) : M Message.t :=
  try_catch
    (do! validateMessageContent createMessageDto in
     let! isParticipant :=
       isParticipant (CreateMessageDto.conversationId createMessageDto)
                     (CreateMessageDto.senderId createMessageDto) in
     if negb isParticipant
     then throw (ForbiddenException "User is not a participant of this conversation")
     else
       let message :=
         Message.mk newId
           (CreateMessageDto.conversationId createMessageDto)
           (CreateMessageDto.senderId createMessageDto)
           (CreateMessageDto.content createMessageDto)
           (CreateMessageDto.type createMessageDto)
           (CreateMessageDto.fileUrl createMessageDto)
           (CreateMessageDto.fileName createMessageDto)
           (CreateMessageDto.fileMimeType createMessageDto)
           (CreateMessageDto.fileSize createMessageDto)
           SENT false
           (CreateMessageDto.replyToMessageId createMessageDto)
           None None createdAt in
       let! savedMessage := message_insert message in
       do! updateLastMessage now updatedAt
             (Message.conversationId savedMessage) (Message.id savedMessage)
             (Message.content savedMessage) (Message.senderId savedMessage)
             (Message.type savedMessage) in
       ret savedMessage)
    (fun error =>
       match error with
       | BadRequestException _ | ForbiddenException _ => throw error
       | _ => throw (InternalServerErrorException "Failed to save message")
       end).

(** [findByConversationId(conversationId, userId, limit, offset)]. *)
Definition findByConversationId (now : Z) (conversationId userId : string)
    (limit offset : nat) : M (list Message.t) :=
  try_catch
    (let! isParticipant := isParticipant conversationId userId in
     if negb isParticipant
     then throw (ForbiddenException "User is not a participant of this conversation")
     else
       let! found :=
         message_select_where
           (fun m => str_eqb (Message.conversationId m) conversationId) in
       let messages := page limit offset (sort_by createdAt_asc found) in
       do! updateLastRead now conversationId userId in
       ret messages)
    (fun error =>
       match error with
       | ForbiddenException _ => throw error
       | _ => throw (InternalServerErrorException "Failed to retrieve messages")
       end).

(** [updateStatus(messageId, status)]. *)
Definition updateStatus (messageId : string) (status : MessageStatus) : M Message.t :=
  let! message := message_findOne messageId in
  match message with
  | None => throw (NotFoundException "Message not found")
  | Some message => message_save (Message.set_status status message)
  end.

(** The [WHERE] clause of [markConversationAsRead]. *)
Definition unread_for (conversationId userId : string) (m : Message.t) : bool :=
  str_eqb (Message.conversationId m) conversationId
  && negb (str_eqb (Message.senderId m) userId)
  && negb (bool_decide (Message.status m = READ))
  && bool_decide (Message.isDeleted m = false).

(** [markConversationAsRead(conversationId, userId)]; the value is
    [result.affected || 0]. *)
Definition markConversationAsRead (conversationId userId : string) : M nat :=
  message_update_where (unread_for conversationId userId) (Message.set_status READ).

(** The [WHERE] clause shared by the two queries of
    [markMessagesAsDeliveredForUser]. *)
Definition undelivered_for (conversationIds : list string) (userId : string)
    (m : Message.t) : bool :=
  in_strings (Message.conversationId m) conversationIds
  && negb (str_eqb (Message.senderId m) userId)
  && bool_decide (Message.status m = SENT)
  && bool_decide (Message.isDeleted m = false).

Record DeliveredResult := mkDelivered {
  updatedCount : nat;
  conversationIds : list string
}.

(** [markMessagesAsDeliveredForUser(userId)]. *)
Definition markMessagesAsDeliveredForUser (userId : string) : M DeliveredResult :=
  let! conversations := findByUserId userId in
  let conversationIds := map Conversation.id conversations in
  match conversationIds with
  | [] => ret (mkDelivered 0 [])
  | _ :: _ =>
      let! conversationsWithSentMessages :=
        message_select_where (undelivered_for conversationIds userId) in
      let affectedConversationIds :=
        remove_dups (map Message.conversationId conversationsWithSentMessages) in
      match affectedConversationIds with
      | [] => ret (mkDelivered 0 [])
      | _ :: _ =>
          let! affected :=
            message_update_where (undelivered_for conversationIds userId)
                                 (Message.set_status DELIVERED) in
          ret (mkDelivered affected affectedConversationIds)
      end
  end.

(** [deleteMessage(messageId, userId)]. *)
Definition deleteMessage (messageId userId : string) : M unit :=
  let! message := message_findOne messageId in
  match message with
  | None => throw (NotFoundException "Message not found")
  | Some message =>
      if negb (str_eqb (Message.senderId message) userId)
      then throw (ForbiddenException "Only the sender can delete this message")
      else message_remove message
  end.

(** [LOWER(message.content) LIKE :searchQuery]; a [NULL] content
    matches nothing. *)
Definition content_like (query : string) (m : Message.t) : bool :=
  match Message.content m with
  | None => false
  | Some content => like ("%" +:+ toLowerCase query +:+ "%") (LOWER content)
  end.

(** [searchMessages(conversationId, userId, query, limit)]. *)
Definition searchMessages (conversationId userId query : string) (limit : nat)
  : M (list Message.t) :=
  let! isParticipant := isParticipant conversationId userId in
  if negb isParticipant
  then throw (ForbiddenException "User is not a participant of this conversation")
  else
    let! found :=
      message_select_where
        (fun m => str_eqb (Message.conversationId m) conversationId
                  && content_like query m
                  && bool_decide (Message.isDeleted m = false)) in
    ret (take limit (sort_by createdAt_desc found)).

(** [searchMessagesGlobal(userId, query, limit)]. *)
Definition searchMessagesGlobal (userId query : string) (limit : nat)
  : M (list Message.t) :=
  let! convs := findByUserId userId in
  let conversationIds := map Conversation.id convs in
  match conversationIds with
  | [] => ret []
  | _ :: _ =>
      let! found :=
        message_select_where
          (fun m => in_strings (Message.conversationId m) conversationIds
                    && content_like query m
                    && bool_decide (Message.isDeleted m = false)) in
      ret (take limit (sort_by createdAt_desc found))
  end.

(** [editMessage(messageId, userId, newContent)]. *)
Definition editMessage (now : Z) (messageId userId newContent : string) : M Message.t :=
  let! message := message_findOne messageId in
  match message with
  | None => throw (NotFoundException "Message not found")
  | Some message =>
      if negb (str_eqb (Message.senderId message) userId)
      then throw (ForbiddenException "Only the sender can edit this message")
      else if negb (bool_decide (Message.type message = TEXT))
      then throw (BadRequestException "Only text messages can be edited")
      else if Message.isDeleted message
      then throw (BadRequestException "Cannot edit a deleted message")
      else
        message_save
          (Message.set_editedAt (Some now)
             (Message.set_content (Some newContent) message))
  end.

(** [deleteMessageForEveryone(messageId, userId)]. *)
Definition deleteMessageForEveryone (messageId userId : string) : M unit :=
  let! message := message_findOne messageId in
  match message with
  | None => throw (NotFoundException "Message not found")
  | Some message =>
      if negb (str_eqb (Message.senderId message) userId)
      then throw (ForbiddenException "Only the sender can delete this message for everyone")
      else
        do! message_save
              (Message.set_content None (Message.set_isDeleted true message)) in
        ret tt
  end.

(** [deleteMessageForMe(messageId, userId)]. *)
Definition deleteMessageForMe (newId : string) (now : Z) (messageId userId : string)
  : M unit :=
  let! message := message_findOne messageId in
  match message with
  | None => throw (NotFoundException "Message not found")
  | Some _ =>
      let! existing := deletion_findOne messageId userId in
      match existing with
      | None => deletion_insert (MessageDeletion.mk newId messageId userId now)
      | Some _ => ret tt
      end
  end.

(** [findByConversationIdFiltered(conversationId, userId, limit, offset)]. *)
Definition findByConversationIdFiltered (conversationId userId : string)
    (limit offset : nat) : M (list Message.t) :=
  let! deletedForMe := deletion_find_by_user userId in
  let deletedMessageIds := map MessageDeletion.messageId deletedForMe in
  let base (m : Message.t) :=
    str_eqb (Message.conversationId m) conversationId
    && bool_decide (Message.isDeleted m = false) in
  let! found :=
    message_select_where
      (fun m =>
         match deletedMessageIds with
         | [] => base m
         | _ :: _ => base m && negb (in_strings (Message.id m) deletedMessageIds)
         end) in
  ret (page limit offset (sort_by createdAt_asc found)).

(** [forwardMessage(messageId, userId, targetConversationId)]. *)
Definition forwardMessage (newId : string) (createdAt : Z)
    (messageId userId targetConversationId : string) : M Message.t :=
  let! originalMessage := message_findOne messageId in
  match originalMessage with
  | None => throw (NotFoundException "Original message not found")
  | Some originalMessage =>
      let! isParticipant := isParticipant targetConversationId userId in
      if negb isParticipant
      then throw (ForbiddenException "User is not a participant of the target conversation")
      else
        let forwardedMessage :=
          Message.mk newId targetConversationId userId
            (Message.content originalMessage)
            (Message.type originalMessage)
            (Message.fileUrl originalMessage)
            (Message.fileName originalMessage)
            (Message.fileMimeType originalMessage)
            (Message.fileSize originalMessage)
            SENT false None (Some messageId) None createdAt in
        message_insert forwardedMessage
  end.

End MessagesService.

(** The two gateway handlers that drive the status state machine. *)
Module ChatGatewayStatus.

(** The private [markMessagesAsDeliveredForUser(userId)] of the gateway:
    the service call, then one [messagesDelivered] per conversation. *)
Definition markMessagesAsDeliveredForUser (now : Z) (userId : string)
  : M (list Effect) :=
  try_catch
    (let! result := MessagesService.markMessagesAsDeliveredForUser userId in
     if bool_decide (0 < MessagesService.updatedCount result)
     then ret (map (fun conversationId =>
                      ToEmit ("conversation:" +:+ conversationId) "messagesDelivered"
                             (MessagesDeliveredData conversationId userId now))
                   (MessagesService.conversationIds result))
     else ret [])
    (fun _ => ret []).

(** [handleMarkAsRead(data, client)]; an absent or empty
    [data.conversationId] is [None]. *)
Definition handleMarkAsRead (g : ChatGateway.t) (now : Z)
    (data_conversationId : option string) (client : Socket) : M (list Effect) :=
  match truthy (ChatGateway.socketUsers g !! socket_id client),
        truthy data_conversationId with
  | Some userId, Some conversationId =>
      try_catch
        (let! updatedCount :=
           MessagesService.markConversationAsRead conversationId userId in
         if bool_decide (0 < updatedCount)
         then ret [ToEmit ("conversation:" +:+ conversationId) "messagesRead"
                          (MessagesReadData conversationId userId now updatedCount)]
         else ret [])
        (fun _ => ret [])
  | _, _ => ret []
  end.

End ChatGatewayStatus.

(** The operations that write [status], as a caller can sequence them. *)
Inductive StatusOp :=
| OpUpdateStatus (messageId : string) (status : MessageStatus)
| OpMarkConversationAsRead (conversationId userId : string)
| OpMarkMessagesAsDeliveredForUser (userId : string).

Definition status_step (st : Store) (op : StatusOp) : Store :=
  match op with
  | OpUpdateStatus messageId status =>
      store_after (MessagesService.updateStatus messageId status) st
  | OpMarkConversationAsRead conversationId userId =>
      store_after (MessagesService.markConversationAsRead conversationId userId) st
  | OpMarkMessagesAsDeliveredForUser userId =>
      store_after (MessagesService.markMessagesAsDeliveredForUser userId) st
  end.

Definition status_run (st : Store) (ops : list StatusOp) : Store :=
  fold_left status_step ops st.

(* ===================================================================== *)
(** ** Predicates of the specification and running examples *)
(* ===================================================================== *)

(** An operation asks for no step backward: an [updateStatus] names a
    status that is not below the current status of the message it is
    about; the batch operations always qualify. *)
Definition requests_forward (st : Store) (op : StatusOp) : Prop :=
  match op with
  | OpUpdateStatus messageId status =>
      ∀ m, m ∈ messages st → Message.id m = messageId →
           status_rank (Message.status m) ≤ status_rank status
  | _ => True
  end.

(** Every operation of the sequence asks for no step backward in the
    store it is run on. *)
Fixpoint all_request_forward (st : Store) (ops : list StatusOp) : Prop :=
  match ops with
  | [] => True
  | op :: ops' => requests_forward st op ∧ all_request_forward (status_step st op) ops'
  end.

(** No key of [userSockets] is bound to the empty set. *)
Definition no_empty_entry (g : ChatGateway.t) : Prop :=
  ∀ u S, ChatGateway.userSockets g !! u = Some S → S ≠ ∅.

(** No socket id sits in the connection sets of two users. *)
Definition sockets_disjoint (g : ChatGateway.t) : Prop :=
  ∀ u1 u2 s,
    s ∈ ChatGateway.connectionsOf g u1 → s ∈ ChatGateway.connectionsOf g u2 → u1 = u2.

(** [e] is [event] emitted to [room]. *)
Definition is_to_emit (room event : string) (e : Effect) : bool :=
  match e with
  | ToEmit r ev _ => str_eqb r room && str_eqb ev event
  | _ => false
  end.

(** Number of [newMessage] events emitted to the room of a conversation. *)
Definition room_events (conversationId : string) (out : list Effect) : nat :=
  length (List.filter (is_to_emit ("conversation:" +:+ conversationId) "newMessage") out).

(** [e] is a [conversationUpdated] event addressed to a connection of
    [userId]. *)
Definition notifies (g : ChatGateway.t) (userId : string) (e : Effect) : bool :=
  match e with
  | ToEmit r ev _ =>
      str_eqb ev "conversationUpdated"
      && bool_decide (r ∈ ChatGateway.connectionsOf g userId)
  | _ => false
  end.

(** Number of [conversationUpdated] events that reach [userId]. *)
Definition notifications_received (g : ChatGateway.t) (userId : string)
    (out : list Effect) : nat :=
  length (List.filter (notifies g userId) out).

(** The fan-out property as the specification words it: one room event,
    one notification for each participant but the sender, none for the
    sender. *)
Definition one_notification_each (g : ChatGateway.t) (now : Z)
    (conversationId : string) (messageResponse : MessageResponseDto.t)
    (participantIds : list string) : Prop :=
  let out := ChatGateway.broadcastToConversation g now conversationId messageResponse
               (Some participantIds) in
  room_events conversationId out = 1
  ∧ (∀ p, p ∈ participantIds → p ≠ MessageResponseDto.senderId messageResponse →
          notifications_received g p out = 1)
  ∧ notifications_received g (MessageResponseDto.senderId messageResponse) out = 0.

(** The per-participant loop of [broadcastToConversation]. *)
Definition dispatch_all (g : ChatGateway.t) (sender : string) (data : Payload)
    (ids : list string) : list Effect :=
  flat_map
    (fun participantId =>
       if bool_decide (participantId ≠ sender)
       then ChatGateway.sendToUser g participantId "conversationUpdated" data
       else [])
    ids.

(** Every connection of the trace arrives with a socket id that is not
    registered at that moment (socket.io ids are unique per connection). *)
Fixpoint fresh_ids (g : ChatGateway.t) (es : list ConnEvent) : Prop :=
  match es with
  | [] => True
  | e :: es' =>
      match e with
      | Connect c => ChatGateway.socketUsers g !! socket_id c = None
      | Disconnect _ => True
      end
      ∧ fresh_ids (fst (presence_step g e)) es'
  end.

(** Every registered connection is owned, in [socketUsers], by the user
    whose set holds it. *)
Definition owner_recorded (g : ChatGateway.t) : Prop :=
  ∀ u s, s ∈ ChatGateway.connectionsOf g u → ChatGateway.socketUsers g !! s = Some u.

(** A registry with one device of "alice" and two devices of "bob";
    "carol" is offline. *)
Definition example_trace : list ConnEvent :=
  [Connect (mkSocket "a1" (Some "alice"));
   Connect (mkSocket "b1" (Some "bob"));
   Connect (mkSocket "b2" (Some "bob"))].

Definition example_gateway : ChatGateway.t :=
  presence_run ChatGateway.initial example_trace.

(** A text message "hi" of "alice" in conversation "c1". *)
Definition example_response : MessageResponseDto.t :=
  MessageResponseDto.mk "m1" "c1" "alice" (Some "hi") TEXT
    None None None None SENT None None None 10.

(** The ids of the conversations [findByUserId] returns for a user. *)
Definition conversationIds_of (st : Store) (userId : string) : list string :=
  match outcome_of (ConversationsService.findByUserId userId) st with
  | Returned conversations => map Conversation.id conversations
  | Thrown _ => []
  end.

(** There is a participant row for the pair (conversation, user). *)
Definition participant_row (st : Store) (conversationId userId : string) : Prop :=
  ∃ p, p ∈ participants st
       ∧ ConversationParticipant.conversationId p = conversationId
       ∧ ConversationParticipant.userId p = userId.

(** Message ids are a primary key. *)
Definition primary_keys_unique (st : Store) : Prop :=
  NoDup (map Message.id (messages st)).

(** A payload that passes [validateMessageContent]. *)
Definition payload_valid (dto : CreateMessageDto.t) : Prop :=
  (CreateMessageDto.type dto = TEXT → blank (CreateMessageDto.content dto) = false)
  ∧ (CreateMessageDto.type dto = IMAGE ∨ CreateMessageDto.type dto = FILE →
     blank (CreateMessageDto.fileUrl dto) = false).

(** The tombstone of a row: content cleared, deleted flag set. *)
Definition tombstone (m : Message.t) : Message.t :=
  Message.set_content None (Message.set_isDeleted true m).

(** [userId] has a participant row for the existing conversation
    [conversationId]. *)
Definition participates (st : Store) (userId conversationId : string) : Prop :=
  participant_row st conversationId userId
  ∧ (∃ c, c ∈ conversations st ∧ Conversation.id c = conversationId).

(** Eligibility for the delivery backfill, in the words of the
    specification: not globally deleted, not sent by this user, currently
    SENT, in a conversation this user participates in. *)
Definition delivery_eligible (st : Store) (userId : string) (m : Message.t) : Prop :=
  Message.isDeleted m = false
  ∧ Message.senderId m ≠ userId
  ∧ Message.status m = SENT
  ∧ participates st userId (Message.conversationId m).

(** Along a sequence of status operations no row moves to a lower
    status. *)
Definition status_never_regresses (st : Store) (ops : list StatusOp) : Prop :=
  ∀ i m m',
    messages st !! i = Some m →
    messages (status_run st ops) !! i = Some m' →
    status_rank (Message.status m) ≤ status_rank (Message.status m').

(** One READ text message of "alice" in conversation "c1", shared with
    "bob". *)
Definition example_read_store : Store :=
  mkStore
    [Message.mk "m1" "c1" "alice" (Some "hi") TEXT None None None None
                READ false None None None 10]
    []
    [ConversationParticipant.mk "c1" "alice" None;
     ConversationParticipant.mk "c1" "bob" None]
    [Conversation.mk "c1" (Some "m1") (Some "hi") (Some "alice") (Some TEXT) (Some 10%Z) 10].

(** Two conversations: "c1" of "alice" and "bob", "c2" of "alice" and
    "carol".  Four messages, all SENT: "hi" of "alice" and "Hi, yo" of
    "bob" in "c1", "Hello" of "alice" in "c2", and a globally deleted one
    of "alice" in "c1". *)
Definition example_message_hi : Message.t :=
  Message.mk "m1" "c1" "alice" (Some "hi") TEXT None None None None
             SENT false None None None 10.

Definition example_message_yo : Message.t :=
  Message.mk "m2" "c1" "bob" (Some "Hi, yo") TEXT None None None None
             SENT false None None None 20.

Definition example_message_hello : Message.t :=
  Message.mk "m3" "c2" "alice" (Some "Hello") TEXT None None None None
             SENT false None None None 30.

Definition example_message_gone : Message.t :=
  Message.mk "m4" "c1" "alice" None TEXT None None None None
             SENT true None None None 40.

Definition example_store : Store :=
  mkStore
    [example_message_hi; example_message_yo; example_message_hello; example_message_gone]
    []
    [ConversationParticipant.mk "c1" "alice" None;
     ConversationParticipant.mk "c1" "bob" None;
     ConversationParticipant.mk "c2" "alice" None;
     ConversationParticipant.mk "c2" "carol" None]
    [Conversation.mk "c1" None None None None None 5;
     Conversation.mk "c2" None None None None None 6].

(** Number of [MessageDeletion] rows for a (message, user) pair. *)
Definition deletion_count (st : Store) (messageId userId : string) : nat :=
  length (List.filter
            (fun d => str_eqb (MessageDeletion.messageId d) messageId
                      && str_eqb (MessageDeletion.userId d) userId)
            (deletions st)).

(** One call of [deleteMessageForMe] with the key and date its new row
    would get. *)
Record DeleteForMeCall := mkDeleteForMeCall {
  call_newId : string;
  call_now : Z;
  call_messageId : string;
  call_userId : string
}.

Definition delete_for_me_run (st : Store) (calls : list DeleteForMeCall) : Store :=
  fold_left
    (fun st c =>
       store_after
         (MessagesService.deleteMessageForMe (call_newId c) (call_now c)
            (call_messageId c) (call_userId c))
         st)
    calls st.

(** The authorization property as the specification words it: a sender
    outside the conversation gets an authorization error. *)
Definition non_participant_send_forbidden (st : Store) (newId : string)
    (createdAt now updatedAt : Z) (dto : CreateMessageDto.t) : Prop :=
  ¬ participant_row st (CreateMessageDto.conversationId dto) (CreateMessageDto.senderId dto) →
  ∃ message,
    outcome_of (MessagesService.saveMessage newId createdAt now updatedAt dto) st
    = Thrown (ForbiddenException message).

(** A blank text message of "mallory", who is in no conversation, for
    conversation "c1". *)
Definition example_blank_dto : CreateMessageDto.t :=
  CreateMessageDto.mk "c1" "mallory" (Some "   ") TEXT None None None None None.

(** The forwarding property as it is worded: an authorization error
    exactly when the forwarder is outside the target conversation. *)
Definition forward_forbidden_iff_outsider (st : Store) (newId : string) (createdAt : Z)
    (messageId userId targetConversationId : string) : Prop :=
  (∃ message,
     outcome_of (MessagesService.forwardMessage newId createdAt messageId userId
                   targetConversationId) st
     = Thrown (ForbiddenException message))
  ↔ ¬ participant_row st targetConversationId userId.

(** What [deleteMessageForEveryone] does to one row. *)
Definition tombstone_of (messageId : string) (m : Message.t) : Message.t :=
  if str_eqb (Message.id m) messageId then tombstone m else m.

(** The [WHERE] clauses of the two searches. *)
Definition search_where (conversationId query : string) (m : Message.t) : bool :=
  str_eqb (Message.conversationId m) conversationId
  && MessagesService.content_like query m
  && bool_decide (Message.isDeleted m = false).

Definition search_global_where (conversationIds : list string) (query : string)
    (m : Message.t) : bool :=
  in_strings (Message.conversationId m) conversationIds
  && MessagesService.content_like query m
  && bool_decide (Message.isDeleted m = false).

(** The tombstone property as the specification words it for the
    filtered history fetch: after the global deletion the viewer's page
    holds the message with cleared content and the deleted flag. *)
Definition filtered_fetch_shows_tombstone (st : Store) (messageId userId : string)
    (viewer conversationId : string) (limit offset : nat) : Prop :=
  let st' := store_after (MessagesService.deleteMessageForEveryone messageId userId) st in
  ∃ rows m,
    outcome_of (MessagesService.findByConversationIdFiltered conversationId viewer
                  limit offset) st' = Returned rows
    ∧ m ∈ rows
    ∧ Message.id m = messageId
    ∧ Message.content m = None
    ∧ Message.isDeleted m = true.



(** [a] is at least as recent as [b]. *)
Definition not_older (a b : Message.t) : Prop :=
  (Message.createdAt b <= Message.createdAt a)%Z.



(* ===================================================================== *)
(** ** Further operations of the service, the gateway and the controller *)
(* ===================================================================== *)

(** [entities/message-reaction.entity.ts]: [class MessageReaction]. *)
Module MessageReaction.
Record t := mk {
  id : string;
  messageId : string;
  userId : string;
  reaction : string;
  createdAt : Z
}.

Definition set_reaction (r : string) (x : t) : t :=
  mk (id x) (messageId x) (userId x) r (createdAt x).
End MessageReaction.

(** The reaction methods of [messages.service.ts].  They read the message
    table of the store and write only the reaction table, which is
    threaded here as a list of rows in insertion order. *)
Module Reactions.

Definition same_pair (messageId userId : string) (r : MessageReaction.t) : bool :=
  str_eqb (MessageReaction.messageId r) messageId
  && str_eqb (MessageReaction.userId r) userId.

(** [addReaction(messageId, userId, reaction)]; [newId] and [now] are the
    key and creation date a new row gets. *)
Definition addReaction (st : Store) (newId : string) (now : Z)
    (messageId userId reaction : string) (rows : list MessageReaction.t)
  : Outcome MessageReaction.t * list MessageReaction.t :=
  match List.find (fun m => str_eqb (Message.id m) messageId) (messages st) with
  | None => (Thrown (NotFoundException "Message not found"), rows)
  | Some _ =>
      match List.find (same_pair messageId userId) rows with
      | Some existingReaction =>
          let updated := MessageReaction.set_reaction reaction existingReaction in
          (Returned updated,
           map (fun r => if str_eqb (MessageReaction.id r) (MessageReaction.id updated)
                         then updated else r)
               rows)
      | None =>
          let newReaction := MessageReaction.mk newId messageId userId reaction now in
          (Returned newReaction, (rows ++ [newReaction])%list)
      end
  end.

(** [removeReaction(messageId, userId)]. *)
Definition removeReaction (messageId userId : string) (rows : list MessageReaction.t)
  : list MessageReaction.t :=
  List.filter (fun r => negb (same_pair messageId userId r)) rows.

(** [getReactions(messageId)]. *)
Definition getReactions (messageId : string) (rows : list MessageReaction.t)
  : list MessageReaction.t :=
  List.filter (fun r => str_eqb (MessageReaction.messageId r) messageId) rows.

(** One step of the [forEach] of [getReactionsSummary] on the
    [Map<string, string[]>], kept as a list of entries in insertion
    order: the user is pushed to the entry of the reaction, which is
    created at the end when missing. *)
Fixpoint summary_push (reaction userId : string) (summary : list (string * list string))
  : list (string * list string) :=
  match summary with
  | [] => [(reaction, [userId])]
  | (key, users) :: rest =>
      if str_eqb key reaction
      then (key, (users ++ [userId])%list) :: rest
      else (key, users) :: summary_push reaction userId rest
  end.

Record SummaryEntry := mkSummaryEntry {
  entry_reaction : string;
  entry_count : nat;
  entry_users : list string
}.

(** [getReactionsSummary(messageId)]. *)
Definition getReactionsSummary (messageId : string) (rows : list MessageReaction.t)
  : list SummaryEntry :=
  let reactions := getReactions messageId rows in
  let summary :=
    fold_left
      (fun summary r =>
         summary_push (MessageReaction.reaction r) (MessageReaction.userId r) summary)
      reactions [] in
  map (fun entry => mkSummaryEntry (fst entry) (length (snd entry)) (snd entry)) summary.

End Reactions.

(** The result of the gallery queries:
    [{ items, total, page, totalPages }]. *)
Module PagedResult.
Record t := mk {
  items : list Message.t;
  total : nat;
  page : nat;
  totalPages : nat
}.
End PagedResult.

(** [Math.ceil(total / limit)] for natural numbers and a positive
    [limit] (the controller replaces a limit of zero by 20). *)
Definition ceil_div (total limit : nat) : nat :=
  if total mod limit =? 0 then total / limit else S (total / limit).

(** The media gallery of [messages.service.ts]. *)
Module Gallery.

(** [messageRepository.findAndCount({ where, order: { createdAt: 'DESC' },
    skip: (page - 1) * limit, take: limit })] followed by the result
    object; [pageNumber] is at least 1 (the controller replaces 0 by 1). *)
Definition findAndCount (selected : Message.t -> bool) (pageNumber limit : nat)
  : M PagedResult.t :=
  fun st =>
    let matching := sort_by createdAt_desc (List.filter selected (messages st)) in
    let total := length matching in
    (Returned
       (PagedResult.mk (page limit ((pageNumber - 1) * limit) matching)
                       total pageNumber (ceil_div total limit)),
     st).

Definition of_type (conversationId : string) (type : MessageType) (m : Message.t) : bool :=
  str_eqb (Message.conversationId m) conversationId
  && bool_decide (Message.type m = type)
  && bool_decide (Message.isDeleted m = false).

(** [getConversationImages(conversationId, page, limit)]. *)
Definition getConversationImages (conversationId : string) (pageNumber limit : nat)
  : M PagedResult.t :=
  findAndCount (of_type conversationId IMAGE) pageNumber limit.

(** [getConversationVideos(conversationId, page, limit)]. *)
Definition getConversationVideos (conversationId : string) (pageNumber limit : nat)
  : M PagedResult.t :=
  findAndCount (of_type conversationId VIDEO) pageNumber limit.

(** [getConversationFiles(conversationId, page, limit)]. *)
Definition getConversationFiles (conversationId : string) (pageNumber limit : nat)
  : M PagedResult.t :=
  findAndCount (of_type conversationId FILE) pageNumber limit.

(** [getConversationMedia(conversationId, page, limit)]: the [where]
    array is a disjunction. *)
Definition getConversationMedia (conversationId : string) (pageNumber limit : nat)
  : M PagedResult.t :=
  findAndCount
    (fun m => of_type conversationId IMAGE m || of_type conversationId VIDEO m)
    pageNumber limit.

End Gallery.

(** More of [messages.service.ts] and [conversations.service.ts]. *)
Module MessagesQueries.

(** [getMessageCount(conversationId?)]. *)
Definition getMessageCount (conversationId : option string) : M nat :=
  fun st =>
    match truthy conversationId with
    | Some c =>
        (Returned (length (List.filter
                             (fun m => str_eqb (Message.conversationId m) c)
                             (messages st))),
         st)
    | None => (Returned (length (messages st)), st)
    end.

(** [MessagesService.findById(messageId)]. *)
Definition findById (messageId : string) : M Message.t :=
  let! message := message_findOne messageId in
  match message with
  | None => throw (NotFoundException "Message not found")
  | Some message => ret message
  end.

(** [ConversationsService.findById(id)] with [relations: ['participants']]:
    the conversation and its participant rows. *)
Definition conversation_findById (id : string)
  : M (Conversation.t * list ConversationParticipant.t) :=
  fun st =>
    match List.find (fun c => str_eqb (Conversation.id c) id) (conversations st) with
    | None => (Thrown (NotFoundException "Conversation not found"), st)
    | Some conversation =>
        (Returned
           (conversation,
            List.filter
              (fun p => str_eqb (ConversationParticipant.conversationId p) id)
              (participants st)),
         st)
    end.

End MessagesQueries.

(** [messages.controller.ts]: the two endpoints that persist a message
    and announce it. *)
Module MessagesController.

(** [toMessageResponse(message)]. *)
Definition toMessageResponse (message : Message.t) : MessageResponseDto.t :=
  MessageResponseDto.mk
    (Message.id message) (Message.conversationId message) (Message.senderId message)
    (Message.content message) (Message.type message) (Message.fileUrl message)
    (Message.fileName message) (Message.fileMimeType message) (Message.fileSize message)
    (Message.status message) (Message.replyToMessageId message)
    (Message.forwardedFromId message) (Message.editedAt message)
    (Message.createdAt message).

(** [sendTextMessage(conversationId, body)]: the response and what the
    gateway [g] emits.  [now] and [updatedAt] are the clocks of the
    preview update, [announcedAt] the clock of the broadcast. *)
Definition sendTextMessage (g : ChatGateway.t) (newId : string)
    (createdAt now updatedAt announcedAt : Z) (conversationId : string)
    (body_content : option string) (body_senderId : string)
  : M (MessageResponseDto.t * list Effect) :=
  let! message :=
    MessagesService.saveMessage newId createdAt now updatedAt
      (CreateMessageDto.mk conversationId body_senderId body_content TEXT
                           None None None None None) in
  let messageResponse :=
    MessageResponseDto.mk
      (Message.id message) (Message.conversationId message) (Message.senderId message)
      (Message.content message) (Message.type message) (Message.fileUrl message)
      None None None (Message.status message) None None None
      (Message.createdAt message) in
  let! conversation := MessagesQueries.conversation_findById conversationId in
  let participantIds := map ConversationParticipant.userId (snd conversation) in
  ret (messageResponse,
       ChatGateway.broadcastToConversation g announcedAt conversationId messageResponse
         (Some participantIds)).

(** [forwardMessage(messageId, userId, body)] of the controller. *)
Definition forwardMessage (g : ChatGateway.t) (newId : string)
    (createdAt announcedAt : Z) (messageId userId body_targetConversationId : string)
  : M (MessageResponseDto.t * list Effect) :=
  let! message :=
    MessagesService.forwardMessage newId createdAt messageId userId
      body_targetConversationId in
  let messageResponse := toMessageResponse message in
  let! conversation :=
    MessagesQueries.conversation_findById body_targetConversationId in
  let participantIds := map ConversationParticipant.userId (snd conversation) in
  ret (messageResponse,
       ChatGateway.broadcastToConversation g announcedAt body_targetConversationId
         messageResponse (Some participantIds)).

End MessagesController.

(** Every registered socket belongs to a named user and sits in the
    connection set of that user. *)
Definition registered_connected (g : ChatGateway.t) : Prop :=
  ∀ s u, ChatGateway.socketUsers g !! s = Some u →
         u ≠ "" ∧ s ∈ ChatGateway.connectionsOf g u.

(** Eligibility for the read transition, as the query of
    [markConversationAsRead] words it: in the conversation, not sent by
    this user, not yet READ, not globally deleted. *)
Definition read_eligible (conversationId userId : string) (m : Message.t) : Prop :=
  Message.conversationId m = conversationId
  ∧ Message.senderId m ≠ userId
  ∧ Message.status m ≠ READ
  ∧ Message.isDeleted m = false.

(** A text of white space outside the ASCII range: U+00A0 (bytes 194,
    160) followed by U+2028 (bytes 226, 128, 168). *)
Definition example_unicode_blank : string :=
  String (ascii_of_nat 194) (String (ascii_of_nat 160)
    (String (ascii_of_nat 226) (String (ascii_of_nat 128)
       (String (ascii_of_nat 168) EmptyString)))).

(** The optional string is present and holds a character that is not
    white space. *)
Definition visible_text (value : option string) : Prop :=
  ∃ s, value = Some s ∧ all_white_space s = false.



(** The viewer has a [MessageDeletion] row for the message. *)
Definition hidden_from (st : Store) (viewer : string) (m : Message.t) : Prop :=
  ∃ d, d ∈ deletions st
       ∧ MessageDeletion.userId d = viewer
       ∧ MessageDeletion.messageId d = Message.id m.

(** The operation is one of the two batch operations. *)
Definition batch_only (op : StatusOp) : bool :=
  match op with
  | OpUpdateStatus _ _ => false
  | OpMarkConversationAsRead _ _ => true
  | OpMarkMessagesAsDeliveredForUser _ => true
  end.

(** What [editMessage] does to one row. *)
Definition edited (now : Z) (newContent : string) (m : Message.t) : Message.t :=
  Message.set_editedAt (Some now) (Message.set_content (Some newContent) m).

Definition edit_of (messageId : string) (now : Z) (newContent : string)
    (m : Message.t) : Message.t :=
  if str_eqb (Message.id m) messageId then edited now newContent m else m.

(** The preview columns [updateLastMessage] writes for a message. *)
Definition previewing (now updatedAt : Z) (message : Message.t) (c : Conversation.t)
  : Conversation.t :=
  if str_eqb (Conversation.id c) (Message.conversationId message)
  then Conversation.mk (Conversation.id c) (Some (Message.id message))
         (Message.content message) (Some (Message.senderId message))
         (Some (Message.type message)) (Some now) updatedAt
  else c.

(** The row [saveMessage] creates for a payload. *)
Definition message_of_dto (newId : string) (createdAt : Z) (dto : CreateMessageDto.t)
  : Message.t :=
  Message.mk newId
    (CreateMessageDto.conversationId dto) (CreateMessageDto.senderId dto)
    (CreateMessageDto.content dto) (CreateMessageDto.type dto)
    (CreateMessageDto.fileUrl dto) (CreateMessageDto.fileName dto)
    (CreateMessageDto.fileMimeType dto) (CreateMessageDto.fileSize dto)
    SENT false (CreateMessageDto.replyToMessageId dto) None None createdAt.

(** The row [forwardMessage] creates from an original. *)
Definition forwarded_copy (newId : string) (createdAt : Z)
    (userId targetConversationId : string) (original : Message.t) : Message.t :=
  Message.mk newId targetConversationId userId
    (Message.content original) (Message.type original)
    (Message.fileUrl original) (Message.fileName original)
    (Message.fileMimeType original) (Message.fileSize original)
    SENT false None (Some (Message.id original)) None createdAt.

(** The reaction rows of one (message, user) pair, and the rows of all
    other pairs. *)
Definition reactions_of (messageId userId : string) (rows : list MessageReaction.t)
  : list MessageReaction.t :=
  List.filter (Reactions.same_pair messageId userId) rows.

Definition reactions_of_others (messageId userId : string)
    (rows : list MessageReaction.t) : list MessageReaction.t :=
  List.filter (fun r => negb (Reactions.same_pair messageId userId r)) rows.

(** The constraints of the [message_reactions] table: the primary key
    and [@Unique(['messageId', 'userId'])]. *)
Definition reaction_table_ok (rows : list MessageReaction.t) : Prop :=
  NoDup (map MessageReaction.id rows)
  ∧ NoDup (map (fun r => (MessageReaction.messageId r, MessageReaction.userId r)) rows).

(** Some message of the store has this id. *)
Definition message_exists (st : Store) (messageId : string) : Prop :=
  ∃ m, m ∈ messages st ∧ Message.id m = messageId.

(** The users who put [reaction] on the message, in row order. *)
Definition users_reacting (messageId reaction : string) (rows : list MessageReaction.t)
  : list string :=
  map MessageReaction.userId
    (List.filter
       (fun r => str_eqb (MessageReaction.messageId r) messageId
                 && str_eqb (MessageReaction.reaction r) reaction)
       rows).

(** A reaction table for the running example: "bob" and "carol" like
    "hi", "alice" loves "Hi, yo". *)
Definition example_reactions : list MessageReaction.t :=
  [MessageReaction.mk "r1" "m1" "bob" "like" 11;
   MessageReaction.mk "r2" "m2" "alice" "love" 21;
   MessageReaction.mk "r3" "m1" "carol" "like" 12].

(** The four paged galleries of the service. *)
Inductive GalleryKind := Images | Videos | Files | Media.

Definition gallery_query (kind : GalleryKind)
  : string -> nat -> nat -> M PagedResult.t :=
  match kind with
  | Images => Gallery.getConversationImages
  | Videos => Gallery.getConversationVideos
  | Files => Gallery.getConversationFiles
  | Media => Gallery.getConversationMedia
  end.

(** The message belongs in the gallery of the conversation. *)
Definition in_gallery (kind : GalleryKind) (conversationId : string) (m : Message.t)
  : Prop :=
  Message.conversationId m = conversationId
  ∧ Message.isDeleted m = false
  ∧ match kind with
    | Images => Message.type m = IMAGE
    | Videos => Message.type m = VIDEO
    | Files => Message.type m = FILE
    | Media => Message.type m = IMAGE ∨ Message.type m = VIDEO
    end.

#[global] Instance in_gallery_dec kind conversationId m :
  Decision (in_gallery kind conversationId m).
Proof. unfold in_gallery. destruct kind; apply _. Defined.

(** The items of the pages 1 to [n] of a gallery, in page order. *)
Definition gallery_walk (kind : GalleryKind) (conversationId : string)
    (limit n : nat) (st : Store) : list Message.t :=
  flat_map
    (fun pageNumber =>
       match outcome_of (gallery_query kind conversationId pageNumber limit) st with
       | Returned result => PagedResult.items result
       | Thrown _ => []
       end)
    (seq 1 n).

(** A conversation with three photos, one video, one document, one
    deleted photo and one text. *)
Definition example_album : Store :=
  mkStore
    [Message.mk "p1" "c1" "alice" None IMAGE (Some "/u/p1.png") None None None
                SENT false None None None 10;
     Message.mk "p2" "c1" "bob" None IMAGE (Some "/u/p2.png") None None None
                SENT false None None None 20;
     Message.mk "v1" "c1" "bob" None VIDEO (Some "/u/v1.mp4") None None None
                SENT false None None None 30;
     Message.mk "p3" "c1" "alice" None IMAGE (Some "/u/p3.png") None None None
                SENT false None None None 40;
     Message.mk "f1" "c1" "alice" None FILE (Some "/u/f1.pdf") None None None
                SENT false None None None 50;
     Message.mk "p4" "c1" "alice" None IMAGE (Some "/u/p4.png") None None None
                SENT true None None None 60;
     Message.mk "t1" "c1" "bob" (Some "nice") TEXT None None None None
                SENT false None None None 70]
    []
    [ConversationParticipant.mk "c1" "alice" None;
     ConversationParticipant.mk "c1" "bob" None]
    [Conversation.mk "c1" None None None None None 5].

(** The constraint [@Unique(['conversationId', 'userId'])] of the
    participant table. *)
Definition participant_table_ok (st : Store) : Prop :=
  NoDup (map (fun p => (ConversationParticipant.conversationId p,
                        ConversationParticipant.userId p))
             (participants st)).

(** Some conversation of the store has this id. *)
Definition conversation_exists (st : Store) (conversationId : string) : Prop :=
  ∃ c, c ∈ conversations st ∧ Conversation.id c = conversationId.

(** The payload [sendTextMessage] of the controller hands to the
    service. *)
Definition text_dto (conversationId senderId : string) (content : option string)
  : CreateMessageDto.t :=
  CreateMessageDto.mk conversationId senderId content TEXT None None None None None.

(* ===================================================================== *)
(** * Properties *)
(* ===================================================================== *)

(* --------------------------------------------------------------------- *)
(** ** Presence registry *)
(* --------------------------------------------------------------------- *)

Section Presence.

Import ChatGateway.

Lemma no_empty_entry_initial : no_empty_entry initial.
Proof. intros u S H. cbn in H. by rewrite lookup_empty in H. Qed.

Lemma handleConnection_no_empty g c :
  no_empty_entry g → no_empty_entry (fst (handleConnection g c)).
Proof.
  intros Hinv. unfold handleConnection.
  destruct (truthy (handshake_query_userId c)) as [userId|]; [|exact Hinv].
  intros u S; simpl.
  destruct (decide (u = userId)) as [->|Hne].
  - rewrite lookup_insert_eq. intros [= <-]. set_solver.
  - rewrite lookup_insert_ne by done.
    destruct (userSockets g !! userId) eqn:E.
    + apply Hinv.
    + rewrite lookup_insert_ne by done. apply Hinv.
Qed.

Lemma handleDisconnect_no_empty g c :
  no_empty_entry g → no_empty_entry (fst (handleDisconnect g c)).
Proof.
  intros Hinv. unfold handleDisconnect.
  destruct (truthy (socketUsers g !! socket_id c)) as [userId|]; [|exact Hinv].
  destruct (userSockets g !! userId) as [S0|] eqn:E; [|exact Hinv].
  case_bool_decide as Hsz; intros u S; simpl.
  - destruct (decide (u = userId)) as [->|Hne].
    + by rewrite lookup_delete_eq.
    + rewrite lookup_delete_ne by done. apply Hinv.
  - destruct (decide (u = userId)) as [->|Hne].
    + rewrite lookup_insert_eq. intros [= <-] Hemp.
      apply Hsz. rewrite Hemp. apply size_empty.
    + rewrite lookup_insert_ne by done. apply Hinv.
Qed.

Lemma presence_run_no_empty es : ∀ g,
  no_empty_entry g → no_empty_entry (presence_run g es).
Proof.
  induction es as [|e es IH]; intros g Hg; [exact Hg|].
  cbn. apply IH. destruct e; cbn.
  - by apply handleConnection_no_empty.
  - by apply handleDisconnect_no_empty.
Qed.

Lemma isUserOnline_spec g u :
  isUserOnline g u = true ↔ is_Some (userSockets g !! u).
Proof. unfold isUserOnline. by rewrite bool_decide_eq_true. Qed.

Lemma online_iff_connections g u :
  no_empty_entry g → (is_Some (userSockets g !! u) ↔ connectionsOf g u ≠ ∅).
Proof.
  intros Hinv. unfold connectionsOf. split.
  - intros [S HS]. rewrite HS. cbn. by eapply Hinv.
  - destruct (userSockets g !! u); [eauto | cbn; congruence].
Qed.

(** Disconnecting a socket registered to [userId] leaves the entry of
    any other user [u] as it was and says nothing about [u]. *)
Lemma disconnect_keeps_other g userId u s1 S :
  userId ≠ u → userSockets g !! u = Some S →
  let r :=
    match userSockets g !! userId with
    | Some userSocketSet =>
        if bool_decide (size (userSocketSet ∖ {[s1]}) = 0)
        then (delete userId (userSockets g),
              [ServerEmit "userOffline"
                 (PresenceData userId
                    (elements (dom (delete userId (userSockets g)))))])
        else (<[userId := userSocketSet ∖ {[s1]}]> (userSockets g), [])
    | None => (userSockets g, [])
    end in
  fst r !! u = Some S ∧ ¬ emits_offline u (snd r).
Proof.
  intros Hother Eu. unfold emits_offline. cbn zeta.
  destruct (userSockets g !! userId) as [S'|].
  - case_bool_decide; cbn.
    + rewrite lookup_delete_ne by done. split; [done|].
      intros [online [Hin|[]]]. congruence.
    + rewrite lookup_insert_ne by done. split; [done|]. by intros [? []].
  - cbn. split; [done|]. by intros [? []].
Qed.

(** Dropping one of two distinct connections of [u]. *)
Lemma disconnect_one_of_two g u s1 s2 q :
  s1 ≠ s2 → s1 ∈ connectionsOf g u → s2 ∈ connectionsOf g u →
  let r := handleDisconnect g (mkSocket s1 q) in
  isUserOnline (fst r) u = true
  ∧ s2 ∈ connectionsOf (fst r) u
  ∧ ¬ emits_offline u (snd r)
  ∧ (socketUsers g !! s1 = Some u → snd r = []).
Proof.
  intros Hne H1 H2. unfold connectionsOf in H1, H2.
  destruct (userSockets g !! u) as [S|] eqn:Eu; cbn in H1, H2; [|set_solver].
  unfold handleDisconnect. cbn [socket_id].
  destruct (truthy (socketUsers g !! s1)) as [userId|] eqn:Et.
  2:{ cbn. rewrite isUserOnline_spec. unfold connectionsOf, emits_offline.
      rewrite Eu. cbn. split_and!; [eauto | done | by intros [? []] | done]. }
  assert (Hsu : socketUsers g !! s1 = Some u → userId = u).
  { intros Hs. rewrite Hs in Et. destruct u; cbn in Et; congruence. }
  destruct (decide (userId = u)) as [->|Hother].
  - rewrite Eu.
    assert (Hsz : size (S ∖ {[s1]}) ≠ 0).
    { intros Hz. apply size_empty_inv in Hz. set_solver. }
    rewrite bool_decide_eq_false_2 by done. cbn.
    rewrite isUserOnline_spec. unfold connectionsOf, emits_offline. cbn.
    rewrite lookup_insert_eq. cbn.
    split_and!; [eauto | set_solver | by intros [? []] | done].
  - pose proof (disconnect_keeps_other g userId u s1 S Hother Eu) as Hk.
    cbn zeta in Hk.
    destruct (match userSockets g !! userId with
              | Some _ => _ | None => _ end) as [us out].
    destruct Hk as [Hus Hoff]. cbn in Hus, Hoff. cbn.
    rewrite isUserOnline_spec. unfold connectionsOf. cbn. rewrite Hus. cbn.
    split_and!; [eauto | done | done |]. intros Hs. by specialize (Hsu Hs).
Qed.

End Presence.

(** C3.  In every state of the presence registry reached from the empty
    one by connection and disconnection events, a user is online exactly
    when its connection set is non-empty, a key of [userSockets] exists
    exactly when its set is non-empty, and disconnecting one of two
    distinct connections of a user leaves the user online, with the
    other connection still registered, without a [userOffline] event for
    that user (and without any event when the socket is registered to
    that user). *)
Theorem presence_invariant (events : list ConnEvent) :
  let g := presence_run ChatGateway.initial events in
  (∀ u, ChatGateway.isUserOnline g u = true ↔ ChatGateway.connectionsOf g u ≠ ∅)
  ∧ (∀ u, is_Some (ChatGateway.userSockets g !! u) ↔ ChatGateway.connectionsOf g u ≠ ∅)
  ∧ (∀ u s1 s2 q,
       s1 ≠ s2 →
       s1 ∈ ChatGateway.connectionsOf g u →
       s2 ∈ ChatGateway.connectionsOf g u →
       let r := ChatGateway.handleDisconnect g (mkSocket s1 q) in
       ChatGateway.isUserOnline (fst r) u = true
       ∧ s2 ∈ ChatGateway.connectionsOf (fst r) u
       ∧ ¬ emits_offline u (snd r)
       ∧ (ChatGateway.socketUsers g !! s1 = Some u → snd r = [])).
Proof.
  intros g.
  assert (Hinv : no_empty_entry g)
    by (apply presence_run_no_empty, no_empty_entry_initial).
  split; [|split].
  - intros u. rewrite isUserOnline_spec. by apply online_iff_connections.
  - intros u. by apply online_iff_connections.
  - intros u s1 s2 q. apply disconnect_one_of_two.
Qed.

(** Two devices of "alice" connect; the first one disconnects. *)
Lemma presence_invariant_witness :
  let g := presence_run ChatGateway.initial
             [Connect (mkSocket "s1" (Some "alice"));
              Connect (mkSocket "s2" (Some "alice"))] in
  let r := ChatGateway.handleDisconnect g (mkSocket "s1" None) in
  ChatGateway.isUserOnline (fst r) "alice" = true
  ∧ "s2" ∈ ChatGateway.connectionsOf (fst r) "alice"
  ∧ ¬ emits_offline "alice" (snd r)
  ∧ (ChatGateway.socketUsers g !! "s1" = Some "alice" → snd r = []).
Proof.
  intros g.
  destruct (presence_invariant
              [Connect (mkSocket "s1" (Some "alice"));
               Connect (mkSocket "s2" (Some "alice"))]) as (_ & _ & H).
  apply (H "alice" "s1" "s2" None).
  - discriminate.
  - vm_compute. reflexivity.
  - vm_compute. reflexivity.
Defined.

(* --------------------------------------------------------------------- *)
(** ** Fan-out *)
(* --------------------------------------------------------------------- *)

Section FanOut.

Import ChatGateway.

Variable g : ChatGateway.t.

Lemma filter_length_app {A} (f : A → bool) (l1 l2 : list A) :
  length (List.filter f (l1 ++ l2))
  = length (List.filter f l1) + length (List.filter f l2).
Proof. by rewrite List.filter_app, length_app. Qed.

Lemma filter_length_none {A} (f : A → bool) (l : list A) :
  (∀ x, x ∈ l → f x = false) → length (List.filter f l) = 0.
Proof.
  induction l as [|x l IH]; intros H; [done|]. cbn.
  rewrite (H x) by left. apply IH. intros y Hy. apply H. by right.
Qed.

Lemma filter_length_all {A} (f : A → bool) (l : list A) :
  (∀ x, x ∈ l → f x = true) → length (List.filter f l) = length l.
Proof.
  induction l as [|x l IH]; intros H; [done|]. cbn.
  rewrite (H x) by left. cbn. f_equal. apply IH. intros y Hy. apply H. by right.
Qed.

Lemma sendToUser_elem u event data e :
  e ∈ sendToUser g u event data →
  ∃ s, s ∈ connectionsOf g u ∧ e = ToEmit s event data.
Proof.
  unfold sendToUser, connectionsOf.
  destruct (userSockets g !! u) as [S|]; cbn; [|by intros ?%elem_of_nil].
  intros He. apply list_elem_of_fmap in He as (s & -> & Hs).
  exists s. split; [|done].
  by apply elem_of_elements.
Qed.

Lemma sendToUser_length u event data :
  length (sendToUser g u event data) = size (connectionsOf g u).
Proof.
  unfold sendToUser, connectionsOf.
  destruct (userSockets g !! u) as [S|]; cbn.
  - by rewrite length_map.
  - by rewrite size_empty.
Qed.

(** A dispatch to [u] reaches [u] once per connection. *)
Lemma notified_by_own_dispatch u data :
  notifications_received g u (sendToUser g u "conversationUpdated" data)
  = size (connectionsOf g u).
Proof.
  unfold notifications_received.
  rewrite filter_length_all; [apply sendToUser_length|].
  intros e (s & Hs & ->)%sendToUser_elem. cbn.
  by rewrite bool_decide_eq_true_2.
Qed.

(** A dispatch to another user does not reach [u]. *)
Lemma not_notified_by_other_dispatch u p data :
  sockets_disjoint g → p ≠ u →
  notifications_received g u (sendToUser g p "conversationUpdated" data) = 0.
Proof.
  intros Hdis Hne. unfold notifications_received.
  apply filter_length_none.
  intros e (s & Hs & ->)%sendToUser_elem. cbn.
  rewrite bool_decide_eq_false_2; [done|].
  intros Hu. apply Hne. by apply (Hdis p u s).
Qed.

Lemma dispatch_all_absent sender data u ids :
  sockets_disjoint g → u ∉ ids →
  notifications_received g u (dispatch_all g sender data ids) = 0.
Proof.
  intros Hdis. induction ids as [|p ids IH]; intros Hu; [done|].
  apply not_elem_of_cons in Hu as [Hne Hu].
  unfold dispatch_all, notifications_received in *. cbn [flat_map].
  rewrite filter_length_app, (IH Hu), Nat.add_0_r.
  case_bool_decide; [|done].
  by apply not_notified_by_other_dispatch.
Qed.

Lemma dispatch_all_sender sender data ids :
  sockets_disjoint g →
  notifications_received g sender (dispatch_all g sender data ids) = 0.
Proof.
  intros Hdis. induction ids as [|p ids IH]; [done|].
  unfold dispatch_all, notifications_received in *. cbn [flat_map].
  rewrite filter_length_app, IH, Nat.add_0_r.
  case_bool_decide as Hp; [|done].
  by apply not_notified_by_other_dispatch.
Qed.

Lemma dispatch_all_present sender data u ids :
  sockets_disjoint g → NoDup ids → u ∈ ids → u ≠ sender →
  notifications_received g u (dispatch_all g sender data ids)
  = size (connectionsOf g u).
Proof.
  intros Hdis. induction ids as [|p ids IH]; intros Hnd Hu Hs.
  - by apply elem_of_nil in Hu.
  - apply NoDup_cons in Hnd as [Hp Hnd].
    unfold dispatch_all, notifications_received in *. cbn [flat_map].
    rewrite filter_length_app.
    destruct (decide (p = u)) as [->|Hne].
    + rewrite bool_decide_eq_true_2 by done.
      fold (dispatch_all g sender data ids).
      pose proof (dispatch_all_absent sender data u ids Hdis Hp) as H0.
      unfold notifications_received in H0. rewrite H0, Nat.add_0_r.
      apply notified_by_own_dispatch.
    + apply elem_of_cons in Hu as [->|Hu]; [done|].
      rewrite (IH Hnd Hu Hs).
      case_bool_decide; [|done].
      pose proof (not_notified_by_other_dispatch u p data Hdis Hne) as H0.
      unfold notifications_received in H0. by rewrite H0.
Qed.

Lemma dispatch_all_no_room_event room sender data ids :
  length (List.filter (is_to_emit room "newMessage") (dispatch_all g sender data ids)) = 0.
Proof.
  apply filter_length_none. intros e He.
  unfold dispatch_all in He. apply list_elem_of_In, in_flat_map in He.
  destruct He as (p & _ & He). case_bool_decide; [|destruct He].
  apply list_elem_of_In, sendToUser_elem in He as (s & _ & ->).
  cbn. by rewrite andb_false_r.
Qed.

Lemma broadcast_unfold now conversationId messageResponse ids :
  broadcastToConversation g now conversationId messageResponse (Some ids)
  = ToEmit ("conversation:" +:+ conversationId) "newMessage"
           (NewMessageData messageResponse)
    :: dispatch_all g (MessageResponseDto.senderId messageResponse)
         (ConversationUpdatedData conversationId
            (MessageResponseDto.id messageResponse)
            (MessageResponseDto.content messageResponse)
            (MessageResponseDto.type messageResponse)
            (MessageResponseDto.senderId messageResponse)
            (MessageResponseDto.createdAt messageResponse)
            now)
         ids.
Proof. unfold broadcastToConversation. destruct ids; reflexivity. Qed.

End FanOut.

Section Ownership.

Import ChatGateway.

Lemma truthy_Some (o : option string) u : truthy o = Some u → o = Some u.
Proof. destruct o as [[|]|]; cbn; congruence. Qed.

Lemma owner_recorded_disjoint g : owner_recorded g → sockets_disjoint g.
Proof.
  intros Hown u1 u2 s H1 H2.
  apply Hown in H1. apply Hown in H2. congruence.
Qed.

Lemma connectionsOf_handleConnection g c userId u :
  truthy (handshake_query_userId c) = Some userId →
  connectionsOf (fst (handleConnection g c)) u
  = if decide (u = userId) then {[socket_id c]} ∪ connectionsOf g u
    else connectionsOf g u.
Proof.
  intros Ht. unfold handleConnection. rewrite Ht. unfold connectionsOf. simpl.
  destruct (decide (u = userId)) as [->|Hne].
  - rewrite lookup_insert_eq. simpl.
    destruct (userSockets g !! userId) as [S|] eqn:E.
    + by rewrite E.
    + by rewrite lookup_insert_eq.
  - rewrite lookup_insert_ne by done.
    destruct (userSockets g !! userId); [done|].
    by rewrite lookup_insert_ne.
Qed.

Lemma connectionsOf_handleDisconnect g c userId u :
  truthy (socketUsers g !! socket_id c) = Some userId →
  connectionsOf (fst (handleDisconnect g c)) u
  = if decide (u = userId) then connectionsOf g u ∖ {[socket_id c]}
    else connectionsOf g u.
Proof.
  intros Ht. unfold handleDisconnect. rewrite Ht. unfold connectionsOf.
  destruct (userSockets g !! userId) as [S|] eqn:E.
  - case_bool_decide as Hsz; simpl.
    + destruct (decide (u = userId)) as [->|Hne].
      * rewrite lookup_delete_eq, E. simpl.
        apply size_empty_inv in Hsz. by apply leibniz_equiv in Hsz.
      * by rewrite lookup_delete_ne.
    + destruct (decide (u = userId)) as [->|Hne].
      * by rewrite lookup_insert_eq, E.
      * by rewrite lookup_insert_ne.
  - simpl. destruct (decide (u = userId)) as [->|Hne]; [|done].
    rewrite E. simpl. symmetry. apply leibniz_equiv, elem_of_equiv_empty.
    intros x Hx. apply elem_of_difference in Hx as [Hx _]. by apply not_elem_of_empty in Hx.
Qed.

Lemma socketUsers_handleConnection g c userId :
  truthy (handshake_query_userId c) = Some userId →
  socketUsers (fst (handleConnection g c)) = <[socket_id c := userId]> (socketUsers g).
Proof. intros Ht. unfold handleConnection. by rewrite Ht. Qed.

Lemma socketUsers_handleDisconnect g c userId :
  truthy (socketUsers g !! socket_id c) = Some userId →
  socketUsers (fst (handleDisconnect g c)) = delete (socket_id c) (socketUsers g).
Proof.
  intros Ht. unfold handleDisconnect. rewrite Ht.
  by destruct (match userSockets g !! userId with Some _ => _ | None => _ end).
Qed.

Lemma handleConnection_owner g c :
  socketUsers g !! socket_id c = None →
  owner_recorded g → owner_recorded (fst (handleConnection g c)).
Proof.
  intros Hfresh Hown.
  destruct (truthy (handshake_query_userId c)) as [userId|] eqn:Ht.
  2:{ unfold handleConnection. by rewrite Ht. }
  intros u s. rewrite (connectionsOf_handleConnection g c userId u Ht),
                (socketUsers_handleConnection g c userId Ht).
  destruct (decide (s = socket_id c)) as [->|Hs].
  - rewrite lookup_insert_eq. destruct (decide (u = userId)) as [->|Hne]; [done|].
    intros Hin. apply Hown in Hin. congruence.
  - rewrite lookup_insert_ne by done.
    destruct (decide (u = userId)) as [->|Hne]; [|apply Hown].
    intros Hin. apply Hown.
    apply elem_of_union in Hin as [Hin|Hin]; [|done].
    apply elem_of_singleton in Hin. congruence.
Qed.

Lemma handleDisconnect_owner g c :
  owner_recorded g → owner_recorded (fst (handleDisconnect g c)).
Proof.
  intros Hown.
  destruct (truthy (socketUsers g !! socket_id c)) as [userId|] eqn:Ht.
  2:{ unfold handleDisconnect. by rewrite Ht. }
  intros u s. rewrite (connectionsOf_handleDisconnect g c userId u Ht),
                (socketUsers_handleDisconnect g c userId Ht).
  apply truthy_Some in Ht.
  destruct (decide (u = userId)) as [->|Hne].
  - intros Hin. apply elem_of_difference in Hin as [Hin Hs].
    rewrite lookup_delete_ne.
    + by apply Hown.
    + intros Heq. apply Hs. by apply elem_of_singleton.
  - intros Hin. apply Hown in Hin. rewrite lookup_delete_ne; [done|].
    intros Heq. rewrite Heq in Ht. congruence.
Qed.

(** With unique socket ids no connection is ever shared by two users. *)
Lemma reachable_sockets_disjoint es : ∀ g,
  owner_recorded g → fresh_ids g es → sockets_disjoint (presence_run g es).
Proof.
  induction es as [|e es IH]; intros g Hown Hfresh.
  - by apply owner_recorded_disjoint.
  - destruct Hfresh as [Hnew Hfresh]. cbn. apply IH; [|done].
    destruct e; cbn.
    + by apply handleConnection_owner.
    + by apply handleDisconnect_owner.
Qed.

Lemma owner_recorded_initial : owner_recorded initial.
Proof. intros u s. unfold connectionsOf. cbn. rewrite lookup_empty. set_solver. Qed.

End Ownership.

Lemma flat_map_if_filter {A B} (f : A → bool) (h : A → list B) (l : list A) :
  flat_map (fun x => if f x then h x else []) l = flat_map h (List.filter f l).
Proof.
  induction l as [|x l IH]; [done|]. cbn.
  destruct (f x); cbn; by rewrite IH.
Qed.

(** C4 (amended).  [broadcastToConversation] emits exactly one
    [newMessage] event to the room of the conversation and calls
    [sendToUser] once for every listed participant other than the sender;
    such a call emits one [conversationUpdated] event per live connection
    of that participant, so a participant listed once receives as many
    notifications as it has connections (none when offline), whatever
    the room subscriptions, and the sender receives none.  Without a
    participant list only the room event is emitted. *)
Theorem broadcast_fan_out (g : ChatGateway.t) (now : Z) (conversationId : string)
    (messageResponse : MessageResponseDto.t) (participantIds : list string) :
  NoDup participantIds →
  sockets_disjoint g →
  let sender := MessageResponseDto.senderId messageResponse in
  let data :=
    ConversationUpdatedData conversationId
      (MessageResponseDto.id messageResponse)
      (MessageResponseDto.content messageResponse)
      (MessageResponseDto.type messageResponse)
      sender
      (MessageResponseDto.createdAt messageResponse)
      now in
  let out := ChatGateway.broadcastToConversation g now conversationId messageResponse
               (Some participantIds) in
  out = ToEmit ("conversation:" +:+ conversationId) "newMessage"
               (NewMessageData messageResponse)
        :: flat_map (fun p => ChatGateway.sendToUser g p "conversationUpdated" data)
             (List.filter (fun p => bool_decide (p ≠ sender)) participantIds)
  ∧ room_events conversationId out = 1
  ∧ (∀ p, p ∈ participantIds → p ≠ sender →
          notifications_received g p out = size (ChatGateway.connectionsOf g p))
  ∧ notifications_received g sender out = 0
  ∧ ChatGateway.broadcastToConversation g now conversationId messageResponse None
    = [ToEmit ("conversation:" +:+ conversationId) "newMessage"
              (NewMessageData messageResponse)].
Proof.
  intros Hnd Hdis sender data out. subst out.
  rewrite broadcast_unfold. fold sender. fold data.
  split_and!.
  - f_equal. apply flat_map_if_filter.
  - unfold room_events. cbn [List.filter is_to_emit].
    unfold str_eqb. rewrite !bool_decide_eq_true_2 by done. cbn [andb length].
    f_equal. apply dispatch_all_no_room_event.
  - intros p Hp Hs. unfold notifications_received. cbn [List.filter notifies].
    replace (str_eqb "newMessage" "conversationUpdated") with false by done.
    cbn [andb].
    by apply dispatch_all_present.
  - unfold notifications_received. cbn [List.filter notifies].
    replace (str_eqb "newMessage" "conversationUpdated") with false by done.
    cbn [andb].
    by apply dispatch_all_sender.
  - reflexivity.
Qed.

Lemma example_gateway_disjoint : sockets_disjoint example_gateway.
Proof.
  apply reachable_sockets_disjoint.
  - apply owner_recorded_initial.
  - vm_compute. tauto.
Qed.

(** "bob" has two devices and gets two events, offline "carol" none. *)
Lemma broadcast_fan_out_witness :
  notifications_received example_gateway "bob"
    (ChatGateway.broadcastToConversation example_gateway 20 "c1" example_response
       (Some ["alice"; "bob"; "carol"]))
  = size (ChatGateway.connectionsOf example_gateway "bob")
  ∧ notifications_received example_gateway "carol"
      (ChatGateway.broadcastToConversation example_gateway 20 "c1" example_response
         (Some ["alice"; "bob"; "carol"]))
    = size (ChatGateway.connectionsOf example_gateway "carol").
Proof.
  assert (Hnd : NoDup ["alice"; "bob"; "carol"]).
  { apply (bool_decide_unpack _). vm_compute. exact I. }
  destruct (broadcast_fan_out example_gateway 20 "c1" example_response
              ["alice"; "bob"; "carol"] Hnd example_gateway_disjoint)
    as (_ & _ & H & _).
  split; apply H; try discriminate.
  - apply list_elem_of_In. cbn. tauto.
  - apply list_elem_of_In. cbn. tauto.
Defined.

(** C4, counterexample.  With one message sent by "alice" to the
    participants "alice", "bob" (two devices) and "carol" (offline), it is
    not the case that every participant other than the sender receives
    exactly one notification. *)
Lemma broadcast_one_each_counterexample :
  ¬ one_notification_each example_gateway 20 "c1" example_response
      ["alice"; "bob"; "carol"].
Proof.
  intros (_ & H & _).
  specialize (H "bob").
  assert (Hbob : "bob" ∈ ["alice"; "bob"; "carol"])
    by (apply list_elem_of_In; cbn; tauto).
  specialize (H Hbob).
  assert (Hne : "bob" ≠ MessageResponseDto.senderId example_response) by discriminate.
  specialize (H Hne).
  vm_compute in H. discriminate.
Qed.

(* --------------------------------------------------------------------- *)
(** ** Message status state machine *)
(* --------------------------------------------------------------------- *)

Section StatusMachine.

Import MessagesService.

Lemma set_messages_same st : set_messages (messages st) st = st.
Proof. by destruct st. Qed.

Lemma str_eqb_eq a b : str_eqb a b = true ↔ a = b.
Proof. unfold str_eqb. by rewrite bool_decide_eq_true. Qed.

Lemma str_eqb_refl a : str_eqb a a = true.
Proof. by apply str_eqb_eq. Qed.

Lemma in_strings_spec x l : in_strings x l = true ↔ x ∈ l.
Proof. unfold in_strings. by rewrite bool_decide_eq_true. Qed.

Lemma filter_none_nil {A} (f : A → bool) (l : list A) :
  (∀ x, x ∈ l → f x = false) → List.filter f l = [].
Proof.
  induction l as [|x l IH]; intros H; [done|]. cbn.
  rewrite (H x) by left. apply IH. intros y Hy. apply H. by right.
Qed.

(** Rows selected by nothing are left alone by a batch update. *)
Lemma map_if_unselected {A} (sel : A → bool) (f : A → A) (l : list A) :
  List.filter sel l = [] → map (fun m => if sel m then f m else m) l = l.
Proof.
  induction l as [|x l IH]; [done|]. cbn.
  destruct (sel x); [discriminate|]. intros H. by rewrite IH.
Qed.

(** After a batch update whose change unselects a row, nothing is
    selected any more. *)
Lemma update_then_select_empty {A} (sel : A → bool) (f : A → A) (l : list A) :
  (∀ m, sel m = true → sel (f m) = false) →
  List.filter sel (map (fun m => if sel m then f m else m) l) = [].
Proof.
  intros Hf. induction l as [|x l IH]; [done|]. cbn.
  destruct (sel x) eqn:E.
  - by rewrite (Hf x E).
  - by rewrite E.
Qed.

Lemma unread_for_READ c u m : unread_for c u (Message.set_status READ m) = false.
Proof.
  unfold unread_for. cbn. rewrite (bool_decide_eq_true_2 (READ = READ)) by done.
  cbn. by rewrite andb_false_r.
Qed.

Lemma undelivered_for_DELIVERED ids u m :
  undelivered_for ids u (Message.set_status DELIVERED m) = false.
Proof.
  unfold undelivered_for. cbn.
  rewrite (bool_decide_eq_false_2 (DELIVERED = SENT)) by done.
  cbn. by rewrite andb_false_r.
Qed.

(** What [markConversationAsRead] computes. *)
Lemma markConversationAsRead_run c u st :
  markConversationAsRead c u st
  = (Returned (length (List.filter (unread_for c u) (messages st))),
     set_messages
       (map (fun m => if unread_for c u m then Message.set_status READ m else m)
            (messages st))
       st).
Proof. reflexivity. Qed.

Lemma conversationIds_of_messages st ms u :
  conversationIds_of (set_messages ms st) u = conversationIds_of st u.
Proof.
  unfold conversationIds_of, outcome_of, ConversationsService.findByUserId.
  cbn [participants conversations set_messages].
  by destruct (map ConversationParticipant.conversationId _).
Qed.

Lemma remove_dups_nil_inv {A} `{EqDecision A} (l : list A) :
  remove_dups l = [] → l = [].
Proof.
  destruct l as [|x l]; [done|]. intros H.
  assert (Hx : x ∈ remove_dups (x :: l)) by (apply elem_of_remove_dups; left).
  rewrite H in Hx. by apply elem_of_nil in Hx.
Qed.

(** What [markMessagesAsDeliveredForUser] computes, whichever of its
    three exits is taken. *)
Lemma markMessagesAsDeliveredForUser_run u st :
  let sel := undelivered_for (conversationIds_of st u) u in
  markMessagesAsDeliveredForUser u st
  = (Returned
       (mkDelivered
          (length (List.filter sel (messages st)))
          (remove_dups (map Message.conversationId (List.filter sel (messages st))))),
     set_messages
       (map (fun m => if sel m then Message.set_status DELIVERED m else m) (messages st))
       st).
Proof.
  intros sel. subst sel. unfold markMessagesAsDeliveredForUser, conversationIds_of, outcome_of.
  unfold bind at 1.
  destruct (ConversationsService.findByUserId u st) as [[convs|e] st1] eqn:E.
  2:{ unfold ConversationsService.findByUserId in E.
      destruct (map _ _) in E; discriminate. }
  assert (st1 = st) as ->.
  { unfold ConversationsService.findByUserId in E.
    destruct (map _ _) in E; by injection E. }
  cbn [fst].
  destruct (map Conversation.id convs) as [|c0 ids] eqn:Eids.
  - assert (Hnone : List.filter (undelivered_for [] u) (messages st) = []).
    { apply filter_none_nil. intros m _. reflexivity. }
    rewrite map_if_unselected by done. rewrite Hnone, set_messages_same.
    reflexivity.
  - unfold bind at 1. unfold message_select_where at 1.
    destruct (remove_dups (map Message.conversationId
                (List.filter (undelivered_for (c0 :: ids) u) (messages st))))
      as [|a0 affected] eqn:Ea.
    + pose proof Ea as Hnone.
      apply remove_dups_nil_inv, map_eq_nil in Hnone.
      rewrite map_if_unselected by done. rewrite Hnone, set_messages_same.
      reflexivity.
    + reflexivity.
Qed.

End StatusMachine.

Section Queries.

Lemma elem_of_filter_bool {A} (f : A → bool) (l : list A) (x : A) :
  x ∈ List.filter f l ↔ f x = true ∧ x ∈ l.
Proof. rewrite !list_elem_of_In, filter_In. tauto. Qed.

Lemma filter_bool_sublist {A} (f : A → bool) (l : list A) :
  List.filter f l `sublist_of` l.
Proof.
  induction l as [|x l IH]; [done|]. cbn.
  destruct (f x); [by apply sublist_skip | by apply sublist_cons].
Qed.

Lemma insert_by_Permutation {A} (le : A → A → bool) (x : A) (l : list A) :
  insert_by le x l ≡ₚ x :: l.
Proof.
  induction l as [|y l IH]; [done|]. cbn.
  destruct (le x y); [done|]. rewrite IH. apply Permutation_swap.
Qed.

Lemma sort_by_Permutation {A} (le : A → A → bool) (l : list A) :
  sort_by le l ≡ₚ l.
Proof.
  induction l as [|x l IH]; [done|]. cbn.
  rewrite insert_by_Permutation. by rewrite IH.
Qed.

Lemma elem_of_sort_by {A} (le : A → A → bool) (l : list A) (x : A) :
  x ∈ sort_by le l ↔ x ∈ l.
Proof. by rewrite sort_by_Permutation. Qed.

(** [findByUserId] lists exactly the existing conversations in which the
    user has a participant row. *)
Lemma conversationIds_of_spec st u c :
  c ∈ conversationIds_of st u ↔ participates st u c.
Proof.
  unfold conversationIds_of, outcome_of, ConversationsService.findByUserId, participates.
  set (ids := map ConversationParticipant.conversationId
                (List.filter (fun p => str_eqb (ConversationParticipant.userId p) u)
                             (participants st))).
  assert (Hids : ∀ x, x ∈ ids ↔ participant_row st x u).
  { intros x. unfold ids, participant_row. rewrite list_elem_of_fmap. split.
    - intros (p & -> & Hp). apply elem_of_filter_bool in Hp as [Hu Hp].
      apply str_eqb_eq in Hu. eauto.
    - intros (p & Hp & <- & Hu). exists p. split; [done|].
      apply elem_of_filter_bool. split; [by apply str_eqb_eq | done]. }
  destruct ids as [|i0 ids'] eqn:Ei.
  - cbn. split.
    + by intros ?%elem_of_nil.
    + intros [Hp _]. apply Hids in Hp. by apply elem_of_nil in Hp.
  - cbn [fst]. rewrite list_elem_of_fmap. split.
    + intros (conv & -> & Hc). apply elem_of_sort_by, elem_of_filter_bool in Hc as [Hin Hc].
      apply in_strings_spec in Hin. split; [by apply Hids | eauto].
    + intros [Hp (conv & Hc & <-)]. exists conv. split; [done|].
      apply elem_of_sort_by, elem_of_filter_bool. split; [|done].
      apply in_strings_spec. by apply Hids.
Qed.

(** The [WHERE] clause of the delivery backfill selects the eligible
    rows. *)
Lemma undelivered_for_spec st u m :
  MessagesService.undelivered_for (conversationIds_of st u) u m = true
  ↔ delivery_eligible st u m.
Proof.
  unfold MessagesService.undelivered_for, delivery_eligible.
  rewrite !andb_true_iff, negb_true_iff, !bool_decide_eq_true, in_strings_spec.
  rewrite conversationIds_of_spec.
  unfold str_eqb. rewrite bool_decide_eq_false. tauto.
Qed.

End Queries.

(** C6.  [markMessagesAsDeliveredForUser] returns normally, rewrites to
    DELIVERED every row that is eligible (not globally deleted, not sent
    by this user, currently SENT, in a conversation the user participates
    in), leaves every other row and the other tables as they were, and
    reports the number of rows its [WHERE] clause selected. *)
Theorem delivered_exactly_eligible (st : Store) (userId : string) :
  let st' := store_after (MessagesService.markMessagesAsDeliveredForUser userId) st in
  length (messages st') = length (messages st)
  ∧ (∀ i m, messages st !! i = Some m →
        (delivery_eligible st userId m →
           messages st' !! i = Some (Message.set_status DELIVERED m))
        ∧ (¬ delivery_eligible st userId m → messages st' !! i = Some m))
  ∧ deletions st' = deletions st
  ∧ participants st' = participants st
  ∧ conversations st' = conversations st
  ∧ ∃ r, outcome_of (MessagesService.markMessagesAsDeliveredForUser userId) st = Returned r
         ∧ MessagesService.updatedCount r
           = length (List.filter
                       (MessagesService.undelivered_for (conversationIds_of st userId) userId)
                       (messages st)).
Proof.
  intros st'. subst st'. unfold store_after, outcome_of.
  rewrite markMessagesAsDeliveredForUser_run. cbn [fst snd messages set_messages
    deletions participants conversations].
  split_and!; try done.
  - by rewrite length_map.
  - intros i m Hm. rewrite list_lookup_fmap, Hm. cbn.
    destruct (MessagesService.undelivered_for _ _ m) eqn:E.
    + split; [done|]. intros Hn. by apply undelivered_for_spec in E.
    + split; [|done]. intros He. apply undelivered_for_spec in He. congruence.
  - eexists. split; [reflexivity|]. reflexivity.
Qed.

(** "bob" comes online: "hi" of "alice" in "c1" becomes DELIVERED. *)
Lemma delivered_exactly_eligible_witness :
  messages (store_after (MessagesService.markMessagesAsDeliveredForUser "bob")
                        example_store) !! 0
  = Some (Message.set_status DELIVERED example_message_hi).
Proof.
  destruct (delivered_exactly_eligible example_store "bob") as (_ & H & _).
  apply (H 0 example_message_hi); [reflexivity|].
  split_and!; try done.
  split.
  - exists (ConversationParticipant.mk "c1" "bob" None).
    split; [|done]. apply list_elem_of_In. cbn. tauto.
  - exists (Conversation.mk "c1" None None None None None 5).
    split; [|done]. apply list_elem_of_In. cbn. tauto.
Defined.

(** C5.  Both batch operations are idempotent: run a second time right
    after the first, [markConversationAsRead] returns 0 and
    [markMessagesAsDeliveredForUser] returns a count of 0 with no
    conversation, and neither changes the store again; when no row is
    eligible the first call already returns 0 (it does not throw) and
    leaves the store as it is. *)
Theorem batch_status_idempotent (st : Store) (conversationId userId : string) :
  let read := MessagesService.markConversationAsRead conversationId userId in
  let delivered := MessagesService.markMessagesAsDeliveredForUser userId in
  (outcome_of read (store_after read st) = Returned 0
   ∧ store_after read (store_after read st) = store_after read st)
  ∧ (outcome_of delivered (store_after delivered st)
       = Returned (MessagesService.mkDelivered 0 [])
     ∧ store_after delivered (store_after delivered st) = store_after delivered st)
  ∧ (List.filter (MessagesService.unread_for conversationId userId) (messages st) = [] →
     outcome_of read st = Returned 0 ∧ store_after read st = st)
  ∧ (List.filter (MessagesService.undelivered_for (conversationIds_of st userId) userId)
                 (messages st) = [] →
     outcome_of delivered st = Returned (MessagesService.mkDelivered 0 [])
     ∧ store_after delivered st = st).
Proof.
  intros read delivered. subst read delivered. unfold outcome_of, store_after.
  assert (Hread : ∀ s,
            List.filter (MessagesService.unread_for conversationId userId) (messages s) = [] →
            MessagesService.markConversationAsRead conversationId userId s = (Returned 0, s)).
  { intros s Hs. rewrite markConversationAsRead_run, Hs.
    rewrite map_if_unselected by done. by rewrite set_messages_same. }
  assert (Hdel : ∀ s,
            List.filter (MessagesService.undelivered_for (conversationIds_of s userId) userId)
                        (messages s) = [] →
            MessagesService.markMessagesAsDeliveredForUser userId s
            = (Returned (MessagesService.mkDelivered 0 []), s)).
  { intros s Hs. rewrite markMessagesAsDeliveredForUser_run. cbn zeta. rewrite Hs.
    rewrite map_if_unselected by done. by rewrite set_messages_same. }
  split_and!.
  - rewrite Hread; [done|]. rewrite markConversationAsRead_run. cbn [snd messages set_messages].
    apply update_then_select_empty. intros m _. apply unread_for_READ.
  - rewrite Hread; [done|]. rewrite markConversationAsRead_run. cbn [snd messages set_messages].
    apply update_then_select_empty. intros m _. apply unread_for_READ.
  - rewrite Hdel; [done|]. rewrite markMessagesAsDeliveredForUser_run.
    cbn [snd messages set_messages]. rewrite conversationIds_of_messages.
    apply update_then_select_empty. intros m _. apply undelivered_for_DELIVERED.
  - rewrite Hdel; [done|]. rewrite markMessagesAsDeliveredForUser_run.
    cbn [snd messages set_messages]. rewrite conversationIds_of_messages.
    apply update_then_select_empty. intros m _. apply undelivered_for_DELIVERED.
  - intros Hs. by rewrite Hread.
  - intros Hs. by rewrite Hdel.
Qed.

(** There is no conversation "c9": zero rows, no error. *)
Lemma batch_status_idempotent_witness :
  outcome_of (MessagesService.markConversationAsRead "c9" "carol") example_store
  = Returned 0
  ∧ store_after (MessagesService.markConversationAsRead "c9" "carol") example_store
    = example_store.
Proof.
  destruct (batch_status_idempotent example_store "c9" "carol") as (_ & _ & H & _).
  apply H. reflexivity.
Defined.

Section Monotonic.

Import MessagesService.

Lemma rank_le_READ s : status_rank s ≤ status_rank READ.
Proof. destruct s; cbn; lia. Qed.

Lemma rank_READ_inv s : status_rank READ ≤ status_rank s → s = READ.
Proof. destruct s; cbn; [lia..|done]. Qed.

(** What [updateStatus] computes for a message that exists. *)
Lemma updateStatus_run st messageId status m :
  List.find (fun r => str_eqb (Message.id r) messageId) (messages st) = Some m →
  updateStatus messageId status st
  = (Returned (Message.set_status status m),
     set_messages
       (map (fun r => if str_eqb (Message.id r) messageId
                      then Message.set_status status m else r)
            (messages st))
       st).
Proof.
  intros Hf. unfold updateStatus, bind, message_findOne. rewrite Hf.
  unfold message_save. cbn [Message.id Message.set_status].
  apply find_some in Hf as [_ Hid]. apply str_eqb_eq in Hid. by rewrite Hid.
Qed.

(** [updateStatus] for an id that resolves to nothing. *)
Lemma updateStatus_missing st messageId status :
  List.find (fun r => str_eqb (Message.id r) messageId) (messages st) = None →
  updateStatus messageId status st = (Thrown (NotFoundException "Message not found"), st).
Proof. intros Hf. unfold updateStatus, bind, message_findOne. by rewrite Hf. Qed.

(** One operation that asks for no step backward moves no row backward. *)
Lemma forward_step_advances st op i m :
  requests_forward st op →
  messages st !! i = Some m →
  ∃ m', messages (status_step st op) !! i = Some m'
        ∧ Message.id m' = Message.id m
        ∧ status_rank (Message.status m) ≤ status_rank (Message.status m').
Proof.
  intros Hop Hm. destruct op as [mid s|c u|u]; cbn [status_step]; unfold store_after.
  - destruct (List.find (fun r => str_eqb (Message.id r) mid) (messages st))
      as [m0|] eqn:Hf.
    + rewrite (updateStatus_run st mid s m0 Hf). cbn [snd messages set_messages].
      rewrite list_lookup_fmap, Hm. cbn.
      destruct (str_eqb (Message.id m) mid) eqn:E; eexists; split_and!; try done.
      * apply str_eqb_eq in E. apply find_some in Hf as [_ Hid].
        apply str_eqb_eq in Hid. cbn. congruence.
      * apply str_eqb_eq in E. cbn. apply Hop; [|done].
        by apply list_elem_of_lookup_2 in Hm.
    + rewrite (updateStatus_missing st mid s Hf). cbn [snd]. by exists m.
  - rewrite markConversationAsRead_run. cbn [snd messages set_messages].
    rewrite list_lookup_fmap, Hm. cbn.
    destruct (unread_for c u m); eexists; split_and!; try done.
    cbn. apply rank_le_READ.
  - rewrite markMessagesAsDeliveredForUser_run.
    cbn [snd messages set_messages].
    rewrite list_lookup_fmap, Hm. cbn.
    destruct (undelivered_for _ u m) eqn:E; eexists; split_and!; try done.
    unfold undelivered_for in E. rewrite !andb_true_iff, bool_decide_eq_true in E.
    destruct E as [[[_ _] Hs] _]. rewrite Hs. cbn. lia.
Qed.

Lemma forward_run_advances ops : ∀ st i m,
  all_request_forward st ops →
  messages st !! i = Some m →
  ∃ m', messages (status_run st ops) !! i = Some m'
        ∧ Message.id m' = Message.id m
        ∧ status_rank (Message.status m) ≤ status_rank (Message.status m').
Proof.
  induction ops as [|op ops IH]; intros st i m Hops Hm.
  - exists m. by split_and!.
  - destruct Hops as [Hop Hops].
    destruct (forward_step_advances st op i m Hop Hm) as (m1 & Hm1 & Hid1 & Hr1).
    destruct (IH (status_step st op) i m1 Hops Hm1) as (m2 & Hm2 & Hid2 & Hr2).
    exists m2. split_and!; [done|congruence|lia].
Qed.

End Monotonic.

(** C1 (amended).  Along every sequence of [updateStatus],
    [markConversationAsRead] and [markMessagesAsDeliveredForUser] calls
    in which each [updateStatus] asks for a status that is not below the
    current status of the message it names, every row keeps its id, its
    status never moves to a lower rank on the line SENDING, SENT,
    DELIVERED, READ, and a READ row stays READ.  The two batch operations
    need no such proviso. *)
Theorem status_monotonic (st : Store) (ops : list StatusOp) :
  all_request_forward st ops →
  ∀ i m, messages st !! i = Some m →
    ∃ m', messages (status_run st ops) !! i = Some m'
          ∧ Message.id m' = Message.id m
          ∧ status_rank (Message.status m) ≤ status_rank (Message.status m')
          ∧ (Message.status m = READ → Message.status m' = READ).
Proof.
  intros Hops i m Hm.
  destruct (forward_run_advances ops st i m Hops Hm) as (m' & Hm' & Hid & Hr).
  exists m'. split_and!; try done.
  intros HR. rewrite HR in Hr. by apply rank_READ_inv.
Qed.

(** "bob" reads "c1", the status of "m1" is set to READ once more, and
    "bob" comes online again: the row stays READ. *)
Lemma status_monotonic_witness :
  ∃ m', messages (status_run example_store
                    [OpMarkConversationAsRead "c1" "bob";
                     OpUpdateStatus "m1" READ;
                     OpMarkMessagesAsDeliveredForUser "bob"]) !! 0 = Some m'
        ∧ Message.id m' = "m1"
        ∧ status_rank SENT ≤ status_rank (Message.status m')
        ∧ (SENT = READ → Message.status m' = READ).
Proof.
  refine (status_monotonic example_store
            [OpMarkConversationAsRead "c1" "bob";
             OpUpdateStatus "m1" READ;
             OpMarkMessagesAsDeliveredForUser "bob"]
            _ 0 example_message_hi eq_refl).
  split; [exact I|]. split; [|split; [exact I | exact I]].
  intros m _ _. apply rank_le_READ.
Defined.

(** C1, counterexample.  A READ message is moved back to DELIVERED by
    [updateStatus]. *)
Lemma updateStatus_regresses_counterexample :
  ¬ status_never_regresses example_read_store [OpUpdateStatus "m1" DELIVERED].
Proof.
  intros H.
  specialize (H 0
    (Message.mk "m1" "c1" "alice" (Some "hi") TEXT None None None None
                READ false None None None 10)
    (Message.mk "m1" "c1" "alice" (Some "hi") TEXT None None None None
                DELIVERED false None None None 10)
    eq_refl eq_refl).
  cbn in H. lia.
Qed.

(* --------------------------------------------------------------------- *)
(** ** Visibility filter: per-user deletion *)
(* --------------------------------------------------------------------- *)

Section DeleteForMe.

Import MessagesService.

Lemma find_is_Some {A} (f : A → bool) (l : list A) :
  (∃ x, x ∈ l ∧ f x = true) → ∃ y, List.find f l = Some y.
Proof.
  intros (x & Hx & Hf). destruct (List.find f l) as [y|] eqn:E; [eauto|].
  apply list_elem_of_In in Hx. pose proof (find_none f l E x Hx). congruence.
Qed.

Lemma message_exists_found st messageId :
  (∃ m, m ∈ messages st ∧ Message.id m = messageId) →
  ∃ m, List.find (fun r => str_eqb (Message.id r) messageId) (messages st) = Some m
       ∧ Message.id m = messageId.
Proof.
  intros (m & Hm & Hid).
  destruct (find_is_Some (fun r => str_eqb (Message.id r) messageId) (messages st))
    as [y Hy].
  - exists m. split; [done|]. by apply str_eqb_eq.
  - exists y. split; [done|]. apply find_some in Hy as [_ Hy]. by apply str_eqb_eq.
Qed.

(** What [deleteMessageForMe] computes for a message that exists. *)
Lemma deleteMessageForMe_run st newId now messageId userId m :
  List.find (fun r => str_eqb (Message.id r) messageId) (messages st) = Some m →
  deleteMessageForMe newId now messageId userId st
  = (Returned tt,
     match List.find (fun d => str_eqb (MessageDeletion.messageId d) messageId
                               && str_eqb (MessageDeletion.userId d) userId)
                     (deletions st) with
     | Some _ => st
     | None =>
         set_deletions
           (deletions st ++ [MessageDeletion.mk newId messageId userId now]) st
     end).
Proof.
  intros Hf. unfold deleteMessageForMe, bind, message_findOne. rewrite Hf.
  unfold deletion_findOne. by destruct (List.find _ (deletions st)).
Qed.

(** [deleteMessageForMe] for a message that does not exist. *)
Lemma deleteMessageForMe_missing st newId now messageId userId :
  List.find (fun r => str_eqb (Message.id r) messageId) (messages st) = None →
  deleteMessageForMe newId now messageId userId st
  = (Thrown (NotFoundException "Message not found"), st).
Proof.
  intros Hf. unfold deleteMessageForMe, bind, message_findOne. by rewrite Hf.
Qed.

(** The rows a viewer gets from [findByConversationIdFiltered]. *)
Lemma findByConversationIdFiltered_run st c v limit offset :
  findByConversationIdFiltered c v limit offset st
  = (Returned
       (page limit offset
          (sort_by createdAt_asc
             (List.filter
                (fun m =>
                   match map MessageDeletion.messageId
                           (List.filter (fun d => str_eqb (MessageDeletion.userId d) v)
                                        (deletions st)) with
                   | [] => str_eqb (Message.conversationId m) c
                           && bool_decide (Message.isDeleted m = false)
                   | _ :: _ =>
                       str_eqb (Message.conversationId m) c
                       && bool_decide (Message.isDeleted m = false)
                       && negb (in_strings (Message.id m)
                                  (map MessageDeletion.messageId
                                     (List.filter
                                        (fun d => str_eqb (MessageDeletion.userId d) v)
                                        (deletions st))))
                   end)
                (messages st)))),
     st).
Proof. reflexivity. Qed.

Lemma page_subseteq {A} limit offset (l : list A) : page limit offset l ⊆ l.
Proof.
  unfold page. etransitivity; [apply subseteq_take | apply subseteq_drop].
Qed.

(** The selection of the filtered fetch. *)
Lemma filtered_selection st c v m :
  match map MessageDeletion.messageId
          (List.filter (fun d => str_eqb (MessageDeletion.userId d) v) (deletions st)) with
  | [] => str_eqb (Message.conversationId m) c
          && bool_decide (Message.isDeleted m = false)
  | _ :: _ =>
      str_eqb (Message.conversationId m) c
      && bool_decide (Message.isDeleted m = false)
      && negb (in_strings (Message.id m)
                 (map MessageDeletion.messageId
                    (List.filter (fun d => str_eqb (MessageDeletion.userId d) v)
                                 (deletions st))))
  end = true
  ↔ Message.conversationId m = c ∧ Message.isDeleted m = false ∧ ¬ hidden_from st v m.
Proof.
  assert (Hh : hidden_from st v m
               ↔ Message.id m ∈ map MessageDeletion.messageId
                   (List.filter (fun d => str_eqb (MessageDeletion.userId d) v)
                                (deletions st))).
  { unfold hidden_from. rewrite list_elem_of_fmap. split.
    - intros (d & Hd & Hu & Hi). exists d. split; [done|].
      apply elem_of_filter_bool. split; [by apply str_eqb_eq | done].
    - intros (d & Hi & Hd). apply elem_of_filter_bool in Hd as [Hu Hd].
      apply str_eqb_eq in Hu. by exists d. }
  rewrite Hh.
  destruct (map MessageDeletion.messageId _) as [|i ids] eqn:E.
  - rewrite andb_true_iff, str_eqb_eq, bool_decide_eq_true.
    split; [intros [? ?]; split_and!; [done|done|by intros ?%elem_of_nil] | tauto].
  - rewrite !andb_true_iff, str_eqb_eq, bool_decide_eq_true, negb_true_iff.
    rewrite <- (not_true_iff_false (in_strings _ _)), in_strings_spec. tauto.
Qed.

(** A fetch from offset 0 with a limit that the table does not exceed
    returns every row of the conversation that is not globally deleted
    and not hidden from the viewer. *)
Lemma filtered_fetch_full st c v limit :
  length (messages st) ≤ limit →
  ∃ rows,
    outcome_of (findByConversationIdFiltered c v limit 0) st = Returned rows
    ∧ ∀ m, m ∈ rows
           ↔ m ∈ messages st
             ∧ Message.conversationId m = c
             ∧ Message.isDeleted m = false
             ∧ ¬ hidden_from st v m.
Proof.
  intros Hlimit. unfold outcome_of. rewrite findByConversationIdFiltered_run.
  eexists. split; [reflexivity|]. intros m.
  unfold page. rewrite drop_0, take_ge.
  - rewrite elem_of_sort_by, elem_of_filter_bool, filtered_selection. tauto.
  - rewrite (Permutation_length (sort_by_Permutation _ _)).
    etransitivity; [apply sublist_length, filter_bool_sublist | exact Hlimit].
Qed.

(** After the call the pair (message, viewer) is recorded. *)
Lemma deleteMessageForMe_recorded st newId now messageId userId m :
  List.find (fun r => str_eqb (Message.id r) messageId) (messages st) = Some m →
  messageId ∈ map MessageDeletion.messageId
                (List.filter (fun d => str_eqb (MessageDeletion.userId d) userId)
                   (deletions (store_after
                                 (deleteMessageForMe newId now messageId userId) st))).
Proof.
  intros Hf. unfold store_after. rewrite (deleteMessageForMe_run _ _ _ _ _ m Hf).
  cbn [snd]. apply list_elem_of_fmap.
  destruct (List.find _ (deletions st)) as [d|] eqn:E.
  - apply find_some in E as [Hin Hd]. apply andb_true_iff in Hd as [Hm Hu].
    exists d. split; [symmetry; by apply str_eqb_eq|].
    apply elem_of_filter_bool. split; [done | by apply list_elem_of_In].
  - exists (MessageDeletion.mk newId messageId userId now). split; [done|].
    apply elem_of_filter_bool. split; [apply str_eqb_refl|].
    cbn. apply elem_of_app. right. by left.
Qed.

(** The deletions of another user are what they were. *)
Lemma deleteMessageForMe_other_user st newId now messageId userId other :
  other ≠ userId →
  List.filter (fun d => str_eqb (MessageDeletion.userId d) other)
    (deletions (store_after (deleteMessageForMe newId now messageId userId) st))
  = List.filter (fun d => str_eqb (MessageDeletion.userId d) other) (deletions st).
Proof.
  intros Hne. unfold store_after.
  destruct (List.find (fun r => str_eqb (Message.id r) messageId) (messages st))
    as [m|] eqn:Hf.
  - rewrite (deleteMessageForMe_run _ _ _ _ _ m Hf). cbn [snd].
    destruct (List.find _ (deletions st)); [done|].
    cbn [deletions set_deletions]. rewrite List.filter_app. cbn.
    replace (str_eqb userId other) with false; [by rewrite app_nil_r|].
    symmetry. unfold str_eqb. by apply bool_decide_eq_false_2.
  - by rewrite deleteMessageForMe_missing.
Qed.

Lemma deleteMessageForMe_messages st newId now messageId userId :
  messages (store_after (deleteMessageForMe newId now messageId userId) st)
  = messages st.
Proof.
  unfold store_after.
  destruct (List.find (fun r => str_eqb (Message.id r) messageId) (messages st))
    as [m|] eqn:Hf.
  - rewrite (deleteMessageForMe_run _ _ _ _ _ m Hf). cbn [snd].
    by destruct (List.find _ (deletions st)).
  - by rewrite deleteMessageForMe_missing.
Qed.

(** One call keeps a pair that has at most one row at one row. *)
Lemma deleteMessageForMe_count st newId now messageId userId m u :
  deletion_count st m u ≤ 1 →
  deletion_count (store_after (deleteMessageForMe newId now messageId userId) st) m u ≤ 1.
Proof.
  intros Hc. unfold store_after.
  destruct (List.find (fun r => str_eqb (Message.id r) messageId) (messages st))
    as [msg|] eqn:Hf.
  2:{ by rewrite deleteMessageForMe_missing. }
  rewrite (deleteMessageForMe_run _ _ _ _ _ msg Hf). cbn [snd].
  destruct (List.find _ (deletions st)) as [d|] eqn:E; [done|].
  unfold deletion_count in *. cbn [deletions set_deletions].
  rewrite List.filter_app, length_app. cbn [List.filter MessageDeletion.messageId
    MessageDeletion.userId].
  destruct (str_eqb messageId m && str_eqb userId u) eqn:Epair; cbn; [|lia].
  apply andb_true_iff in Epair as [Hm Hu].
  apply str_eqb_eq in Hm. apply str_eqb_eq in Hu. subst m u.
  rewrite (filter_none_nil _ (deletions st)); [cbn; lia|].
  intros x Hx. apply list_elem_of_In in Hx. by apply (find_none _ _ E).
Qed.

Lemma delete_for_me_run_count calls : ∀ st m u,
  deletion_count st m u ≤ 1 → deletion_count (delete_for_me_run st calls) m u ≤ 1.
Proof.
  induction calls as [|c calls IH]; intros st m u Hc; [done|].
  cbn. apply IH. by apply deleteMessageForMe_count.
Qed.

End DeleteForMe.

(** C7.  When viewer [v] deletes an existing message for itself, the call
    returns normally and leaves the message table alone; afterwards no
    page of [v]'s filtered fetch holds a row with that id (no tombstone
    either), every page of every other viewer's filtered fetch is what it
    was before, and a (message, user) pair that had at most one
    [MessageDeletion] row still has at most one after any further
    sequence of deletion calls.  The fetch does show the message: before
    the call a fetch of the whole conversation holds the message, when it
    is not globally deleted, for every viewer who has not hidden it, and
    after the call it still holds it, unchanged, for every such viewer
    but [v]. *)
Theorem delete_for_me_hides (st : Store) (newId : string) (now : Z)
    (messageId v : string) :
  (∃ m, m ∈ messages st ∧ Message.id m = messageId) →
  let st' := store_after (MessagesService.deleteMessageForMe newId now messageId v) st in
  outcome_of (MessagesService.deleteMessageForMe newId now messageId v) st = Returned tt
  ∧ messages st' = messages st
  ∧ (∀ c limit offset,
       ∃ rows,
         outcome_of (MessagesService.findByConversationIdFiltered c v limit offset) st'
         = Returned rows
         ∧ ∀ m, m ∈ rows → Message.id m ≠ messageId)
  ∧ (∀ other c limit offset,
       other ≠ v →
       outcome_of (MessagesService.findByConversationIdFiltered c other limit offset) st'
       = outcome_of (MessagesService.findByConversationIdFiltered c other limit offset) st)
  ∧ (∀ calls m u,
       deletion_count st m u ≤ 1 →
       deletion_count (delete_for_me_run st' calls) m u ≤ 1)
  ∧ (∀ m viewer limit,
       m ∈ messages st → Message.id m = messageId →
       Message.isDeleted m = false → ¬ hidden_from st viewer m →
       length (messages st) ≤ limit →
       (∃ rows,
          outcome_of (MessagesService.findByConversationIdFiltered
                        (Message.conversationId m) viewer limit 0) st
          = Returned rows
          ∧ m ∈ rows)
       ∧ (viewer ≠ v →
          ∃ rows,
            outcome_of (MessagesService.findByConversationIdFiltered
                          (Message.conversationId m) viewer limit 0) st'
            = Returned rows
            ∧ m ∈ rows)).
Proof.
  intros Hex st'.
  destruct (message_exists_found st messageId Hex) as (m0 & Hf & Hid0).
  assert (Hother : ∀ other c limit offset,
            other ≠ v →
            outcome_of (MessagesService.findByConversationIdFiltered c other limit offset)
              st'
            = outcome_of (MessagesService.findByConversationIdFiltered c other limit
                            offset) st).
  { intros other c limit offset Hne. unfold outcome_of.
    rewrite !findByConversationIdFiltered_run. cbn [fst]. subst st'.
    rewrite deleteMessageForMe_other_user by done.
    by rewrite deleteMessageForMe_messages. }
  split_and!.
  - unfold outcome_of. by rewrite (deleteMessageForMe_run _ _ _ _ _ m0 Hf).
  - apply deleteMessageForMe_messages.
  - intros c limit offset. eexists. split.
    + unfold outcome_of. rewrite findByConversationIdFiltered_run. reflexivity.
    + intros m Hm. apply page_subseteq, elem_of_sort_by, elem_of_filter_bool in Hm.
      destruct Hm as [Hsel _].
      pose proof (deleteMessageForMe_recorded st newId now messageId v m0 Hf) as Hrec.
      fold st' in Hrec.
      destruct (map MessageDeletion.messageId _) as [|i0 ids] eqn:Eids.
      * by apply elem_of_nil in Hrec.
      * apply andb_true_iff in Hsel as [_ Hnot]. apply negb_true_iff in Hnot.
        intros Heq. rewrite Heq in Hnot.
        apply in_strings_spec in Hrec. congruence.
  - exact Hother.
  - intros calls m u Hc. apply delete_for_me_run_count.
    by apply deleteMessageForMe_count.
  - intros m viewer limit Hm Hid Hd Hh Hlimit.
    destruct (filtered_fetch_full st (Message.conversationId m) viewer limit Hlimit)
      as (rows & Hrows & Hiff).
    assert (Hin : m ∈ rows) by (apply Hiff; done).
    split; [by exists rows|].
    intros Hne. exists rows. split; [|done]. by rewrite Hother.
Qed.

(** "bob" hides "hi" for himself, three times over: "alice" still gets
    "hi" as it was, "bob" gets no row with its id, and the pair has one
    row. *)
Lemma delete_for_me_hides_witness :
  let st' :=
    store_after (MessagesService.deleteMessageForMe "d1" 50 "m1" "bob") example_store in
  (∃ rows,
     outcome_of (MessagesService.findByConversationIdFiltered "c1" "alice" 10 0) st'
     = Returned rows
     ∧ example_message_hi ∈ rows)
  ∧ (∃ rows,
       outcome_of (MessagesService.findByConversationIdFiltered "c1" "bob" 10 0) st'
       = Returned rows
       ∧ ∀ m, m ∈ rows → Message.id m ≠ "m1")
  ∧ deletion_count
      (delete_for_me_run st'
         [mkDeleteForMeCall "d2" 60 "m1" "bob"; mkDeleteForMeCall "d3" 70 "m1" "bob"])
      "m1" "bob" ≤ 1.
Proof.
  intros st'.
  assert (Hm : example_message_hi ∈ messages example_store).
  { apply list_elem_of_In. cbn. tauto. }
  assert (Hex : ∃ m, m ∈ messages example_store ∧ Message.id m = "m1")
    by by exists example_message_hi.
  destruct (delete_for_me_hides example_store "d1" 50 "m1" "bob" Hex)
    as (_ & _ & Hhidden & _ & Hcount & Hshown).
  split_and!.
  - destruct (Hshown example_message_hi "alice" 10 Hm eq_refl eq_refl) as [_ Hafter].
    + intros (d & Hd & _). cbn in Hd. by apply elem_of_nil in Hd.
    + cbn. lia.
    + apply Hafter. discriminate.
  - apply Hhidden.
  - apply Hcount. cbn. lia.
Defined.

(* --------------------------------------------------------------------- *)
(** ** Authorization *)
(* --------------------------------------------------------------------- *)

Section Authorization.

Import MessagesService.

Lemma isParticipant_run st c u :
  ∃ b, ConversationsService.isParticipant c u st = (Returned b, st)
       ∧ (b = true ↔ participant_row st c u).
Proof.
  eexists. split; [reflexivity|]. unfold participant_row.
  rewrite existsb_exists. split.
  - intros (p & Hp & Hb). apply andb_true_iff in Hb as [Hc Hu].
    apply str_eqb_eq in Hc. apply str_eqb_eq in Hu.
    exists p. split; [by apply list_elem_of_In | done].
  - intros (p & Hp & Hc & Hu). exists p. split; [by apply list_elem_of_In|].
    apply andb_true_iff. split; by apply str_eqb_eq.
Qed.

Lemma isParticipant_false st c u :
  ¬ participant_row st c u →
  ConversationsService.isParticipant c u st = (Returned false, st).
Proof.
  intros Hn. destruct (isParticipant_run st c u) as (b & -> & Hb).
  destruct b; [|done]. exfalso. by apply Hn, Hb.
Qed.

Lemma isParticipant_true st c u :
  participant_row st c u →
  ConversationsService.isParticipant c u st = (Returned true, st).
Proof.
  intros Hp. destruct (isParticipant_run st c u) as (b & -> & Hb).
  apply Hb in Hp. by subst b.
Qed.

(** [validateMessageContent] accepts exactly the valid payloads and never
    touches the store. *)
Lemma validateMessageContent_run dto st :
  (payload_valid dto ∧ validateMessageContent dto st = (Returned tt, st))
  ∨ (¬ payload_valid dto
     ∧ ∃ message, validateMessageContent dto st = (Thrown (BadRequestException message), st)).
Proof.
  unfold validateMessageContent, payload_valid, bind.
  destruct dto as [c s content ty url fn mime size reply]. cbn.
  destruct ty; cbn; destruct (blank content) eqn:Ec; destruct (blank url) eqn:Eu; cbn;
    first [ left; split; [split; [done|]; intros [|]; done | done]
          | right; split; [|eauto]; intros [H1 H2];
            first [ by specialize (H1 eq_refl)
                  | by (specialize (H2 (or_introl eq_refl)))
                  | by (specialize (H2 (or_intror eq_refl))) ] ].
Qed.

(** [saveMessage] of a sender outside the conversation. *)
Lemma saveMessage_non_participant st newId createdAt now updatedAt dto :
  ¬ participant_row st (CreateMessageDto.conversationId dto) (CreateMessageDto.senderId dto) →
  store_after (saveMessage newId createdAt now updatedAt dto) st = st
  ∧ (payload_valid dto →
     outcome_of (saveMessage newId createdAt now updatedAt dto) st
     = Thrown (ForbiddenException "User is not a participant of this conversation"))
  ∧ (¬ payload_valid dto →
     ∃ message, outcome_of (saveMessage newId createdAt now updatedAt dto) st
                = Thrown (BadRequestException message)).
Proof.
  intros Hn. unfold store_after, outcome_of.
  destruct (validateMessageContent_run dto st) as [[Hv Hrun]|[Hv [msg Hrun]]].
  - assert (saveMessage newId createdAt now updatedAt dto st
            = (Thrown (ForbiddenException "User is not a participant of this conversation"),
               st)) as ->.
    { unfold saveMessage, try_catch. unfold bind at 1. rewrite Hrun.
      unfold bind at 1. by rewrite (isParticipant_false st _ _ Hn). }
    split_and!; [done|done|]. by intros Hnv.
  - assert (saveMessage newId createdAt now updatedAt dto st
            = (Thrown (BadRequestException msg), st)) as ->.
    { unfold saveMessage, try_catch. unfold bind at 1. by rewrite Hrun. }
    split_and!; [done| |eauto]. by intros Hv'.
Qed.

Lemma find_by_unique_id st m :
  primary_keys_unique st → m ∈ messages st →
  List.find (fun r => str_eqb (Message.id r) (Message.id m)) (messages st) = Some m.
Proof.
  unfold primary_keys_unique. induction (messages st) as [|x l IH]; intros Hnd Hm.
  - by apply elem_of_nil in Hm.
  - cbn in Hnd. apply NoDup_cons in Hnd as [Hx Hnd]. cbn.
    destruct (str_eqb (Message.id x) (Message.id m)) eqn:E.
    + apply str_eqb_eq in E. apply elem_of_cons in Hm as [->|Hm]; [done|].
      exfalso. apply Hx. rewrite E. apply list_elem_of_fmap. eauto.
    + apply elem_of_cons in Hm as [->|Hm]; [by rewrite str_eqb_refl in E|].
      by apply IH.
Qed.

Lemma sender_mismatch a b : a ≠ b → negb (str_eqb a b) = true.
Proof. intros H. unfold str_eqb. by rewrite bool_decide_eq_false_2. Qed.

(** The three sender-only operations, called by somebody else. *)
Lemma not_sender_rejected st m userId :
  primary_keys_unique st → m ∈ messages st → Message.senderId m ≠ userId →
  (∀ now newContent,
     editMessage now (Message.id m) userId newContent st
     = (Thrown (ForbiddenException "Only the sender can edit this message"), st))
  ∧ deleteMessageForEveryone (Message.id m) userId st
    = (Thrown (ForbiddenException "Only the sender can delete this message for everyone"),
       st)
  ∧ deleteMessage (Message.id m) userId st
    = (Thrown (ForbiddenException "Only the sender can delete this message"), st).
Proof.
  intros Hpk Hm Hs. pose proof (find_by_unique_id st m Hpk Hm) as Hf.
  apply sender_mismatch in Hs.
  unfold editMessage, deleteMessageForEveryone, deleteMessage, bind, message_findOne.
  rewrite Hf, Hs. by split_and!.
Qed.

End Authorization.

(** C8 (amended).  A [saveMessage] whose sender has no participant row
    for the conversation always throws and leaves the whole store (the
    message table and the last-message preview) as it was: the error is
    the authorization error when the payload passes content validation,
    and the validation error otherwise, because validation runs first.
    [editMessage], [deleteMessageForEveryone] and [deleteMessage] called
    for an existing message by somebody who is not its sender throw the
    authorization error and leave the store as it was. *)
Theorem authorization_failures_atomic (st : Store) :
  (∀ newId createdAt now updatedAt dto,
     ¬ participant_row st (CreateMessageDto.conversationId dto)
                          (CreateMessageDto.senderId dto) →
     store_after (MessagesService.saveMessage newId createdAt now updatedAt dto) st = st
     ∧ (payload_valid dto →
        outcome_of (MessagesService.saveMessage newId createdAt now updatedAt dto) st
        = Thrown (ForbiddenException "User is not a participant of this conversation"))
     ∧ (¬ payload_valid dto →
        ∃ message,
          outcome_of (MessagesService.saveMessage newId createdAt now updatedAt dto) st
          = Thrown (BadRequestException message)))
  ∧ (∀ m userId,
       primary_keys_unique st → m ∈ messages st → Message.senderId m ≠ userId →
       (∀ now newContent,
          MessagesService.editMessage now (Message.id m) userId newContent st
          = (Thrown (ForbiddenException "Only the sender can edit this message"), st))
       ∧ MessagesService.deleteMessageForEveryone (Message.id m) userId st
         = (Thrown (ForbiddenException
                      "Only the sender can delete this message for everyone"), st)
       ∧ MessagesService.deleteMessage (Message.id m) userId st
         = (Thrown (ForbiddenException "Only the sender can delete this message"), st)).
Proof.
  split.
  - intros newId createdAt now updatedAt dto. apply saveMessage_non_participant.
  - intros m userId. apply not_sender_rejected.
Qed.

Lemma participant_row_decide st c u :
  participant_row st c u
  ↔ outcome_of (ConversationsService.isParticipant c u) st = Returned true.
Proof.
  unfold outcome_of. destruct (isParticipant_run st c u) as (b & -> & Hb). cbn.
  rewrite <- Hb. split; [by intros -> | by intros [= ->]].
Qed.

Lemma example_store_keys : primary_keys_unique example_store.
Proof. apply (bool_decide_unpack _). vm_compute. exact I. Qed.

(** "mallory", who is in no conversation, sends "hello" to "c1" and
    tries to edit and delete "hi" of "alice". *)
Lemma authorization_failures_atomic_witness :
  let dto := CreateMessageDto.mk "c1" "mallory" (Some "hello") TEXT
               None None None None None in
  (store_after (MessagesService.saveMessage "m9" 90 91 92 dto) example_store = example_store
   ∧ outcome_of (MessagesService.saveMessage "m9" 90 91 92 dto) example_store
     = Thrown (ForbiddenException "User is not a participant of this conversation"))
  ∧ MessagesService.editMessage 92 "m1" "mallory" "bye" example_store
    = (Thrown (ForbiddenException "Only the sender can edit this message"), example_store).
Proof.
  intros dto.
  destruct (authorization_failures_atomic example_store) as [Hsave Hsender].
  split.
  - destruct (Hsave "m9" 90%Z 91%Z 92%Z dto) as (Hst & Hforbidden & _).
    + intros H. apply participant_row_decide in H. vm_compute in H. discriminate.
    + split; [done|]. apply Hforbidden. split; [done|]. intros [|]; discriminate.
  - destruct (Hsender example_message_hi "mallory") as (Hedit & _).
    + apply example_store_keys.
    + apply list_elem_of_In. cbn. tauto.
    + discriminate.
    + apply Hedit.
Defined.

(** C8, counterexample.  "mallory" is outside "c1" and sends a blank
    text: the error is the validation error, not the authorization
    error. *)
Lemma blank_outsider_counterexample :
  ¬ non_participant_send_forbidden example_store "m9" 90 91 92 example_blank_dto.
Proof.
  intros H. destruct H as [message Hm].
  - intros Hp. apply participant_row_decide in Hp. vm_compute in Hp. discriminate.
  - vm_compute in Hm. discriminate.
Qed.

Section Forwarding.

Import MessagesService.

Lemma find_by_id_None st messageId :
  (¬ ∃ m, m ∈ messages st ∧ Message.id m = messageId) →
  List.find (fun r => str_eqb (Message.id r) messageId) (messages st) = None.
Proof.
  intros Hn. destruct (List.find _ _) as [m|] eqn:E; [|done].
  exfalso. apply Hn. apply find_some in E as [Hin Hid].
  exists m. split; [by apply list_elem_of_In | by apply str_eqb_eq].
Qed.

(** The copy [forwardMessage] makes of [original]. *)
Lemma forwardMessage_run st newId createdAt messageId userId target :
  forwardMessage newId createdAt messageId userId target st
  = match List.find (fun r => str_eqb (Message.id r) messageId) (messages st) with
    | None => (Thrown (NotFoundException "Original message not found"), st)
    | Some original =>
        match outcome_of (ConversationsService.isParticipant target userId) st with
        | Returned true =>
            let copy :=
              Message.mk newId target userId
                (Message.content original) (Message.type original)
                (Message.fileUrl original) (Message.fileName original)
                (Message.fileMimeType original) (Message.fileSize original)
                SENT false None (Some messageId) None createdAt in
            (Returned copy, set_messages (messages st ++ [copy]) st)
        | _ =>
            (Thrown (ForbiddenException
                       "User is not a participant of the target conversation"), st)
        end
    end.
Proof.
  unfold forwardMessage, bind, message_findOne, outcome_of.
  destruct (List.find _ _) as [original|]; [|done].
  destruct (isParticipant_run st target userId) as (b & -> & _). by destruct b.
Qed.

End Forwarding.

(** C10 (amended).  [forwardMessage] throws NotFound exactly when the
    original id resolves to no message, throws the authorization error
    exactly when the original exists and the forwarder has no participant
    row for the target conversation, and otherwise returns and inserts a
    SENT copy in the target conversation whose content and file fields
    are those of the original and whose [forwardedFromId] is the original
    id.  Neither the forwarder's membership of the source conversation
    nor the deleted flag of the original is consulted, so a globally
    deleted original is copied with its cleared content.  A call that
    throws leaves the store as it was. *)
Theorem forwardMessage_outcomes (st : Store) (newId : string) (createdAt : Z)
    (messageId userId targetConversationId : string) :
  let found := ∃ m, m ∈ messages st ∧ Message.id m = messageId in
  let member := participant_row st targetConversationId userId in
  let call := MessagesService.forwardMessage newId createdAt messageId userId
                targetConversationId in
  ((∃ message, outcome_of call st = Thrown (NotFoundException message)) ↔ ¬ found)
  ∧ ((∃ message, outcome_of call st = Thrown (ForbiddenException message))
     ↔ found ∧ ¬ member)
  ∧ ((∃ copy, outcome_of call st = Returned copy) ↔ found ∧ member)
  ∧ (∀ original,
       List.find (fun r => str_eqb (Message.id r) messageId) (messages st) = Some original →
       member →
       let copy :=
         Message.mk newId targetConversationId userId
           (Message.content original) (Message.type original)
           (Message.fileUrl original) (Message.fileName original)
           (Message.fileMimeType original) (Message.fileSize original)
           SENT false None (Some messageId) None createdAt in
       outcome_of call st = Returned copy
       ∧ store_after call st = set_messages (messages st ++ [copy]) st)
  ∧ ((∀ copy, outcome_of call st ≠ Returned copy) → store_after call st = st).
Proof.
  intros found member call. subst call. unfold outcome_of at 1 2 3 4 5, store_after.
  rewrite forwardMessage_run.
  destruct (List.find (fun r => str_eqb (Message.id r) messageId) (messages st))
    as [original|] eqn:Hf.
  - assert (Hfound : found).
    { apply find_some in Hf as [Hin Hid]. exists original.
      split; [by apply list_elem_of_In | by apply str_eqb_eq]. }
    pose proof (participant_row_decide st targetConversationId userId) as Hdec.
    fold member in Hdec.
    destruct (outcome_of (ConversationsService.isParticipant targetConversationId userId) st)
      as [[|]|e] eqn:Ep; cbn [fst snd].
    + assert (Hmem : member) by by apply Hdec.
      split_and!.
      * split; [by intros [? ?] | by intros ?].
      * split; [by intros [? ?] | by intros [_ ?]].
      * split; [done | eauto].
      * intros o [= <-] _. done.
      * intros Hno. exfalso. by eapply Hno.
    + assert (Hmem : ¬ member) by (intros H; apply Hdec in H; discriminate).
      split_and!.
      * split; [by intros [? ?] | by intros ?].
      * split; [done | eauto].
      * split; [by intros [? ?] | by intros [_ ?]].
      * intros o _ Hm. done.
      * done.
    + exfalso. unfold outcome_of in Ep.
      destruct (isParticipant_run st targetConversationId userId) as (b & Hb & _).
      rewrite Hb in Ep. discriminate.
  - assert (Hnot : ¬ found).
    { intros (m & Hm & Hid). apply list_elem_of_In in Hm.
      pose proof (find_none _ _ Hf m Hm) as Hn. cbn in Hn.
      apply str_eqb_eq in Hid. congruence. }
    cbn [fst snd]. split_and!.
    + split; [done | eauto].
    + split; [by intros [? ?] | by intros [? _]].
    + split; [by intros [? ?] | by intros [? _]].
    + intros o [=].
    + done.
Qed.

(** "carol", who is not in "c1", forwards the globally deleted message
    "m4" of "c1" to "c2": the copy has no content. *)
Lemma forwardMessage_outcomes_witness :
  outcome_of (MessagesService.forwardMessage "m5" 50 "m4" "carol" "c2") example_store
  = Returned (Message.mk "m5" "c2" "carol" None TEXT None None None None
                         SENT false None (Some "m4") None 50).
Proof.
  destruct (forwardMessage_outcomes example_store "m5" 50 "m4" "carol" "c2")
    as (_ & _ & _ & H & _).
  destruct (H example_message_gone) as [Hcopy _].
  - reflexivity.
  - apply participant_row_decide. reflexivity.
  - exact Hcopy.
Defined.

(** C10, counterexample.  "mallory" is outside "c1" and forwards an id
    that resolves to nothing: the error is NotFound, not the
    authorization error. *)
Lemma forward_missing_counterexample :
  ¬ forward_forbidden_iff_outsider example_store "m5" 50 "nope" "mallory" "c1".
Proof.
  intros [_ H].
  destruct H as [message Hm].
  - intros Hp. apply participant_row_decide in Hp. vm_compute in Hp. discriminate.
  - vm_compute in Hm. discriminate.
Qed.

(* --------------------------------------------------------------------- *)
(** ** Visibility filter: global deletion and the read paths *)
(* --------------------------------------------------------------------- *)

Section ReadPaths.

Import MessagesService.

Lemma searchMessages_run st c u query limit :
  searchMessages c u query limit st
  = match outcome_of (ConversationsService.isParticipant c u) st with
    | Returned true =>
        (Returned (take limit (sort_by createdAt_desc
                                 (List.filter (search_where c query) (messages st)))),
         st)
    | _ => (Thrown (ForbiddenException "User is not a participant of this conversation"),
            st)
    end.
Proof.
  unfold searchMessages, bind, outcome_of.
  destruct (isParticipant_run st c u) as (b & -> & _). by destruct b.
Qed.

Lemma findByUserId_run st u :
  ∃ convs, ConversationsService.findByUserId u st = (Returned convs, st)
           ∧ map Conversation.id convs = conversationIds_of st u.
Proof.
  unfold conversationIds_of, outcome_of, ConversationsService.findByUserId.
  destruct (map ConversationParticipant.conversationId _); eauto.
Qed.

Lemma searchMessagesGlobal_run st u query limit :
  searchMessagesGlobal u query limit st
  = (Returned
       match conversationIds_of st u with
       | [] => []
       | _ :: _ =>
           take limit
             (sort_by createdAt_desc
                (List.filter (search_global_where (conversationIds_of st u) query)
                             (messages st)))
       end,
     st).
Proof.
  unfold searchMessagesGlobal. unfold bind at 1.
  destruct (findByUserId_run st u) as (convs & -> & <-).
  by destruct (map Conversation.id convs).
Qed.

Lemma findByConversationId_run st now c u limit offset :
  participant_row st c u →
  findByConversationId now c u limit offset st
  = (Returned
       (page limit offset
          (sort_by createdAt_asc
             (List.filter (fun m => str_eqb (Message.conversationId m) c) (messages st)))),
     store_after (ConversationsService.updateLastRead now c u) st).
Proof.
  intros Hp. unfold findByConversationId, try_catch. unfold bind at 1.
  by rewrite (isParticipant_true st c u Hp).
Qed.

Lemma filter_map_commute {A} (f : A → bool) (g : A → A) (l : list A) :
  (∀ x, f (g x) = f x) → List.filter f (map g l) = map g (List.filter f l).
Proof.
  intros H. induction l as [|x l IH]; [done|]. cbn. rewrite H.
  destruct (f x); cbn; by rewrite IH.
Qed.

Lemma insert_by_map {A} (le : A → A → bool) (g : A → A) x l :
  (∀ a b, le (g a) (g b) = le a b) →
  insert_by le (g x) (map g l) = map g (insert_by le x l).
Proof.
  intros H. induction l as [|y l IH]; [done|]. cbn. rewrite H.
  destruct (le x y); cbn; [done|]. by rewrite IH.
Qed.

Lemma sort_by_map {A} (le : A → A → bool) (g : A → A) l :
  (∀ a b, le (g a) (g b) = le a b) →
  sort_by le (map g l) = map g (sort_by le l).
Proof.
  intros H. induction l as [|x l IH]; [done|]. cbn.
  rewrite IH. by apply insert_by_map.
Qed.

Lemma page_map {A} (g : A → A) limit offset (l : list A) :
  page limit offset (map g l) = map g (page limit offset l).
Proof. unfold page. by rewrite <- fmap_drop, <- fmap_take. Qed.

Lemma tombstone_of_conversationId mid m :
  Message.conversationId (tombstone_of mid m) = Message.conversationId m.
Proof. unfold tombstone_of. by destruct (str_eqb _ _). Qed.

Lemma tombstone_of_createdAt mid m :
  Message.createdAt (tombstone_of mid m) = Message.createdAt m.
Proof. unfold tombstone_of. by destruct (str_eqb _ _). Qed.

Lemma tombstone_of_id mid m : Message.id (tombstone_of mid m) = Message.id m.
Proof. unfold tombstone_of. by destruct (str_eqb _ _). Qed.

(** After the rewrite every row with the deleted id carries the flag. *)
Lemma tombstone_of_flagged mid l r :
  r ∈ map (tombstone_of mid) l → Message.id r = mid → Message.isDeleted r = true.
Proof.
  intros Hr Hid. apply list_elem_of_fmap in Hr as (r0 & -> & _).
  unfold tombstone_of in *. destruct (str_eqb (Message.id r0) mid) eqn:E; [done|].
  apply str_eqb_eq in Hid. congruence.
Qed.

Lemma unique_id_eq st r m :
  primary_keys_unique st → r ∈ messages st → m ∈ messages st →
  Message.id r = Message.id m → r = m.
Proof.
  intros Hpk Hr Hm Hid. pose proof (find_by_unique_id st m Hpk Hm) as Hfm.
  pose proof (find_by_unique_id st r Hpk Hr) as Hfr. rewrite Hid in Hfr. congruence.
Qed.

(** What [deleteMessageForEveryone] computes when the sender calls it. *)
Lemma deleteMessageForEveryone_run st m userId :
  primary_keys_unique st → m ∈ messages st → Message.senderId m = userId →
  deleteMessageForEveryone (Message.id m) userId st
  = (Returned tt, set_messages (map (tombstone_of (Message.id m)) (messages st)) st).
Proof.
  intros Hpk Hm Hs. unfold deleteMessageForEveryone, bind, message_findOne.
  rewrite (find_by_unique_id st m Hpk Hm).
  replace (negb (str_eqb (Message.senderId m) userId)) with false
    by (symmetry; apply negb_false_iff; by apply str_eqb_eq).
  unfold message_save, ret. f_equal. f_equal.
  apply map_ext_in. intros r Hr. unfold tombstone_of. cbn [Message.id tombstone
    Message.set_content Message.set_isDeleted].
  destruct (str_eqb (Message.id r) (Message.id m)) eqn:E; [|done].
  apply str_eqb_eq in E. apply list_elem_of_In in Hr.
  by rewrite (unique_id_eq st r m Hpk Hr Hm E).
Qed.

End ReadPaths.

(** C2 (amended).  When its sender deletes message [m] for everyone, the
    call returns normally and rewrites the row of [m] in place into its
    tombstone (same id, conversation and creation date, content cleared,
    deleted flag set), touching nothing else.  Afterwards the plain
    history fetch [findByConversationId] gives every participant the page
    it gave before with [m] replaced by that tombstone, at the same
    position, while [findByConversationIdFiltered], [searchMessages] and
    [searchMessagesGlobal] leave the deleted message out altogether. *)
Theorem delete_for_everyone_visibility (st : Store) (m : Message.t) (userId : string) :
  primary_keys_unique st → m ∈ messages st → Message.senderId m = userId →
  let call := MessagesService.deleteMessageForEveryone (Message.id m) userId in
  let st' := store_after call st in
  outcome_of call st = Returned tt
  ∧ messages st' = map (tombstone_of (Message.id m)) (messages st)
  ∧ tombstone_of (Message.id m) m
    = Message.mk (Message.id m) (Message.conversationId m) (Message.senderId m)
        None (Message.type m) (Message.fileUrl m) (Message.fileName m)
        (Message.fileMimeType m) (Message.fileSize m) (Message.status m) true
        (Message.replyToMessageId m) (Message.forwardedFromId m)
        (Message.editedAt m) (Message.createdAt m)
  ∧ (deletions st' = deletions st
     ∧ participants st' = participants st
     ∧ conversations st' = conversations st)
  ∧ (∀ now viewer c limit offset,
       participant_row st c viewer →
       ∃ rows,
         outcome_of (MessagesService.findByConversationId now c viewer limit offset) st
         = Returned rows
         ∧ outcome_of (MessagesService.findByConversationId now c viewer limit offset) st'
           = Returned (map (tombstone_of (Message.id m)) rows))
  ∧ (∀ viewer c limit offset,
       ∃ rows,
         outcome_of (MessagesService.findByConversationIdFiltered c viewer limit offset) st'
         = Returned rows
         ∧ ∀ r, r ∈ rows → Message.id r ≠ Message.id m)
  ∧ (∀ viewer c query limit rows,
       outcome_of (MessagesService.searchMessages c viewer query limit) st' = Returned rows →
       ∀ r, r ∈ rows → Message.id r ≠ Message.id m)
  ∧ (∀ viewer query limit,
       ∃ rows,
         outcome_of (MessagesService.searchMessagesGlobal viewer query limit) st'
         = Returned rows
         ∧ ∀ r, r ∈ rows → Message.id r ≠ Message.id m).
Proof.
  intros Hpk Hm Hs call st'. subst call st'. unfold store_after, outcome_of.
  rewrite (deleteMessageForEveryone_run st m userId Hpk Hm Hs). cbn [fst snd].
  set (st' := set_messages (map (tombstone_of (Message.id m)) (messages st)) st).
  assert (Hflag : ∀ (sel : Message.t → bool) rows r,
            rows ⊆ List.filter sel (messages st') →
            (∀ x, sel x = true → Message.isDeleted x = false) →
            r ∈ rows → Message.id r ≠ Message.id m).
  { intros sel rows r Hsub Hsel Hr Hid. apply Hsub, elem_of_filter_bool in Hr as [Hx Hin].
    apply Hsel in Hx. cbn in Hin.
    pose proof (tombstone_of_flagged _ _ _ Hin Hid). congruence. }
  split_and!; try done.
  - unfold tombstone_of. by rewrite str_eqb_refl.
  - intros now viewer c limit offset Hp. eexists. split.
    + rewrite (findByConversationId_run st now c viewer limit offset Hp). reflexivity.
    + rewrite (findByConversationId_run st' now c viewer limit offset Hp).
      cbn [fst messages set_messages st'].
      rewrite filter_map_commute
        by (intros x; by rewrite tombstone_of_conversationId).
      rewrite sort_by_map; [by rewrite page_map|].
      intros a b. unfold createdAt_asc. by rewrite !tombstone_of_createdAt.
  - intros viewer c limit offset. eexists. split.
    + rewrite findByConversationIdFiltered_run. reflexivity.
    + intros r. eapply Hflag.
      * intros x Hx. by apply page_subseteq, elem_of_sort_by in Hx.
      * intros x Hx.
        destruct (map MessageDeletion.messageId _) in Hx.
        -- apply andb_true_iff in Hx as [_ Hx]. by apply bool_decide_eq_true in Hx.
        -- apply andb_true_iff in Hx as [Hx _].
           apply andb_true_iff in Hx as [_ Hx]. by apply bool_decide_eq_true in Hx.
  - intros viewer c query limit rows. rewrite searchMessages_run.
    destruct (outcome_of _ st') as [[|]|]; cbn [fst]; intros [= <-].
    intros r. eapply Hflag.
    + intros x Hx. by apply subseteq_take, elem_of_sort_by in Hx.
    + intros x Hx. apply andb_true_iff in Hx as [_ Hx]. by apply bool_decide_eq_true in Hx.
  - intros viewer query limit. eexists. split.
    + rewrite searchMessagesGlobal_run. reflexivity.
    + destruct (conversationIds_of st' viewer); [by intros r ?%elem_of_nil|].
      intros r. eapply Hflag.
      * intros x Hx. by apply subseteq_take, elem_of_sort_by in Hx.
      * intros x Hx. apply andb_true_iff in Hx as [_ Hx].
        by apply bool_decide_eq_true in Hx.
Qed.

(** "alice" deletes her "hi" for everyone; "bob" fetches the history of
    "c1": the tombstone of "hi" comes first, then the message of "bob",
    then the tombstone that was there before. *)
Lemma delete_for_everyone_visibility_witness :
  outcome_of (MessagesService.findByConversationId 50 "c1" "bob" 50 0)
    (store_after (MessagesService.deleteMessageForEveryone "m1" "alice") example_store)
  = Returned [tombstone example_message_hi; example_message_yo; example_message_gone].
Proof.
  destruct (delete_for_everyone_visibility example_store example_message_hi "alice")
    as (_ & _ & _ & _ & H & _).
  - apply example_store_keys.
  - apply list_elem_of_In. cbn. tauto.
  - reflexivity.
  - destruct (H 50%Z "bob" "c1" 50 0) as (rows & Hbefore & Hafter).
    + apply participant_row_decide. reflexivity.
    + vm_compute in Hbefore. injection Hbefore as <-. exact Hafter.
Defined.

(** C2, counterexample.  After "alice" deleted "hi" for everyone, the
    filtered fetch of "bob" holds no tombstone of it. *)
Lemma filtered_fetch_counterexample :
  ¬ filtered_fetch_shows_tombstone example_store "m1" "alice" "bob" "c1" 50 0.
Proof.
  intros (rows & m & Hout & Hin & Hid & _).
  vm_compute in Hout. injection Hout as <-.
  apply list_elem_of_In in Hin. cbn in Hin.
  destruct Hin as [<-|[]]. discriminate.
Qed.

(* --------------------------------------------------------------------- *)
(** ** Search *)
(* --------------------------------------------------------------------- *)

Section Like.












End Like.

Section Newest.

Lemma insert_by_desc_sorted x l :
  StronglySorted not_older l → StronglySorted not_older (insert_by createdAt_desc x l).
Proof.
  induction l as [|y l IH]; intros Hl; cbn.
  - repeat constructor.
  - apply StronglySorted_inv in Hl as [Hl Hy].
    destruct (createdAt_desc x y) eqn:E; unfold createdAt_desc in E.
    + apply Z.leb_le in E. constructor; [by constructor|].
      constructor; [done|]. eapply Forall_impl; [exact Hy|].
      intros z Hz. unfold not_older in *. lia.
    + apply Z.leb_gt in E. constructor; [by apply IH|].
      rewrite insert_by_Permutation. constructor; [|done].
      unfold not_older. lia.
Qed.

Lemma sort_by_desc_sorted l : StronglySorted not_older (sort_by createdAt_desc l).
Proof.
  induction l as [|x l IH]; cbn; [constructor|]. by apply insert_by_desc_sorted.
Qed.



End Newest.




(* ===================================================================== *)
(** * Further properties of the code *)
(* ===================================================================== *)

(* --------------------------------------------------------------------- *)
(** ** Presence registry: more of [handleConnection] and [handleDisconnect] *)
(* --------------------------------------------------------------------- *)

Section Registry.

Import ChatGateway.

Lemma truthy_Some_iff (o : option string) u : truthy o = Some u ↔ o = Some u ∧ u ≠ "".
Proof.
  destruct o as [[|c s]|]; cbn; split; try (intros [? ?]; congruence); try congruence.
  intros [= <-]. done.
Qed.

Lemma truthy_None_iff (o : option string) : truthy o = None ↔ o = None ∨ o = Some "".
Proof.
  destruct o as [[|c s]|]; cbn; split; try tauto; try congruence.
  intros [|]; congruence.
Qed.

Lemma handleConnection_registered g c :
  registered_connected g → registered_connected (fst (handleConnection g c)).
Proof.
  intros Hreg.
  destruct (truthy (handshake_query_userId c)) as [userId|] eqn:Ht.
  2:{ unfold handleConnection. by rewrite Ht. }
  intros s u. rewrite (connectionsOf_handleConnection g c userId u Ht),
                (socketUsers_handleConnection g c userId Ht).
  destruct (decide (s = socket_id c)) as [->|Hs].
  - rewrite lookup_insert_eq. intros [= <-]. rewrite decide_True by done.
    apply truthy_Some_iff in Ht as [_ Hne]. split; [done|].
    apply elem_of_union_l. by apply elem_of_singleton.
  - rewrite lookup_insert_ne by done. intros Hsu. apply Hreg in Hsu as [Hne Hin].
    split; [done|]. destruct (decide (u = userId)); [|done]. by apply elem_of_union_r.
Qed.

Lemma handleDisconnect_registered g c :
  registered_connected g → registered_connected (fst (handleDisconnect g c)).
Proof.
  intros Hreg.
  destruct (truthy (socketUsers g !! socket_id c)) as [userId|] eqn:Ht.
  2:{ unfold handleDisconnect. by rewrite Ht. }
  intros s u. rewrite (connectionsOf_handleDisconnect g c userId u Ht),
                (socketUsers_handleDisconnect g c userId Ht).
  destruct (decide (s = socket_id c)) as [->|Hs].
  - by rewrite lookup_delete_eq.
  - rewrite lookup_delete_ne by done. intros Hsu. apply Hreg in Hsu as [Hne Hin].
    split; [done|]. destruct (decide (u = userId)); [|done].
    apply elem_of_difference. split; [done|]. by intros ?%elem_of_singleton.
Qed.

Lemma registered_connected_initial : registered_connected initial.
Proof. intros s u H. cbn in H. by rewrite lookup_empty in H. Qed.

(** The three invariants of a registry reached with unique socket ids. *)
Lemma presence_run_invariants es : ∀ g,
  no_empty_entry g → owner_recorded g → registered_connected g → fresh_ids g es →
  no_empty_entry (presence_run g es)
  ∧ owner_recorded (presence_run g es)
  ∧ registered_connected (presence_run g es).
Proof.
  induction es as [|e es IH]; intros g Hne Hown Hreg Hfresh; [done|].
  destruct Hfresh as [Hnew Hfresh]. cbn. apply IH; [| | |done]; destruct e; cbn.
  - by apply handleConnection_no_empty.
  - by apply handleDisconnect_no_empty.
  - by apply handleConnection_owner.
  - by apply handleDisconnect_owner.
  - by apply handleConnection_registered.
  - by apply handleDisconnect_registered.
Qed.

Lemma reachable_invariants es :
  fresh_ids initial es →
  no_empty_entry (presence_run initial es)
  ∧ owner_recorded (presence_run initial es)
  ∧ registered_connected (presence_run initial es).
Proof.
  apply presence_run_invariants.
  - apply no_empty_entry_initial.
  - apply owner_recorded_initial.
  - apply registered_connected_initial.
Qed.

Lemma elem_of_getOnlineUserIds g u :
  u ∈ getOnlineUserIds g ↔ isUserOnline g u = true.
Proof.
  unfold getOnlineUserIds. rewrite elem_of_elements, elem_of_dom.
  symmetry. apply isUserOnline_spec.
Qed.

Lemma isUserOnline_false g u : isUserOnline g u = false ↔ userSockets g !! u = None.
Proof.
  unfold isUserOnline. rewrite bool_decide_eq_false, <- eq_None_not_Some. done.
Qed.

End Registry.

(** X1.  A disconnect signal that arrives twice is benign: the second
    [handleDisconnect] for the same socket changes nothing and emits
    nothing, and so does a disconnect for a socket that is not
    registered. *)
Theorem disconnect_twice_is_once (g : ChatGateway.t) (c : Socket) :
  let r := ChatGateway.handleDisconnect g c in
  ChatGateway.handleDisconnect (fst r) c = (fst r, [])
  ∧ (ChatGateway.socketUsers g !! socket_id c = None → r = (g, [])).
Proof.
  cbn zeta. split.
  - destruct (truthy (ChatGateway.socketUsers g !! socket_id c)) as [userId|] eqn:Ht.
    + pose proof (socketUsers_handleDisconnect g c userId Ht) as Hsu.
      unfold ChatGateway.handleDisconnect at 1.
      rewrite Hsu, lookup_delete_eq. reflexivity.
    + unfold ChatGateway.handleDisconnect at 2. rewrite Ht. cbn [fst].
      unfold ChatGateway.handleDisconnect. by rewrite Ht.
  - intros Hnone. unfold ChatGateway.handleDisconnect. by rewrite Hnone.
Qed.

(** A socket nobody registered disconnects. *)
Lemma disconnect_twice_is_once_witness :
  ChatGateway.handleDisconnect example_gateway (mkSocket "zz" None)
  = (example_gateway, []).
Proof.
  destruct (disconnect_twice_is_once example_gateway (mkSocket "zz" None)) as [_ H].
  apply H. reflexivity.
Defined.

(** X2.  In a registry reached with unique socket ids, a connection
    with an unused socket id followed by the disconnection of that socket
    gives back the registry as it was, whether or not the user had other
    connections and whether or not the connection named a user. *)
Theorem connect_disconnect_round_trip (events : list ConnEvent) (c : Socket) :
  fresh_ids ChatGateway.initial events →
  ChatGateway.socketUsers (presence_run ChatGateway.initial events) !! socket_id c = None →
  fst (ChatGateway.handleDisconnect
         (fst (ChatGateway.handleConnection
                 (presence_run ChatGateway.initial events) c)) c)
  = presence_run ChatGateway.initial events.
Proof.
  intros Hfresh Hnew.
  destruct (reachable_invariants events Hfresh) as (Hne & Hown & _).
  set (g := presence_run ChatGateway.initial events) in *.
  destruct (truthy (handshake_query_userId c)) as [userId|] eqn:Ht.
  2:{ unfold ChatGateway.handleConnection. rewrite Ht. cbn [fst].
      unfold ChatGateway.handleDisconnect. by rewrite Hnew. }
  pose proof Ht as Hname. apply truthy_Some_iff in Hname as [_ Hname].
  assert (Hnotin : socket_id c ∉ ChatGateway.connectionsOf g userId).
  { intros Hin. apply Hown in Hin. congruence. }
  unfold ChatGateway.handleConnection. rewrite Ht. cbn [fst].
  unfold ChatGateway.handleDisconnect.
  cbn [ChatGateway.socketUsers ChatGateway.userSockets].
  rewrite lookup_insert_eq.
  assert (truthy (Some userId) = Some userId) as -> by by apply truthy_Some_iff.
  rewrite lookup_insert_eq.
  unfold ChatGateway.connectionsOf in Hnotin.
  destruct g as [us su]. cbn [ChatGateway.socketUsers ChatGateway.userSockets] in *.
  destruct (us !! userId) as [S0|] eqn:Eu; cbn in Hnotin.
  - rewrite Eu. cbn [default from_option]. unfold id.
    assert (Hset : ({[socket_id c]} ∪ S0) ∖ {[socket_id c]} = S0).
    { apply set_eq. intros x. rewrite elem_of_difference, elem_of_union,
        elem_of_singleton. split; [tauto|]. intros Hx. split; [tauto|]. congruence. }
    rewrite Hset.
    assert (Hsz : size S0 ≠ 0).
    { intros Hz. apply size_empty_inv in Hz. apply leibniz_equiv in Hz.
      by apply (Hne userId S0). }
    rewrite bool_decide_eq_false_2 by done. cbn [fst]. f_equal.
    + rewrite insert_insert_eq. by apply insert_id.
    + rewrite delete_insert_eq. by apply delete_id.
  - rewrite lookup_insert_eq. cbn [default from_option]. unfold id.
    assert (Hset : ({[socket_id c]} ∪ ∅) ∖ {[socket_id c]} = (∅ : gset string)).
    { apply set_eq. intros x. rewrite elem_of_difference, elem_of_union,
        elem_of_singleton. split; [|by intros ?%not_elem_of_empty].
      intros [[->|Hx] Hn]; [done | by apply not_elem_of_empty in Hx]. }
    rewrite Hset, size_empty. rewrite bool_decide_eq_true_2 by done. cbn [fst]. f_equal.
    + rewrite !delete_insert_eq. by apply delete_id.
    + rewrite delete_insert_eq. by apply delete_id.
Qed.

(** A third device of "bob" connects and disconnects. *)
Lemma connect_disconnect_round_trip_witness :
  fst (ChatGateway.handleDisconnect
         (fst (ChatGateway.handleConnection example_gateway
                 (mkSocket "b3" (Some "bob"))))
         (mkSocket "b3" (Some "bob")))
  = example_gateway.
Proof.
  apply (connect_disconnect_round_trip example_trace (mkSocket "b3" (Some "bob"))).
  - vm_compute. tauto.
  - reflexivity.
Defined.

(** X3.  In a registry reached with unique socket ids the two maps
    agree: [socketUsers] sends a socket to a user exactly when the socket
    is in that user's set of [userSockets]; a user is online exactly when
    some registered socket is its own; and [getOnlineUserIds] lists the
    online users, each once. *)
Theorem registry_maps_agree (events : list ConnEvent) :
  fresh_ids ChatGateway.initial events →
  let g := presence_run ChatGateway.initial events in
  (∀ s u, ChatGateway.socketUsers g !! s = Some u ↔ s ∈ ChatGateway.connectionsOf g u)
  ∧ (∀ u, ChatGateway.isUserOnline g u = true
          ↔ ∃ s, ChatGateway.socketUsers g !! s = Some u)
  ∧ (∀ u, u ∈ ChatGateway.getOnlineUserIds g ↔ ChatGateway.isUserOnline g u = true)
  ∧ NoDup (ChatGateway.getOnlineUserIds g).
Proof.
  intros Hfresh g. destruct (reachable_invariants events Hfresh) as (Hne & Hown & Hreg).
  fold g in Hne, Hown, Hreg.
  assert (Hagree : ∀ s u, ChatGateway.socketUsers g !! s = Some u
                          ↔ s ∈ ChatGateway.connectionsOf g u).
  { intros s u. split; [by intros H; apply Hreg in H as [_ ?] | apply Hown]. }
  split_and!; [done| |intros u; apply elem_of_getOnlineUserIds|
               unfold ChatGateway.getOnlineUserIds; apply NoDup_elements].
  intros u. rewrite isUserOnline_spec, (online_iff_connections g u Hne). split.
  - intros Hnon. apply set_choose_L in Hnon as [s Hs]. exists s. by apply Hagree.
  - intros [s Hs]. apply Hagree in Hs. intros Hemp. rewrite Hemp in Hs.
    by apply not_elem_of_empty in Hs.
Qed.

(** The example registry: socket "b2" is registered to "bob". *)
Lemma registry_maps_agree_witness :
  "b2" ∈ ChatGateway.connectionsOf example_gateway "bob"
  ∧ ChatGateway.isUserOnline example_gateway "bob" = true.
Proof.
  destruct (registry_maps_agree example_trace) as (Hagree & Honline & _).
  - vm_compute. tauto.
  - split.
    + apply Hagree. reflexivity.
    + apply Honline. exists "b2". reflexivity.
Defined.

(** X4.  In a registry reached with unique socket ids, disconnecting a
    registered socket of user [u] emits [userOffline] exactly when it was
    the last connection of [u]: then the event is the only one, its list
    of online users is the new key set and no longer holds [u]; when [u]
    has another connection nothing is emitted and [u] stays online.  In
    both cases the socket leaves both maps. *)
Theorem offline_exactly_on_last (events : list ConnEvent) (c : Socket) (u : string) :
  fresh_ids ChatGateway.initial events →
  ChatGateway.socketUsers (presence_run ChatGateway.initial events) !! socket_id c
  = Some u →
  let g := presence_run ChatGateway.initial events in
  let r := ChatGateway.handleDisconnect g c in
  (ChatGateway.connectionsOf g u = {[socket_id c]} →
   snd r = [ServerEmit "userOffline"
              (PresenceData u (ChatGateway.getOnlineUserIds (fst r)))]
   ∧ ChatGateway.isUserOnline (fst r) u = false
   ∧ u ∉ ChatGateway.getOnlineUserIds (fst r))
  ∧ (ChatGateway.connectionsOf g u ≠ {[socket_id c]} →
     snd r = [] ∧ ChatGateway.isUserOnline (fst r) u = true)
  ∧ ChatGateway.connectionsOf (fst r) u
    = ChatGateway.connectionsOf g u ∖ {[socket_id c]}
  ∧ ChatGateway.socketUsers (fst r) !! socket_id c = None.
Proof.
  intros Hfresh Hsu g r. subst r.
  destruct (reachable_invariants events Hfresh) as (Hne & Hown & Hreg).
  fold g in Hsu, Hne, Hown, Hreg.
  destruct (Hreg _ _ Hsu) as [Hname Hin].
  assert (Ht : truthy (ChatGateway.socketUsers g !! socket_id c) = Some u)
    by by apply truthy_Some_iff.
  pose proof (connectionsOf_handleDisconnect g c u u Ht) as Hconn.
  rewrite decide_True in Hconn by done.
  pose proof (socketUsers_handleDisconnect g c u Ht) as Hsock.
  unfold ChatGateway.connectionsOf in Hin.
  destruct (ChatGateway.userSockets g !! u) as [S0|] eqn:Eu; cbn in Hin;
    [|by apply not_elem_of_empty in Hin].
  assert (Hlast : size (S0 ∖ {[socket_id c]}) = 0 ↔ S0 = {[socket_id c]}).
  { split.
    - intros Hz. apply size_empty_inv in Hz. apply set_eq. intros x.
      rewrite elem_of_singleton. split.
      + intros Hx. destruct (decide (x = socket_id c)) as [|Hxc]; [done|].
        exfalso. apply (not_elem_of_empty (C:=gset string) x). apply Hz.
        apply elem_of_difference. split; [done|].
        by intros ?%elem_of_singleton.
      + by intros ->.
    - intros ->. rewrite difference_diag_L. apply size_empty. }
  assert (Hco : ChatGateway.connectionsOf g u = S0).
  { unfold ChatGateway.connectionsOf. by rewrite Eu. }
  rewrite Hco.
  split_and!.
  - intros Hone. apply Hlast in Hone.
    unfold ChatGateway.handleDisconnect. rewrite Ht, Eu.
    rewrite bool_decide_eq_true_2 by done. cbn [fst snd].
    split_and!.
    + reflexivity.
    + apply isUserOnline_false. cbn. apply lookup_delete_eq.
    + rewrite elem_of_getOnlineUserIds.
      assert (ChatGateway.isUserOnline
                (ChatGateway.mk (delete u (ChatGateway.userSockets g))
                   (delete (socket_id c) (ChatGateway.socketUsers g))) u = false) as ->.
      { apply isUserOnline_false. cbn. apply lookup_delete_eq. }
      done.
  - intros Hmore. assert (Hsz : size (S0 ∖ {[socket_id c]}) ≠ 0) by by rewrite Hlast.
    unfold ChatGateway.handleDisconnect. rewrite Ht, Eu.
    rewrite bool_decide_eq_false_2 by done. cbn [fst snd]. split; [done|].
    apply isUserOnline_spec. cbn. rewrite lookup_insert_eq. eauto.
  - by rewrite Hconn, Hco.
  - rewrite Hsock. apply lookup_delete_eq.
Qed.

(** The only device of "alice" disconnects; one of two devices of "bob"
    disconnects. *)
Lemma offline_exactly_on_last_witness :
  snd (ChatGateway.handleDisconnect example_gateway (mkSocket "a1" None))
  = [ServerEmit "userOffline"
       (PresenceData "alice"
          (ChatGateway.getOnlineUserIds
             (fst (ChatGateway.handleDisconnect example_gateway (mkSocket "a1" None)))))]
  ∧ snd (ChatGateway.handleDisconnect example_gateway (mkSocket "b1" None)) = [].
Proof.
  split.
  - destruct (offline_exactly_on_last example_trace (mkSocket "a1" None) "alice")
      as (H & _).
    + vm_compute. tauto.
    + reflexivity.
    + apply H. apply (bool_decide_unpack _). vm_compute. exact I.
  - destruct (offline_exactly_on_last example_trace (mkSocket "b1" None) "bob")
      as (_ & H & _).
    + vm_compute. tauto.
    + reflexivity.
    + apply H. intros Heq.
      assert (Hb2 : "b2" ∈ ChatGateway.connectionsOf
                             (presence_run ChatGateway.initial example_trace) "bob")
        by (vm_compute; reflexivity).
      cbn [socket_id] in Heq. rewrite Heq in Hb2.
      apply elem_of_singleton in Hb2. discriminate.
Defined.

(** X5.  Every connection that names a user, the first and the later
    ones alike, registers the socket, starts the delivery backfill for
    that user and then emits [userOnline] to everybody with the list of
    online users, which is the earlier list plus this user.  A connection
    without a user id leaves the registry alone, sends [error] to that
    client and disconnects it. *)
Theorem connection_announced (g : ChatGateway.t) (c : Socket) :
  (∀ userId,
     truthy (handshake_query_userId c) = Some userId →
     let r := ChatGateway.handleConnection g c in
     snd r = [DeliveredBackfill userId;
              ServerEmit "userOnline"
                (PresenceData userId (ChatGateway.getOnlineUserIds (fst r)))]
     ∧ (∀ u, u ∈ ChatGateway.getOnlineUserIds (fst r)
             ↔ u = userId ∨ ChatGateway.isUserOnline g u = true)
     ∧ ChatGateway.socketUsers (fst r) !! socket_id c = Some userId
     ∧ ChatGateway.connectionsOf (fst r) userId
       = {[socket_id c]} ∪ ChatGateway.connectionsOf g userId)
  ∧ (truthy (handshake_query_userId c) = None →
     ChatGateway.handleConnection g c
     = (g, [ClientEmit (socket_id c) "error" (ErrorData "userId is required");
            ClientDisconnect (socket_id c)])).
Proof.
  split.
  - intros userId Ht r. subst r.
    pose proof (connectionsOf_handleConnection g c userId userId Ht) as Hconn.
    rewrite decide_True in Hconn by done.
    pose proof (socketUsers_handleConnection g c userId Ht) as Hsock.
    split_and!.
    + unfold ChatGateway.handleConnection. by rewrite Ht.
    + intros u. rewrite elem_of_getOnlineUserIds, !isUserOnline_spec.
      unfold ChatGateway.handleConnection. rewrite Ht. cbn [fst ChatGateway.userSockets].
      destruct (decide (u = userId)) as [->|Hne].
      * rewrite lookup_insert_eq. split; [by left | eauto].
      * rewrite lookup_insert_ne by done.
        destruct (ChatGateway.userSockets g !! userId).
        -- split; [by right | by intros [|]].
        -- rewrite lookup_insert_ne by done. split; [by right | by intros [|]].
    + rewrite Hsock. apply lookup_insert_eq.
    + done.
  - intros Ht. unfold ChatGateway.handleConnection. by rewrite Ht.
Qed.

(** A second device of "alice" connects. *)
Lemma connection_announced_witness :
  snd (ChatGateway.handleConnection example_gateway (mkSocket "a2" (Some "alice")))
  = [DeliveredBackfill "alice";
     ServerEmit "userOnline"
       (PresenceData "alice"
          (ChatGateway.getOnlineUserIds
             (fst (ChatGateway.handleConnection example_gateway
                     (mkSocket "a2" (Some "alice"))))))].
Proof.
  destruct (connection_announced example_gateway (mkSocket "a2" (Some "alice")))
    as [H _].
  destruct (H "alice" eq_refl) as [Hout _]. exact Hout.
Defined.

(* --------------------------------------------------------------------- *)
(** ** Status state machine: the read transition and the two handlers *)
(* --------------------------------------------------------------------- *)

Lemma unread_for_spec c u m :
  MessagesService.unread_for c u m = true ↔ read_eligible c u m.
Proof.
  unfold MessagesService.unread_for, read_eligible.
  rewrite !andb_true_iff, !negb_true_iff, !bool_decide_eq_true, str_eqb_eq.
  unfold str_eqb. rewrite !bool_decide_eq_false. tauto.
Qed.

(** X6.  [markConversationAsRead] returns normally for any conversation
    and user (it does not consult the participant table), rewrites to
    READ exactly the rows of that conversation that were not sent by the
    user, are not READ yet and are not globally deleted, whatever their
    earlier status, leaves every other row and table alone and returns
    the number of rows it rewrote. *)
Theorem read_exactly_unread (st : Store) (conversationId userId : string) :
  let call := MessagesService.markConversationAsRead conversationId userId in
  let st' := store_after call st in
  length (messages st') = length (messages st)
  ∧ (∀ i m, messages st !! i = Some m →
        (read_eligible conversationId userId m →
           messages st' !! i = Some (Message.set_status READ m))
        ∧ (¬ read_eligible conversationId userId m → messages st' !! i = Some m))
  ∧ deletions st' = deletions st
  ∧ participants st' = participants st
  ∧ conversations st' = conversations st
  ∧ outcome_of call st
    = Returned (length (List.filter (MessagesService.unread_for conversationId userId)
                                    (messages st))).
Proof.
  cbn zeta. unfold store_after, outcome_of. rewrite markConversationAsRead_run.
  cbn [fst snd messages set_messages deletions participants conversations].
  split_and!; try done.
  - by rewrite length_map.
  - intros i m Hm. rewrite list_lookup_fmap, Hm. cbn.
    destruct (MessagesService.unread_for conversationId userId m) eqn:E.
    + split; [done|]. intros Hn. by apply unread_for_spec in E.
    + split; [|done]. intros He. apply unread_for_spec in He. congruence.
Qed.

(** "bob" reads "c1": "hi" of "alice" becomes READ, his own message
    stays SENT. *)
Lemma read_exactly_unread_witness :
  messages (store_after (MessagesService.markConversationAsRead "c1" "bob")
                        example_store) !! 0
  = Some (Message.set_status READ example_message_hi)
  ∧ messages (store_after (MessagesService.markConversationAsRead "c1" "bob")
                          example_store) !! 1
    = Some example_message_yo.
Proof.
  destruct (read_exactly_unread example_store "c1" "bob") as (_ & H & _).
  split.
  - apply (H 0 example_message_hi); [reflexivity|]. by split_and!.
  - apply (H 1 example_message_yo); [reflexivity|]. by intros (_ & Hs & _).
Defined.

(** X7.  [handleMarkAsRead] from a registered socket runs the read
    transition and announces it with a single aggregate [messagesRead]
    event to the room of the conversation, carrying the reader, the
    clock and the number of rows that changed; when no row changed
    nothing is emitted, so an immediate second call is silent.  From an
    unregistered socket, or without a conversation id, it does nothing at
    all. *)
Theorem mark_as_read_single_event (g : ChatGateway.t) (now : Z)
    (data_conversationId : option string) (client : Socket) (st : Store) :
  let call := ChatGatewayStatus.handleMarkAsRead g now data_conversationId client in
  (∀ userId conversationId,
     truthy (ChatGateway.socketUsers g !! socket_id client) = Some userId →
     truthy data_conversationId = Some conversationId →
     let updatedCount :=
       length (List.filter (MessagesService.unread_for conversationId userId)
                           (messages st)) in
     store_after call st
     = store_after (MessagesService.markConversationAsRead conversationId userId) st
     ∧ (0 < updatedCount →
        outcome_of call st
        = Returned [ToEmit ("conversation:" +:+ conversationId) "messagesRead"
                      (MessagesReadData conversationId userId now updatedCount)])
     ∧ (updatedCount = 0 → outcome_of call st = Returned [])
     ∧ outcome_of call (store_after call st) = Returned [])
  ∧ (truthy (ChatGateway.socketUsers g !! socket_id client) = None
     ∨ truthy data_conversationId = None →
     call st = (Returned [], st)).
Proof.
  cbn zeta. split.
  - intros userId conversationId Hu Hc.
    assert (Hrun : ∀ s,
              ChatGatewayStatus.handleMarkAsRead g now data_conversationId client s
              = (Returned
                   (if bool_decide
                         (0 < length (List.filter
                                        (MessagesService.unread_for conversationId userId)
                                        (messages s)))
                    then [ToEmit ("conversation:" +:+ conversationId) "messagesRead"
                            (MessagesReadData conversationId userId now
                               (length (List.filter
                                  (MessagesService.unread_for conversationId userId)
                                  (messages s))))]
                    else []),
                 store_after
                   (MessagesService.markConversationAsRead conversationId userId) s)).
    { intros s. unfold ChatGatewayStatus.handleMarkAsRead. rewrite Hu, Hc.
      unfold try_catch, bind, store_after. rewrite markConversationAsRead_run.
      cbn [snd]. by destruct (bool_decide _). }
    unfold store_after at 1 3, outcome_of. rewrite !Hrun. cbn [fst snd].
    split_and!.
    + done.
    + intros Hpos. by rewrite bool_decide_eq_true_2.
    + intros ->. reflexivity.
    + unfold store_after. rewrite markConversationAsRead_run.
      cbn [snd messages set_messages].
      rewrite update_then_select_empty; [done|]. intros m _. apply unread_for_READ.
  - unfold ChatGatewayStatus.handleMarkAsRead.
    intros [Hn|Hn]; rewrite Hn; [reflexivity|].
    by destruct (truthy (ChatGateway.socketUsers g !! socket_id client)).
Qed.

(** "bob", on socket "b1", opens "c1": one event for the one message he
    had not read. *)
Lemma mark_as_read_single_event_witness :
  outcome_of (ChatGatewayStatus.handleMarkAsRead example_gateway 50 (Some "c1")
                (mkSocket "b1" None)) example_store
  = Returned [ToEmit "conversation:c1" "messagesRead" (MessagesReadData "c1" "bob" 50 1)].
Proof.
  destruct (mark_as_read_single_event example_gateway 50 (Some "c1")
              (mkSocket "b1" None) example_store) as [H _].
  destruct (H "bob" "c1" eq_refl eq_refl) as (_ & Hpos & _).
  apply Hpos. vm_compute. lia.
Defined.

(** X8.  The delivery backfill of the gateway runs the service call and
    then emits one [messagesDelivered] event per conversation that held
    an eligible message, to the room of that conversation: no
    conversation is announced twice, a conversation is announced exactly
    when one of its messages was eligible, and an immediate second run
    emits nothing. *)
Theorem delivered_events_per_conversation (st : Store) (now : Z) (userId : string) :
  let call := ChatGatewayStatus.markMessagesAsDeliveredForUser now userId in
  store_after call st
  = store_after (MessagesService.markMessagesAsDeliveredForUser userId) st
  ∧ (∃ conversationIds,
       outcome_of call st
       = Returned (map (fun conversationId =>
                          ToEmit ("conversation:" +:+ conversationId) "messagesDelivered"
                                 (MessagesDeliveredData conversationId userId now))
                       conversationIds)
       ∧ NoDup conversationIds
       ∧ ∀ c, c ∈ conversationIds
              ↔ ∃ m, m ∈ messages st ∧ delivery_eligible st userId m
                     ∧ Message.conversationId m = c)
  ∧ outcome_of call (store_after call st) = Returned [].
Proof.
  cbn zeta.
  assert (Hrun : ∀ s,
            ChatGatewayStatus.markMessagesAsDeliveredForUser now userId s
            = (Returned
                 (map (fun conversationId =>
                         ToEmit ("conversation:" +:+ conversationId) "messagesDelivered"
                                (MessagesDeliveredData conversationId userId now))
                      (remove_dups
                         (map Message.conversationId
                            (List.filter
                               (MessagesService.undelivered_for
                                  (conversationIds_of s userId) userId)
                               (messages s))))),
               store_after (MessagesService.markMessagesAsDeliveredForUser userId) s)).
  { intros s. unfold ChatGatewayStatus.markMessagesAsDeliveredForUser, try_catch, bind,
      store_after.
    rewrite markMessagesAsDeliveredForUser_run. cbn [snd MessagesService.updatedCount
      MessagesService.conversationIds].
    case_bool_decide as Hpos; [done|].
    destruct (List.filter _ (messages s)); [done|]. cbn in Hpos. lia. }
  unfold outcome_of, store_after at 1 3. rewrite !Hrun. cbn [fst snd].
  split_and!.
  - done.
  - eexists. split; [reflexivity|]. split; [apply NoDup_remove_dups|].
    intros c. rewrite elem_of_remove_dups, list_elem_of_fmap. split.
    + intros (m & -> & Hm). apply elem_of_filter_bool in Hm as [Hsel Hin].
      exists m. split_and!; [done| |done]. by apply undelivered_for_spec.
    + intros (m & Hin & Hel & <-). exists m. split; [done|].
      apply elem_of_filter_bool. split; [|done]. by apply undelivered_for_spec.
  - unfold store_after. rewrite markMessagesAsDeliveredForUser_run.
    cbn [snd messages set_messages]. rewrite conversationIds_of_messages.
    rewrite update_then_select_empty; [done|].
    intros m _. apply undelivered_for_DELIVERED.
Qed.

(* --------------------------------------------------------------------- *)
(** ** Sending: validation, persistence and preview *)
(* --------------------------------------------------------------------- *)

Section Sending.

Import MessagesService.

Lemma all_white_space_unfold c1 s1 :
  all_white_space (String c1 s1)
  = if is_white_space c1 then all_white_space s1
    else
      match s1 with
      | EmptyString => false
      | String c2 s2 =>
          if is_white_space2 c1 c2 then all_white_space s2
          else
            match s2 with
            | EmptyString => false
            | String c3 s3 => is_white_space3 c1 c2 c3 && all_white_space s3
            end
      end.
Proof. reflexivity. Qed.

Lemma trimStart_unfold c1 s1 :
  trimStart (String c1 s1)
  = if is_white_space c1 then trimStart s1
    else
      match s1 with
      | EmptyString => String c1 s1
      | String c2 s2 =>
          if is_white_space2 c1 c2 then trimStart s2
          else
            match s2 with
            | EmptyString => String c1 s1
            | String c3 s3 =>
                if is_white_space3 c1 c2 c3 then trimStart s3 else String c1 s1
            end
      end.
Proof. reflexivity. Qed.

Lemma trimEnd_empty s : trimEnd s = "" ↔ all_white_space s = true.
Proof.
  destruct s as [|c s]; [done|].
  change (trimEnd (String c s))
    with (if all_white_space (String c s) then "" else String c (trimEnd s)).
  by destruct (all_white_space (String c s)).
Qed.

Lemma all_white_space_trimStart_bounded n : ∀ s,
  String.length s ≤ n → all_white_space (trimStart s) = all_white_space s.
Proof.
  induction n as [|n IH]; intros s Hn.
  - destruct s; [done|]. cbn in Hn. lia.
  - destruct s as [|c1 s1]; [done|]. cbn [String.length] in Hn.
    rewrite trimStart_unfold, (all_white_space_unfold c1 s1).
    destruct (is_white_space c1) eqn:E1; [apply IH; lia|].
    destruct s1 as [|c2 s2].
    { by rewrite all_white_space_unfold, E1. }
    cbn [String.length] in Hn.
    destruct (is_white_space2 c1 c2) eqn:E2; [apply IH; lia|].
    destruct s2 as [|c3 s3].
    { by rewrite all_white_space_unfold, E1, E2. }
    cbn [String.length] in Hn.
    destruct (is_white_space3 c1 c2 c3) eqn:E3.
    + cbn [andb]. apply IH. lia.
    + by rewrite all_white_space_unfold, E1, E2, E3.
Qed.

Lemma all_white_space_trimStart s :
  all_white_space (trimStart s) = all_white_space s.
Proof. by apply (all_white_space_trimStart_bounded (String.length s)). Qed.

(** [!value?.trim()] holds exactly when the value is missing or made of
    white space only. *)
Lemma blank_false_iff value : blank value = false ↔ visible_text value.
Proof.
  unfold blank, visible_text. destruct value as [s|].
  - assert (Ht : trim s = "" ↔ all_white_space s = true).
    { unfold trim. by rewrite trimEnd_empty, all_white_space_trimStart. }
    split.
    + intros Hb. exists s. split; [done|].
      destruct (all_white_space s) eqn:E; [|done].
      assert (Hts : trim s = "") by by apply Ht. by rewrite Hts in Hb.
    + intros (s' & [= <-] & Hv). destruct (trim s) eqn:E; [|done].
      assert (all_white_space s = true) by by apply Ht. congruence.
  - split; [done|]. by intros (s & ? & _).
Qed.

Lemma payload_valid_visible dto :
  payload_valid dto
  ↔ (CreateMessageDto.type dto = TEXT → visible_text (CreateMessageDto.content dto))
    ∧ (CreateMessageDto.type dto = IMAGE ∨ CreateMessageDto.type dto = FILE →
       visible_text (CreateMessageDto.fileUrl dto)).
Proof. unfold payload_valid. by rewrite !blank_false_iff. Qed.

(** A payload that fails validation is rejected by [saveMessage] with the
    error of the validation, before anything else happens. *)
Lemma saveMessage_invalid st newId createdAt now updatedAt dto e :
  validateMessageContent dto st = (Thrown (BadRequestException e), st) →
  saveMessage newId createdAt now updatedAt dto st = (Thrown (BadRequestException e), st).
Proof.
  intros Hrun. unfold saveMessage, try_catch. unfold bind at 1. by rewrite Hrun.
Qed.

(** What [saveMessage] computes for a valid payload of a participant. *)
Lemma saveMessage_run st newId createdAt now updatedAt dto :
  participant_row st (CreateMessageDto.conversationId dto) (CreateMessageDto.senderId dto) →
  payload_valid dto →
  saveMessage newId createdAt now updatedAt dto st
  = (Returned (message_of_dto newId createdAt dto),
     set_conversations
       (map (previewing now updatedAt (message_of_dto newId createdAt dto)) (conversations st))
       (set_messages (messages st ++ [message_of_dto newId createdAt dto]) st)).
Proof.
  intros Hp Hv. unfold saveMessage, try_catch. unfold bind at 1.
  destruct (validateMessageContent_run dto st) as [[_ ->]|[Hn _]]; [|done].
  unfold bind at 1. rewrite (isParticipant_true st _ _ Hp). reflexivity.
Qed.

End Sending.

(** X9.  Content validation of a payload: a TEXT message is accepted
    exactly when its content is present and holds a character that is
    not white space, an IMAGE or FILE message exactly when its file URL
    does; VIDEO, AUDIO and SYSTEM messages are never rejected.  A
    rejection is a validation error, it comes before the membership
    check of [saveMessage], and nothing is written. *)
Theorem validation_rejects_exactly_blank (st : Store) (dto : CreateMessageDto.t) :
  let type := CreateMessageDto.type dto in
  let validated := outcome_of (MessagesService.validateMessageContent dto) st in
  (type = TEXT →
   (validated = Returned tt ↔ visible_text (CreateMessageDto.content dto))
   ∧ (¬ visible_text (CreateMessageDto.content dto) →
      validated = Thrown (BadRequestException "Content is required for text messages")))
  ∧ (type = IMAGE ∨ type = FILE →
     (validated = Returned tt ↔ visible_text (CreateMessageDto.fileUrl dto))
     ∧ (¬ visible_text (CreateMessageDto.fileUrl dto) →
        validated = Thrown (BadRequestException "File URL is required for file messages")))
  ∧ (type = VIDEO ∨ type = AUDIO ∨ type = SYSTEM → validated = Returned tt)
  ∧ (∀ newId createdAt now updatedAt message,
       validated = Thrown (BadRequestException message) →
       MessagesService.saveMessage newId createdAt now updatedAt dto st
       = (Thrown (BadRequestException message), st)).
Proof.
  cbn zeta. unfold outcome_of.
  assert (Hlast : ∀ newId createdAt now updatedAt message,
            fst (MessagesService.validateMessageContent dto st)
            = Thrown (BadRequestException message) →
            MessagesService.saveMessage newId createdAt now updatedAt dto st
            = (Thrown (BadRequestException message), st)).
  { intros newId createdAt now updatedAt message Hthrown. apply saveMessage_invalid.
    destruct (validateMessageContent_run dto st) as [[_ Hr]|[_ [msg Hr]]];
      rewrite Hr in Hthrown |- *; cbn in Hthrown; congruence. }
  unfold MessagesService.validateMessageContent, bind, throw, ret.
  destruct dto as [c s content ty url fn mime size reply].
  cbn [CreateMessageDto.type CreateMessageDto.content CreateMessageDto.fileUrl].
  pose proof (blank_false_iff content) as Hc. pose proof (blank_false_iff url) as Hu.
  split_and!; [| | |exact Hlast].
  - intros ->. cbn. destruct (blank content); cbn.
    + split; [split; [done|]|done]. intros Hv. apply Hc in Hv. done.
    + split; [split; [by intros _; apply Hc | done]|]. intros Hn. exfalso. by apply Hn, Hc.
  - intros [-> | ->]; cbn; (destruct (blank url); cbn;
      [ split; [split; [done|]; intros Hv; apply Hu in Hv; done | done]
      | split; [split; [by intros _; apply Hu | done]|];
        intros Hn; exfalso; by apply Hn, Hu ]).
  - intros [-> | [-> | ->]]; reflexivity.
Qed.

(** A text of three spaces is rejected, and so is a text made of the
    no-break space U+00A0 and the line separator U+2028; " hello " is
    accepted. *)
Lemma validation_rejects_exactly_blank_witness :
  outcome_of (MessagesService.validateMessageContent example_blank_dto) example_store
  = Thrown (BadRequestException "Content is required for text messages")
  ∧ outcome_of (MessagesService.validateMessageContent
                  (CreateMessageDto.mk "c1" "bob" (Some example_unicode_blank) TEXT
                                       None None None None None)) example_store
    = Thrown (BadRequestException "Content is required for text messages")
  ∧ outcome_of (MessagesService.validateMessageContent
                  (CreateMessageDto.mk "c1" "bob" (Some " hello ") TEXT
                                       None None None None None)) example_store
    = Returned tt.
Proof.
  split_and!.
  - destruct (validation_rejects_exactly_blank example_store example_blank_dto)
      as (H & _).
    destruct (H eq_refl) as [_ Hn]. apply Hn.
    intros (s & [= <-] & Hv). discriminate Hv.
  - destruct (validation_rejects_exactly_blank example_store
                (CreateMessageDto.mk "c1" "bob" (Some example_unicode_blank) TEXT
                                     None None None None None)) as (H & _).
    destruct (H eq_refl) as [_ Hn]. apply Hn.
    intros (s & [= <-] & Hv). discriminate Hv.
  - destruct (validation_rejects_exactly_blank example_store
                (CreateMessageDto.mk "c1" "bob" (Some " hello ") TEXT
                                     None None None None None)) as (H & _).
    destruct (H eq_refl) as [Hiff _]. apply Hiff. by exists " hello ".
Defined.

(** X10.  A valid payload of a participant is persisted and previewed:
    [saveMessage] returns the new row, which is SENT and not deleted,
    appends it to the message table, rewrites the last-message preview of
    the conversation to this message (id, content, sender, type, and the
    clock of the service in [lastMessageAt]; [updatedAt] takes the value
    the ORM gives it) and of no other conversation, leaves the other
    tables alone, and [getMessageCount] grows by one for that
    conversation and stays what it was for every other one. *)
Theorem saveMessage_persists_and_previews (st : Store) (newId : string)
    (createdAt now updatedAt : Z) (dto : CreateMessageDto.t) :
  participant_row st (CreateMessageDto.conversationId dto) (CreateMessageDto.senderId dto) →
  payload_valid dto →
  let message := message_of_dto newId createdAt dto in
  let call := MessagesService.saveMessage newId createdAt now updatedAt dto in
  let st' := store_after call st in
  outcome_of call st = Returned message
  ∧ messages st' = (messages st ++ [message])%list
  ∧ (∀ i c, conversations st !! i = Some c →
        (Conversation.id c = CreateMessageDto.conversationId dto →
         conversations st' !! i
         = Some (Conversation.mk (Conversation.id c) (Some newId)
                   (CreateMessageDto.content dto)
                   (Some (CreateMessageDto.senderId dto))
                   (Some (CreateMessageDto.type dto)) (Some now) updatedAt))
        ∧ (Conversation.id c ≠ CreateMessageDto.conversationId dto →
           conversations st' !! i = Some c))
  ∧ deletions st' = deletions st
  ∧ participants st' = participants st
  ∧ (∀ c, c ≠ "" →
       ∃ n, outcome_of (MessagesQueries.getMessageCount (Some c)) st = Returned n
            ∧ outcome_of (MessagesQueries.getMessageCount (Some c)) st'
              = Returned (if decide (c = CreateMessageDto.conversationId dto)
                          then S n else n))
  ∧ outcome_of (MessagesQueries.getMessageCount None) st'
    = Returned (S (length (messages st))).
Proof.
  intros Hp Hv message call st'. subst call st'. unfold outcome_of, store_after.
  rewrite (saveMessage_run st newId createdAt now updatedAt dto Hp Hv). fold message.
  cbn [fst snd messages deletions participants conversations set_conversations
       set_messages].
  split_and!; try done.
  - intros i c Hc. rewrite list_lookup_fmap, Hc. cbn. unfold previewing.
    cbn [Message.conversationId message message_of_dto Message.id Message.content
         Message.senderId Message.type].
    split.
    + intros Hid. by rewrite (proj2 (str_eqb_eq _ _) Hid).
    + intros Hid. destruct (str_eqb _ _) eqn:E; [|done]. by apply str_eqb_eq in E.
  - intros c Hne. eexists. split.
    + unfold MessagesQueries.getMessageCount.
      assert (truthy (Some c) = Some c) as -> by by apply truthy_Some_iff.
      reflexivity.
    + unfold MessagesQueries.getMessageCount.
      assert (truthy (Some c) = Some c) as -> by by apply truthy_Some_iff.
      cbn [fst messages set_conversations set_messages].
      rewrite List.filter_app, length_app. cbn.
      destruct (decide (c = CreateMessageDto.conversationId dto)) as [->|Hc].
      * rewrite str_eqb_refl. cbn. f_equal. lia.
      * destruct (str_eqb _ c) eqn:E.
        -- apply str_eqb_eq in E. congruence.
        -- cbn. f_equal. lia.
  - cbn. rewrite length_app. cbn. f_equal. lia.
Qed.

(** "bob" sends "hello" to "c1": the row is returned and the preview of
    "c1" names it, with the clock of the service in [lastMessageAt] and
    the clock of the ORM in [updatedAt]. *)
Lemma saveMessage_persists_and_previews_witness :
  let dto := CreateMessageDto.mk "c1" "bob" (Some "hello") TEXT
               None None None None None in
  outcome_of (MessagesService.saveMessage "m9" 90 91 92 dto) example_store
  = Returned (Message.mk "m9" "c1" "bob" (Some "hello") TEXT None None None None
                         SENT false None None None 90)
  ∧ conversations
      (store_after (MessagesService.saveMessage "m9" 90 91 92 dto) example_store) !! 0
    = Some (Conversation.mk "c1" (Some "m9") (Some "hello") (Some "bob") (Some TEXT)
              (Some 91%Z) 92).
Proof.
  intros dto.
  destruct (saveMessage_persists_and_previews example_store "m9" 90 91 92 dto)
    as (H & _ & Hpreview & _).
  - apply participant_row_decide. reflexivity.
  - split; [done|]. intros [|]; discriminate.
  - split; [exact H|].
    destruct (Hpreview 0 (Conversation.mk "c1" None None None None None 5) eq_refl)
      as [Hc _].
    by apply Hc.
Defined.

(* --------------------------------------------------------------------- *)
(** ** Editing and hard deletion *)
(* --------------------------------------------------------------------- *)

Section Editing.

Import MessagesService.

(** What [editMessage] computes when the sender edits an undeleted text
    message. *)
Lemma editMessage_run st now m userId newContent :
  primary_keys_unique st → m ∈ messages st →
  Message.senderId m = userId → Message.type m = TEXT → Message.isDeleted m = false →
  editMessage now (Message.id m) userId newContent st
  = (Returned (edited now newContent m),
     set_messages (map (edit_of (Message.id m) now newContent) (messages st)) st).
Proof.
  intros Hpk Hm Hs Ht Hd. unfold editMessage, bind, message_findOne.
  rewrite (find_by_unique_id st m Hpk Hm).
  replace (negb (str_eqb (Message.senderId m) userId)) with false
    by (symmetry; apply negb_false_iff; by apply str_eqb_eq).
  rewrite Ht, Hd. rewrite bool_decide_eq_true_2 by done. cbn [negb].
  unfold message_save. f_equal. f_equal. apply map_ext_in. intros r Hr.
  unfold edit_of, edited. cbn [Message.id Message.set_editedAt Message.set_content].
  destruct (str_eqb (Message.id r) (Message.id m)) eqn:E; [|done].
  apply str_eqb_eq in E. apply list_elem_of_In in Hr.
  by rewrite (unique_id_eq st r m Hpk Hr Hm E).
Qed.

Lemma map_keeps_ids (f : Message.t → Message.t) (l : list Message.t) :
  (∀ r, Message.id (f r) = Message.id r) →
  map Message.id (map f l) = map Message.id l.
Proof. intros H. rewrite map_map. apply map_ext. intros r. apply H. Qed.

Lemma edit_of_id mid now newContent r :
  Message.id (edit_of mid now newContent r) = Message.id r.
Proof. unfold edit_of. by destruct (str_eqb _ _). Qed.

Lemma find_after_map st (f : Message.t → Message.t) m :
  primary_keys_unique st → m ∈ messages st →
  (∀ r, Message.id (f r) = Message.id r) →
  List.find (fun r => str_eqb (Message.id r) (Message.id m)) (map f (messages st))
  = Some (f m).
Proof.
  intros Hpk Hm Hid.
  pose proof (find_by_unique_id (set_messages (map f (messages st)) st) (f m)) as H.
  cbn [messages set_messages] in H. rewrite Hid in H. apply H.
  - unfold primary_keys_unique. cbn [messages set_messages].
    by rewrite map_keeps_ids.
  - apply list_elem_of_fmap. eauto.
Qed.

End Editing.

(** X11.  When its sender edits an undeleted text message, [editMessage]
    returns the row with the new content and [editedAt] set to the
    clock, everything else kept (id, status, creation date), rewrites
    that row in place and no other row or table; a later [findById]
    returns the edited row, and every page of the plain and of the
    filtered history fetch is the page it was with that row replaced. *)
Theorem editMessage_success (st : Store) (now : Z) (m : Message.t)
    (userId newContent : string) :
  primary_keys_unique st → m ∈ messages st →
  Message.senderId m = userId → Message.type m = TEXT → Message.isDeleted m = false →
  let call := MessagesService.editMessage now (Message.id m) userId newContent in
  let st' := store_after call st in
  let m' := edited now newContent m in
  outcome_of call st = Returned m'
  ∧ (Message.content m' = Some newContent ∧ Message.editedAt m' = Some now
     ∧ Message.id m' = Message.id m ∧ Message.status m' = Message.status m
     ∧ Message.createdAt m' = Message.createdAt m)
  ∧ messages st' = map (edit_of (Message.id m) now newContent) (messages st)
  ∧ (deletions st' = deletions st ∧ participants st' = participants st
     ∧ conversations st' = conversations st)
  ∧ outcome_of (MessagesQueries.findById (Message.id m)) st' = Returned m'
  ∧ (∀ viewer c limit offset,
       ∃ rows,
         outcome_of (MessagesService.findByConversationIdFiltered c viewer limit offset) st
         = Returned rows
         ∧ outcome_of (MessagesService.findByConversationIdFiltered c viewer limit offset)
             st'
           = Returned (map (edit_of (Message.id m) now newContent) rows))
  ∧ (∀ clock viewer c limit offset,
       participant_row st c viewer →
       ∃ rows,
         outcome_of (MessagesService.findByConversationId clock c viewer limit offset) st
         = Returned rows
         ∧ outcome_of (MessagesService.findByConversationId clock c viewer limit offset) st'
           = Returned (map (edit_of (Message.id m) now newContent) rows)).
Proof.
  intros Hpk Hm Hs Ht Hd call st' m'. subst call st' m'. unfold store_after.
  unfold outcome_of at 1. rewrite (editMessage_run st now m userId newContent Hpk Hm Hs Ht Hd).
  cbn [fst snd].
  set (st' := set_messages (map (edit_of (Message.id m) now newContent) (messages st)) st).
  split_and!; try done.
  - unfold outcome_of, MessagesQueries.findById, bind, message_findOne.
    cbn [messages st' set_messages].
    rewrite (find_after_map st _ m Hpk Hm (edit_of_id _ _ _)).
    unfold edit_of. by rewrite str_eqb_refl.
  - intros viewer c limit offset. eexists. split.
    + unfold outcome_of. rewrite findByConversationIdFiltered_run. reflexivity.
    + unfold outcome_of. rewrite findByConversationIdFiltered_run.
      cbn [fst messages deletions st' set_messages].
      rewrite filter_map_commute.
      * rewrite sort_by_map; [by rewrite page_map|].
        intros a b. unfold createdAt_asc, edit_of.
        by destruct (str_eqb (Message.id a) _), (str_eqb (Message.id b) _).
      * intros x. rewrite edit_of_id. unfold edit_of.
        by destruct (str_eqb (Message.id x) _).
  - intros clock viewer c limit offset Hp. eexists. split.
    + unfold outcome_of.
      rewrite (findByConversationId_run st clock c viewer limit offset Hp). reflexivity.
    + unfold outcome_of.
      rewrite (findByConversationId_run st' clock c viewer limit offset Hp).
      cbn [fst messages st' set_messages].
      rewrite filter_map_commute.
      * rewrite sort_by_map; [by rewrite page_map|].
        intros a b. unfold createdAt_asc, edit_of.
        by destruct (str_eqb (Message.id a) _), (str_eqb (Message.id b) _).
      * intros x. unfold edit_of. by destruct (str_eqb (Message.id x) _).
Qed.

(** "alice" edits her "hi" into "hey". *)
Lemma editMessage_success_witness :
  outcome_of (MessagesQueries.findById "m1")
    (store_after (MessagesService.editMessage 95 "m1" "alice" "hey") example_store)
  = Returned (Message.mk "m1" "c1" "alice" (Some "hey") TEXT None None None None
                         SENT false None None (Some 95%Z) 10).
Proof.
  destruct (editMessage_success example_store 95 example_message_hi "alice" "hey")
    as (_ & _ & _ & _ & H & _); try done.
  - apply example_store_keys.
  - apply list_elem_of_In. cbn. tauto.
Defined.

(** X12.  The rejections of [editMessage], in their order: an id that
    resolves to nothing is NotFound; for an existing message a caller who
    is not the sender gets the authorization error whatever the type of
    the message; the sender gets a validation error for a message that
    is not a text message and, for a text message, for one that is
    globally deleted.  No rejection writes anything. *)
Theorem editMessage_rejections (st : Store) (now : Z) (userId newContent : string) :
  (∀ messageId,
     (¬ ∃ m, m ∈ messages st ∧ Message.id m = messageId) →
     MessagesService.editMessage now messageId userId newContent st
     = (Thrown (NotFoundException "Message not found"), st))
  ∧ (∀ m,
       primary_keys_unique st → m ∈ messages st →
       (Message.senderId m ≠ userId →
        MessagesService.editMessage now (Message.id m) userId newContent st
        = (Thrown (ForbiddenException "Only the sender can edit this message"), st))
       ∧ (Message.senderId m = userId → Message.type m ≠ TEXT →
          MessagesService.editMessage now (Message.id m) userId newContent st
          = (Thrown (BadRequestException "Only text messages can be edited"), st))
       ∧ (Message.senderId m = userId → Message.type m = TEXT →
          Message.isDeleted m = true →
          MessagesService.editMessage now (Message.id m) userId newContent st
          = (Thrown (BadRequestException "Cannot edit a deleted message"), st))).
Proof.
  split.
  - intros messageId Hn. unfold MessagesService.editMessage, bind, message_findOne.
    by rewrite (find_by_id_None st messageId Hn).
  - intros m Hpk Hm. pose proof (find_by_unique_id st m Hpk Hm) as Hf.
    unfold MessagesService.editMessage, bind, message_findOne. rewrite Hf.
    split_and!.
    + intros Hs. by rewrite (sender_mismatch _ _ Hs).
    + intros Hs Ht.
      replace (negb (str_eqb (Message.senderId m) userId)) with false
        by (symmetry; apply negb_false_iff; by apply str_eqb_eq).
      by rewrite bool_decide_eq_false_2.
    + intros Hs Ht Hd.
      replace (negb (str_eqb (Message.senderId m) userId)) with false
        by (symmetry; apply negb_false_iff; by apply str_eqb_eq).
      rewrite bool_decide_eq_true_2 by done. by rewrite Hd.
Qed.

(** "alice" tries to edit her globally deleted message "m4". *)
Lemma editMessage_rejections_witness :
  MessagesService.editMessage 95 "m4" "alice" "again" example_store
  = (Thrown (BadRequestException "Cannot edit a deleted message"), example_store).
Proof.
  destruct (editMessage_rejections example_store 95 "alice" "again") as [_ H].
  destruct (H example_message_gone) as (_ & _ & Hdeleted).
  - apply example_store_keys.
  - apply list_elem_of_In. cbn. tauto.
  - by apply Hdeleted.
Defined.

Section HardDelete.

Import MessagesService.



End HardDelete.



(* --------------------------------------------------------------------- *)
(** ** Forwarded copies and tombstones *)
(* --------------------------------------------------------------------- *)

Section Copies.

Import MessagesService.

Lemma primary_keys_unique_insert st message :
  primary_keys_unique st → Message.id message ∉ map Message.id (messages st) →
  primary_keys_unique (set_messages (messages st ++ [message]) st).
Proof.
  unfold primary_keys_unique. cbn [messages set_messages]. intros Hnd Hnew.
  rewrite map_app. apply NoDup_app. split_and!; [done| |].
  - intros x Hx Hx'. cbn in Hx'. apply list_elem_of_singleton in Hx'. congruence.
  - cbn. apply NoDup_singleton.
Qed.

Lemma find_app_not_first {A} (f : A → bool) (l1 l2 : list A) :
  (∀ x, x ∈ l1 → f x = false) → List.find f (l1 ++ l2) = List.find f l2.
Proof.
  induction l1 as [|x l1 IH]; intros H; [done|]. cbn.
  rewrite (H x) by left. apply IH. intros y Hy. apply H. by right.
Qed.

Lemma tombstone_idempotent m : tombstone (tombstone m) = tombstone m.
Proof. reflexivity. Qed.

Lemma tombstone_of_idempotent mid r :
  tombstone_of mid (tombstone_of mid r) = tombstone_of mid r.
Proof.
  unfold tombstone_of. destruct (str_eqb (Message.id r) mid) eqn:E.
  - cbn [Message.id tombstone Message.set_content Message.set_isDeleted]. by rewrite E.
  - by rewrite E.
Qed.

(** Neither batch operation touches a globally deleted row. *)
Lemma batch_step_keeps_deleted st op i r :
  batch_only op = true → Message.isDeleted r = true →
  messages st !! i = Some r → messages (status_step st op) !! i = Some r.
Proof.
  intros Hop Hd Hr. destruct op as [mid s|c u|u]; [discriminate| |];
    cbn [status_step]; unfold store_after.
  - rewrite markConversationAsRead_run. cbn [snd messages set_messages].
    rewrite list_lookup_fmap, Hr. cbn. unfold unread_for. rewrite Hd.
    rewrite (bool_decide_eq_false_2 (true = false)) by done.
    by rewrite andb_false_r.
  - rewrite markMessagesAsDeliveredForUser_run. cbn [snd messages set_messages].
    rewrite list_lookup_fmap, Hr. cbn. unfold undelivered_for. rewrite Hd.
    rewrite (bool_decide_eq_false_2 (true = false)) by done.
    by rewrite andb_false_r.
Qed.

Lemma batch_run_keeps_deleted ops : ∀ st i r,
  forallb batch_only ops = true → Message.isDeleted r = true →
  messages st !! i = Some r → messages (status_run st ops) !! i = Some r.
Proof.
  induction ops as [|op ops IH]; intros st i r Hops Hd Hr; [done|].
  cbn in Hops. apply andb_true_iff in Hops as [Hop Hops]. cbn.
  apply IH; [done|done|]. by apply batch_step_keeps_deleted.
Qed.

End Copies.

(** X14.  A forwarded copy is independent of its original: after a
    participant of the target conversation forwards message [m] under a
    new id and the sender of [m] then deletes [m] for everyone, the
    message table is the old one with [m] turned into its tombstone,
    followed by the copy, which still carries the content and file
    fields [m] had, is SENT, not deleted, and names [m] in
    [forwardedFromId].  Neither call touches the last-message preview of
    any conversation. *)
Theorem forward_then_delete_independent (st : Store) (m : Message.t)
    (newId : string) (createdAt : Z) (userId targetConversationId : string) :
  primary_keys_unique st → m ∈ messages st →
  newId ∉ map Message.id (messages st) →
  participant_row st targetConversationId userId →
  let copy := forwarded_copy newId createdAt userId targetConversationId m in
  let st1 :=
    store_after (MessagesService.forwardMessage newId createdAt (Message.id m) userId
                   targetConversationId) st in
  let st2 :=
    store_after (MessagesService.deleteMessageForEveryone (Message.id m)
                   (Message.senderId m)) st1 in
  outcome_of (MessagesService.forwardMessage newId createdAt (Message.id m) userId
                targetConversationId) st = Returned copy
  ∧ outcome_of (MessagesService.deleteMessageForEveryone (Message.id m)
                  (Message.senderId m)) st1 = Returned tt
  ∧ messages st2 = (map (tombstone_of (Message.id m)) (messages st) ++ [copy])%list
  ∧ (Message.content copy = Message.content m
     ∧ Message.isDeleted copy = false
     ∧ Message.status copy = SENT
     ∧ Message.forwardedFromId copy = Some (Message.id m))
  ∧ conversations st2 = conversations st
  ∧ outcome_of (MessagesQueries.findById newId) st2 = Returned copy.
Proof.
  intros Hpk Hm Hnew Hp copy st1 st2. subst st1 st2. unfold store_after.
  pose proof (find_by_unique_id st m Hpk Hm) as Hf.
  assert (Hfwd : MessagesService.forwardMessage newId createdAt (Message.id m) userId
                   targetConversationId st
                 = (Returned copy, set_messages (messages st ++ [copy]) st)).
  { rewrite forwardMessage_run, Hf.
    apply participant_row_decide in Hp. by rewrite Hp. }
  unfold outcome_of at 1 2. rewrite Hfwd. cbn [fst snd].
  set (st1 := set_messages (messages st ++ [copy]) st).
  assert (Hpk1 : primary_keys_unique st1) by by apply primary_keys_unique_insert.
  assert (Hm1 : m ∈ messages st1) by (cbn; apply elem_of_app; by left).
  rewrite (deleteMessageForEveryone_run st1 m (Message.senderId m) Hpk1 Hm1 eq_refl).
  cbn [fst snd messages set_messages st1 conversations].
  assert (Hne : str_eqb newId (Message.id m) = false).
  { unfold str_eqb. apply bool_decide_eq_false_2. intros Heq. apply Hnew.
    rewrite Heq. apply list_elem_of_fmap. eauto. }
  assert (Hcopy : tombstone_of (Message.id m) copy = copy).
  { unfold tombstone_of. cbn [Message.id copy forwarded_copy]. by rewrite Hne. }
  split_and!; try done.
  - rewrite map_app. cbn [map]. by rewrite Hcopy.
  - unfold outcome_of, MessagesQueries.findById, bind, message_findOne.
    cbn [messages set_messages].
    rewrite map_app. cbn [map]. rewrite Hcopy.
    rewrite find_app_not_first.
    + cbn. by rewrite str_eqb_refl.
    + intros r Hr. apply list_elem_of_fmap in Hr as (r0 & -> & Hr0).
      rewrite tombstone_of_id. unfold str_eqb. apply bool_decide_eq_false_2.
      intros Heq. apply Hnew. rewrite <- Heq. apply list_elem_of_fmap. eauto.
Qed.

(** "carol" forwards "hi" of "c1" to "c2"; "alice" then deletes "hi" for
    everyone; the copy keeps the text. *)
Lemma forward_then_delete_independent_witness :
  outcome_of (MessagesQueries.findById "m5")
    (store_after (MessagesService.deleteMessageForEveryone "m1" "alice")
       (store_after (MessagesService.forwardMessage "m5" 50 "m1" "carol" "c2")
                    example_store))
  = Returned (Message.mk "m5" "c2" "carol" (Some "hi") TEXT None None None None
                         SENT false None (Some "m1") None 50).
Proof.
  destruct (forward_then_delete_independent example_store example_message_hi
              "m5" 50 "carol" "c2") as (_ & _ & _ & _ & _ & H).
  - apply example_store_keys.
  - apply list_elem_of_In. cbn. tauto.
  - apply (bool_decide_unpack _). vm_compute. exact I.
  - apply participant_row_decide. reflexivity.
  - exact H.
Defined.

(** X15.  A tombstone is final for everything but [updateStatus]: after
    its sender deleted message [m] for everyone, deleting it for everyone
    again returns normally and changes nothing, [editMessage] by the
    sender is rejected with a validation error and changes nothing, and
    along any sequence of the two batch status operations the row stays
    the tombstone it is, with the status it had. *)
Theorem tombstone_is_final (st : Store) (m : Message.t) (userId : string) :
  primary_keys_unique st → m ∈ messages st → Message.senderId m = userId →
  let st' :=
    store_after (MessagesService.deleteMessageForEveryone (Message.id m) userId) st in
  MessagesService.deleteMessageForEveryone (Message.id m) userId st' = (Returned tt, st')
  ∧ (∀ now newContent,
       ∃ message,
         MessagesService.editMessage now (Message.id m) userId newContent st'
         = (Thrown (BadRequestException message), st'))
  ∧ (∀ ops i,
       forallb batch_only ops = true →
       messages st !! i = Some m →
       messages (status_run st' ops) !! i = Some (tombstone m)).
Proof.
  intros Hpk Hm Hs st'. subst st'. unfold store_after.
  rewrite (deleteMessageForEveryone_run st m userId Hpk Hm Hs). cbn [snd].
  set (st' := set_messages (map (tombstone_of (Message.id m)) (messages st)) st).
  assert (Hpk' : primary_keys_unique st').
  { unfold primary_keys_unique. cbn [messages st' set_messages].
    rewrite map_keeps_ids; [done|]. intros r. apply tombstone_of_id. }
  assert (Hm' : tombstone m ∈ messages st').
  { cbn [messages st' set_messages]. apply list_elem_of_fmap. exists m.
    split; [|done]. unfold tombstone_of. by rewrite str_eqb_refl. }
  split_and!.
  - pose proof (deleteMessageForEveryone_run st' (tombstone m) userId Hpk' Hm' Hs) as Hrun.
    cbn [Message.id tombstone Message.set_content Message.set_isDeleted] in Hrun.
    rewrite Hrun. f_equal. cbn [messages st' set_messages].
    rewrite map_map.
    rewrite (map_ext _ (tombstone_of (Message.id m)))
      by (intros r; apply tombstone_of_idempotent).
    reflexivity.
  - intros now newContent.
    pose proof (find_by_unique_id st' (tombstone m) Hpk' Hm') as Hf.
    cbn [Message.id tombstone Message.set_content Message.set_isDeleted] in Hf.
    unfold MessagesService.editMessage, bind, message_findOne. rewrite Hf.
    cbn [Message.senderId Message.type Message.isDeleted tombstone
         Message.set_content Message.set_isDeleted].
    replace (negb (str_eqb (Message.senderId m) userId)) with false
      by (symmetry; apply negb_false_iff; by apply str_eqb_eq).
    destruct (negb (bool_decide (Message.type m = TEXT))); eauto.
  - intros ops i Hops Hi. apply batch_run_keeps_deleted; [done|done|].
    cbn [messages st' set_messages]. rewrite list_lookup_fmap, Hi. cbn.
    unfold tombstone_of. by rewrite str_eqb_refl.
Qed.

(** "alice" deletes "hi" for everyone; "bob" then comes online and reads
    "c1": the tombstone is still SENT. *)
Lemma tombstone_is_final_witness :
  messages (status_run
              (store_after (MessagesService.deleteMessageForEveryone "m1" "alice")
                           example_store)
              [OpMarkMessagesAsDeliveredForUser "bob";
               OpMarkConversationAsRead "c1" "bob"]) !! 0
  = Some (tombstone example_message_hi).
Proof.
  destruct (tombstone_is_final example_store example_message_hi "alice")
    as (_ & _ & H).
  - apply example_store_keys.
  - apply list_elem_of_In. cbn. tauto.
  - reflexivity.
  - apply (H [OpMarkMessagesAsDeliveredForUser "bob";
              OpMarkConversationAsRead "c1" "bob"] 0); reflexivity.
Defined.

Section History.



Lemma StronglySorted_drop {A} (R : A → A → Prop) (n : nat) (l : list A) :
  StronglySorted R l → StronglySorted R (drop n l).
Proof.
  intros H. rewrite <- (take_drop n l) in H.
  by apply StronglySorted_app in H as (_ & _ & H).
Qed.

Lemma StronglySorted_take {A} (R : A → A → Prop) (n : nat) (l : list A) :
  StronglySorted R l → StronglySorted R (take n l).
Proof.
  intros H. rewrite <- (take_drop n l) in H.
  by apply StronglySorted_app in H as (_ & H & _).
Qed.


(** Two consecutive pages make up the page of their joint size. *)
Lemma page_app {A} (limit1 limit2 offset : nat) (l : list A) :
  (page limit1 offset l ++ page limit2 (offset + limit1) l)%list
  = page (limit1 + limit2) offset l.
Proof.
  unfold page. rewrite <- drop_drop.
  generalize (drop offset l). clear l. intros l.
  revert l. induction limit1 as [|n IH]; intros l; [by rewrite drop_0|].
  destruct l as [|x l]; cbn.
  - by rewrite !take_nil.
  - f_equal. apply IH.
Qed.

End History.




Section OnlyDeletions.

Lemma deleteMessageForMe_only_deletions st newId now messageId userId :
  ∃ rows,
    store_after (MessagesService.deleteMessageForMe newId now messageId userId) st
    = set_deletions rows st.
Proof.
  unfold store_after.
  destruct (List.find (fun r => str_eqb (Message.id r) messageId) (messages st))
    as [m|] eqn:Hf.
  - rewrite (deleteMessageForMe_run _ _ _ _ _ m Hf). cbn [snd].
    destruct (List.find _ (deletions st)); [|by eexists].
    exists (deletions st). by destruct st.
  - rewrite deleteMessageForMe_missing by done. exists (deletions st). by destruct st.
Qed.

(** The searches, the plain history fetch and the count do not read the
    [MessageDeletion] table. *)
Lemma reads_ignore_deletions st rows :
  (∀ c u query limit,
     outcome_of (MessagesService.searchMessages c u query limit) (set_deletions rows st)
     = outcome_of (MessagesService.searchMessages c u query limit) st)
  ∧ (∀ u query limit,
       outcome_of (MessagesService.searchMessagesGlobal u query limit)
         (set_deletions rows st)
       = outcome_of (MessagesService.searchMessagesGlobal u query limit) st)
  ∧ (∀ now' c u limit offset,
       outcome_of (MessagesService.findByConversationId now' c u limit offset)
         (set_deletions rows st)
       = outcome_of (MessagesService.findByConversationId now' c u limit offset) st)
  ∧ (∀ c, outcome_of (MessagesQueries.getMessageCount c) (set_deletions rows st)
          = outcome_of (MessagesQueries.getMessageCount c) st).
Proof.
  destruct st as [ms ds ps cs]. split_and!.
  - intros c u query limit. unfold outcome_of. rewrite !searchMessages_run.
    unfold outcome_of, set_deletions, ConversationsService.isParticipant.
    cbn [fst participants messages]. by destruct (existsb _ ps).
  - intros u query limit. unfold outcome_of. rewrite !searchMessagesGlobal_run.
    cbn [fst]. f_equal.
    replace (conversationIds_of (set_deletions rows (mkStore ms ds ps cs)) u)
      with (conversationIds_of (mkStore ms ds ps cs) u); [reflexivity|].
    unfold conversationIds_of, outcome_of, ConversationsService.findByUserId.
    cbn [participants conversations set_deletions].
    by destruct (map ConversationParticipant.conversationId _).
  - intros now' c u limit offset. unfold outcome_of.
    unfold MessagesService.findByConversationId, try_catch, bind.
    cbn. by destruct (existsb _ ps).
  - intros c. unfold outcome_of, MessagesQueries.getMessageCount.
    by destruct (truthy c).
Qed.

End OnlyDeletions.

(** X18.  A per-user deletion is seen by the filtered fetch alone.  After
    viewer [v] deleted an existing message for itself, [searchMessages],
    [searchMessagesGlobal], the plain history fetch [findByConversationId]
    and [getMessageCount] answer every caller, [v] included, exactly as
    they did before the deletion: the message hidden from [v]'s filtered
    fetch still shows up in [v]'s searches and plain history. *)
Theorem delete_for_me_only_filtered (st : Store) (newId : string) (now : Z)
    (messageId v : string) :
  (∃ m, m ∈ messages st ∧ Message.id m = messageId) →
  let st' := store_after (MessagesService.deleteMessageForMe newId now messageId v) st in
  (∀ c limit offset rows,
     outcome_of (MessagesService.findByConversationIdFiltered c v limit offset) st'
     = Returned rows →
     ∀ m, m ∈ rows → Message.id m ≠ messageId)
  ∧ (∀ c u query limit,
       outcome_of (MessagesService.searchMessages c u query limit) st'
       = outcome_of (MessagesService.searchMessages c u query limit) st)
  ∧ (∀ u query limit,
       outcome_of (MessagesService.searchMessagesGlobal u query limit) st'
       = outcome_of (MessagesService.searchMessagesGlobal u query limit) st)
  ∧ (∀ now' c u limit offset,
       outcome_of (MessagesService.findByConversationId now' c u limit offset) st'
       = outcome_of (MessagesService.findByConversationId now' c u limit offset) st)
  ∧ (∀ c, outcome_of (MessagesQueries.getMessageCount c) st'
          = outcome_of (MessagesQueries.getMessageCount c) st).
Proof.
  intros Hex st'.
  destruct (message_exists_found st messageId Hex) as (m0 & Hf & Hid0).
  split.
  - intros c limit offset rows Hrows m Hm.
    unfold outcome_of in Hrows. rewrite findByConversationIdFiltered_run in Hrows.
    cbn [fst] in Hrows. injection Hrows as <-.
    apply page_subseteq, elem_of_sort_by, elem_of_filter_bool in Hm as [Hsel _].
    apply filtered_selection in Hsel as (_ & _ & Hnot).
    intros Heq. apply Hnot. unfold hidden_from.
    pose proof (deleteMessageForMe_recorded st newId now messageId v m0 Hf) as Hrec.
    fold st' in Hrec. apply list_elem_of_fmap in Hrec as (d & Hd & Hin).
    apply elem_of_filter_bool in Hin as [Hu Hin]. apply str_eqb_eq in Hu.
    exists d. split_and!; [done|done|congruence].
  - destruct (deleteMessageForMe_only_deletions st newId now messageId v) as (rows & Hst).
    fold st' in Hst. rewrite Hst. apply reads_ignore_deletions.
Qed.

(** "bob" hides "hi" for himself and still finds it by searching. *)
Lemma delete_for_me_only_filtered_witness :
  outcome_of (MessagesService.searchMessages "c1" "bob" "hi" 5)
    (store_after (MessagesService.deleteMessageForMe "d1" 50 "m1" "bob") example_store)
  = Returned [example_message_yo; example_message_hi].
Proof.
  assert (Hex : ∃ m, m ∈ messages example_store ∧ Message.id m = "m1").
  { exists example_message_hi. split; [|done]. apply list_elem_of_In. cbn. tauto. }
  destruct (delete_for_me_only_filtered example_store "d1" 50 "m1" "bob" Hex)
    as (_ & H & _).
  rewrite (H "c1" "bob" "hi" 5). vm_compute. reflexivity.
Defined.

Section ReactionTable.

Lemma same_pair_spec messageId userId r :
  Reactions.same_pair messageId userId r = true
  ↔ (MessageReaction.messageId r, MessageReaction.userId r) = (messageId, userId).
Proof.
  unfold Reactions.same_pair. rewrite andb_true_iff, !str_eqb_eq.
  split; [by intros [-> ->] | by intros [= -> ->]].
Qed.

Lemma message_exists_find st messageId :
  message_exists st messageId
  ↔ ∃ m, List.find (fun r => str_eqb (Message.id r) messageId) (messages st) = Some m.
Proof.
  split.
  - intros Hex. destruct (message_exists_found st messageId Hex) as (m & Hf & _).
    by exists m.
  - intros (m & Hf). apply find_some in Hf as [Hin Hid].
    exists m. split; [by apply list_elem_of_In | by apply str_eqb_eq].
Qed.

(** A row found by its pair in a table that obeys the constraints sits
    between rows of other pairs and of other ids. *)
Lemma find_pair_split messageId userId rows e :
  reaction_table_ok rows →
  List.find (Reactions.same_pair messageId userId) rows = Some e →
  ∃ l1 l2,
    rows = (l1 ++ e :: l2)%list
    ∧ Reactions.same_pair messageId userId e = true
    ∧ (∀ x, x ∈ (l1 ++ l2)%list →
         Reactions.same_pair messageId userId x = false
         ∧ MessageReaction.id x ≠ MessageReaction.id e).
Proof.
  intros [Hid Hpair] Hf. apply find_some in Hf as [Hin He].
  apply list_elem_of_In, list_elem_of_split in Hin as (l1 & l2 & ->).
  exists l1, l2. split_and!; [done|done|].
  rewrite map_app in Hid, Hpair. cbn [map] in Hid, Hpair.
  apply NoDup_app in Hid as (_ & Hid1 & Hid2). apply NoDup_cons in Hid2 as [Hid2 _].
  apply NoDup_app in Hpair as (_ & Hp1 & Hp2). apply NoDup_cons in Hp2 as [Hp2 _].
  apply same_pair_spec in He.
  intros x Hx. split.
  - apply not_true_iff_false. intros Hs. apply same_pair_spec in Hs.
    apply elem_of_app in Hx as [Hx|Hx].
    + apply (Hp1 (MessageReaction.messageId x, MessageReaction.userId x)).
      * apply list_elem_of_fmap. by exists x.
      * rewrite Hs, <- He. left.
    + apply Hp2. rewrite He, <- Hs. apply list_elem_of_fmap. by exists x.
  - intros Heq. apply elem_of_app in Hx as [Hx|Hx].
    + apply (Hid1 (MessageReaction.id x)).
      * apply list_elem_of_fmap. by exists x.
      * rewrite Heq. left.
    + apply Hid2. rewrite <- Heq. apply list_elem_of_fmap. by exists x.
Qed.

Lemma filter_all_false {A} (f : A → bool) (l : list A) :
  (∀ x, x ∈ l → f x = false) → List.filter (fun x => negb (f x)) l = l.
Proof.
  induction l as [|x l IH]; intros H; [done|]. cbn.
  rewrite (H x) by left. cbn. f_equal. apply IH. intros y Hy. apply H. by right.
Qed.

(** [addReaction] on an existing message whose pair has a row: the row
    is rewritten in place. *)
Lemma addReaction_update st newId now messageId userId reaction rows m l1 e l2 :
  List.find (fun r => str_eqb (Message.id r) messageId) (messages st) = Some m →
  rows = (l1 ++ e :: l2)%list →
  Reactions.same_pair messageId userId e = true →
  (∀ x, x ∈ (l1 ++ l2)%list →
     Reactions.same_pair messageId userId x = false
     ∧ MessageReaction.id x ≠ MessageReaction.id e) →
  Reactions.addReaction st newId now messageId userId reaction rows
  = (Returned (MessageReaction.set_reaction reaction e),
     (l1 ++ MessageReaction.set_reaction reaction e :: l2)%list).
Proof.
  intros Hm -> He Hx. unfold Reactions.addReaction. rewrite Hm.
  rewrite (find_app_not_first _ l1)
    by (intros x Hin; apply Hx, elem_of_app; by left).
  cbn [List.find]. rewrite He. f_equal.
  rewrite map_app. cbn [map MessageReaction.id MessageReaction.set_reaction].
  rewrite str_eqb_refl. f_equal; [|f_equal].
  - rewrite <- (map_id l1) at 2. apply map_ext_in. intros x Hin.
    apply list_elem_of_In in Hin.
    destruct (Hx x) as [_ Hne]; [apply elem_of_app; by left|].
    unfold str_eqb. by rewrite bool_decide_eq_false_2.
  - rewrite <- (map_id l2) at 2. apply map_ext_in. intros x Hin.
    apply list_elem_of_In in Hin.
    destruct (Hx x) as [_ Hne]; [apply elem_of_app; by right|].
    unfold str_eqb. by rewrite bool_decide_eq_false_2.
Qed.

(** [addReaction] on an existing message whose pair has no row: a row is
    appended. *)
Lemma addReaction_insert st newId now messageId userId reaction rows m :
  List.find (fun r => str_eqb (Message.id r) messageId) (messages st) = Some m →
  List.find (Reactions.same_pair messageId userId) rows = None →
  Reactions.addReaction st newId now messageId userId reaction rows
  = (Returned (MessageReaction.mk newId messageId userId reaction now),
     (rows ++ [MessageReaction.mk newId messageId userId reaction now])%list).
Proof. intros Hm Hf. unfold Reactions.addReaction. by rewrite Hm, Hf. Qed.

Lemma find_none_filter {A} (f : A → bool) (l : list A) :
  List.find f l = None ↔ List.filter f l = [].
Proof.
  induction l as [|x l IH]; [done|]. cbn. destruct (f x); [done|]. apply IH.
Qed.

Lemma find_none_all {A} (f : A → bool) (l : list A) :
  List.find f l = None → ∀ x, x ∈ l → f x = false.
Proof. intros H x Hx. apply (find_none f l H). by apply list_elem_of_In. Qed.

(** [addReaction] on an existing message, in full. *)
Lemma addReaction_found st newId now messageId userId reaction rows :
  reaction_table_ok rows →
  newId ∉ map MessageReaction.id rows →
  message_exists st messageId →
  ∃ row rows',
    Reactions.addReaction st newId now messageId userId reaction rows
    = (Returned row, rows')
    ∧ match reactions_of messageId userId rows with
      | existing :: _ =>
          row = MessageReaction.set_reaction reaction existing
          ∧ length rows' = length rows
      | [] =>
          row = MessageReaction.mk newId messageId userId reaction now
          ∧ rows' = (rows ++ [row])%list
      end
    ∧ reactions_of messageId userId rows' = [row]
    ∧ reactions_of_others messageId userId rows'
      = reactions_of_others messageId userId rows
    ∧ reaction_table_ok rows'.
Proof.
  intros Hok Hfresh Hex. apply message_exists_find in Hex as (m & Hm).
  destruct (List.find (Reactions.same_pair messageId userId) rows) as [e|] eqn:Hf.
  + destruct (find_pair_split _ _ _ _ Hok Hf) as (l1 & l2 & Hrows & He & Hx).
    assert (H1 : ∀ x, x ∈ l1 → Reactions.same_pair messageId userId x = false)
      by (intros x Hin; apply Hx, elem_of_app; by left).
    assert (H2 : ∀ x, x ∈ l2 → Reactions.same_pair messageId userId x = false)
      by (intros x Hin; apply Hx, elem_of_app; by right).
    assert (He' : Reactions.same_pair messageId userId
                    (MessageReaction.set_reaction reaction e) = true) by exact He.
    eexists _, _. split; [by eapply addReaction_update|].
    unfold reactions_of, reactions_of_others. subst rows.
    rewrite !List.filter_app. cbn [List.filter]. rewrite He, He'. cbn [negb].
    rewrite !(filter_none_nil _ l1 H1), !(filter_none_nil _ l2 H2).
    cbn [app]. split_and!; [done| |done|done|].
    * rewrite !length_app. reflexivity.
    * destruct Hok as [Hid Hpair]. split.
      -- by rewrite map_app in *.
      -- by rewrite map_app in *.
  + eexists _, _. split; [by eapply addReaction_insert|].
    pose proof (find_none_all _ _ Hf) as Hnone.
    unfold reactions_of, reactions_of_others.
    rewrite !List.filter_app. cbn [List.filter].
    assert (Hnew : Reactions.same_pair messageId userId
                     (MessageReaction.mk newId messageId userId reaction now) = true)
      by (apply same_pair_spec; reflexivity).
    rewrite Hnew. cbn [negb]. rewrite (filter_none_nil _ rows Hnone).
    cbn [app]. rewrite app_nil_r. split_and!; [done|done|done|done|].
    destruct Hok as [Hid Hpair]. split.
    * rewrite map_app. apply NoDup_app. split_and!; [done| |apply NoDup_singleton].
      intros i Hi Hi'. apply list_elem_of_singleton in Hi'. by subst i.
    * rewrite map_app. apply NoDup_app. split_and!; [done| |apply NoDup_singleton].
      intros p Hp Hp'. apply list_elem_of_singleton in Hp'. subst p.
      apply list_elem_of_fmap in Hp as (x & Hxp & Hin).
      cbn in Hxp. symmetry in Hxp. apply same_pair_spec in Hxp.
      by rewrite (Hnone x Hin) in Hxp.
Qed.

End ReactionTable.



(** X20.  Reacting and then removing the reaction is a round trip: after
    [addReaction] on an existing message followed by [removeReaction] of
    the same pair, the pair has no row, the table is what
    [removeReaction] alone would have left, and it is exactly the
    original table when the pair had no reaction before.  The rows of
    every other pair survive both calls. *)
Theorem reaction_add_remove (st : Store) (newId : string) (now : Z)
    (messageId userId reaction : string) (rows : list MessageReaction.t) :
  reaction_table_ok rows →
  newId ∉ map MessageReaction.id rows →
  message_exists st messageId →
  let rows' :=
    snd (Reactions.addReaction st newId now messageId userId reaction rows) in
  let rows'' := Reactions.removeReaction messageId userId rows' in
  reactions_of messageId userId rows'' = []
  ∧ rows'' = Reactions.removeReaction messageId userId rows
  ∧ (reactions_of messageId userId rows = [] → rows'' = rows)
  ∧ (∀ r, r ∈ rows → Reactions.same_pair messageId userId r = false → r ∈ rows'').
Proof.
  intros Hok Hfresh Hex rows' rows''.
  destruct (addReaction_found st newId now messageId userId reaction rows
              Hok Hfresh Hex) as (row & rows1 & Hrun & _ & _ & Hothers & _).
  assert (Hrows'' : rows'' = Reactions.removeReaction messageId userId rows).
  { subst rows'' rows'. rewrite Hrun. exact Hothers. }
  split_and!.
  - rewrite Hrows''. unfold reactions_of, Reactions.removeReaction.
    apply filter_none_nil. intros x Hx.
    apply elem_of_filter_bool in Hx as [Hx _]. by apply negb_true_iff in Hx.
  - done.
  - intros Hnone. rewrite Hrows''. apply filter_all_false.
    apply find_none_all. by apply find_none_filter.
  - intros r Hr Hs. rewrite Hrows''. apply elem_of_filter_bool.
    split; [by rewrite Hs | done].
Qed.

(** "alice" likes "hi" and takes it back: the table is as before. *)
Lemma reaction_add_remove_witness :
  Reactions.removeReaction "m1" "alice"
    (snd (Reactions.addReaction example_store "r4" 50 "m1" "alice" "like"
            example_reactions))
  = example_reactions.
Proof.
  assert (Hok : reaction_table_ok example_reactions).
  { split; apply (bool_decide_unpack _); vm_compute; exact I. }
  assert (Hfresh : "r4" ∉ map MessageReaction.id example_reactions).
  { apply (bool_decide_unpack _). vm_compute. exact I. }
  assert (Hex : message_exists example_store "m1").
  { exists example_message_hi. split; [|done]. apply list_elem_of_In. cbn. tauto. }
  destruct (reaction_add_remove example_store "r4" 50 "m1" "alice" "like"
              example_reactions Hok Hfresh Hex) as (_ & _ & H & _).
  apply H. reflexivity.
Defined.

Section Summary.

Lemma summary_push_keys k u s :
  map fst (Reactions.summary_push k u s)
  = if bool_decide (k ∈ map fst s) then map fst s else (map fst s ++ [k])%list.
Proof.
  induction s as [|[key users] rest IH]; [done|].
  cbn [Reactions.summary_push map fst]. unfold str_eqb.
  destruct (decide (key = k)) as [->|Hne].
  - rewrite bool_decide_eq_true_2 by done.
    rewrite (bool_decide_eq_true_2 (k ∈ _)) by left. reflexivity.
  - rewrite bool_decide_eq_false_2 by done. cbn [map fst]. rewrite IH.
    destruct (decide (k ∈ map fst rest)) as [Hin|Hin].
    + rewrite !bool_decide_eq_true_2; [done| by right | done].
    + rewrite !bool_decide_eq_false_2; [done| |done].
      intros [->|?]%elem_of_cons; [done|done].
Qed.

Lemma summary_push_NoDup k u s :
  NoDup (map fst s) → NoDup (map fst (Reactions.summary_push k u s)).
Proof.
  intros Hnd. rewrite summary_push_keys. case_bool_decide as Hin; [done|].
  apply NoDup_app. split_and!; [done| |apply NoDup_singleton].
  intros x Hx ->%list_elem_of_singleton. done.
Qed.

Lemma elem_of_summary_push k u s k' us' :
  NoDup (map fst s) →
  (k', us') ∈ Reactions.summary_push k u s
  ↔ (k' ≠ k ∧ (k', us') ∈ s)
    ∨ (k' = k ∧ ∃ us, us' = (us ++ [u])%list
                      ∧ ((k, us) ∈ s ∨ (us = [] ∧ k ∉ map fst s))).
Proof.
  induction s as [|[key users] rest IH]; intros Hnd.
  - cbn [Reactions.summary_push]. rewrite list_elem_of_singleton. split.
    + intros [= -> ->]. right. split; [done|]. exists []. split; [done|]. right.
      split; [done|]. cbn. apply not_elem_of_nil.
    + intros [[_ H%elem_of_nil]|[-> (us & -> & [H%elem_of_nil|[-> _]])]]; done.
  - cbn [map fst] in Hnd. apply NoDup_cons in Hnd as [Hkey Hnd].
    assert (Hrest : ∀ us, (key, us) ∉ rest).
    { intros us Hin. apply Hkey. apply list_elem_of_fmap. by exists (key, us). }
    cbn [Reactions.summary_push]. unfold str_eqb.
    destruct (decide (key = k)) as [->|Hne].
    + rewrite bool_decide_eq_true_2 by done. rewrite !elem_of_cons. split.
      * intros [[= -> ->]|Hin].
        -- right. split; [done|]. exists users. split; [done|]. left. by left.
        -- left. split; [|by right]. intros ->. by apply (Hrest us').
      * intros [[Hne [[= ? _]|Hin]]|[-> (us & -> & [Hin|[_ Hin]])]].
        -- done.
        -- by right.
        -- apply elem_of_cons in Hin as [[= ->]|Hin]; [by left|].
           by apply Hrest in Hin.
        -- exfalso. apply Hin. cbn. left.
    + rewrite bool_decide_eq_false_2 by done. rewrite elem_of_cons, (IH Hnd).
      assert (Hk : k ∉ map fst ((key, users) :: rest) ↔ k ∉ map fst rest).
      { cbn [map fst]. rewrite not_elem_of_cons.
        split; [by intros [_ ?] | intros ?; split; [by intros ->|done]]. }
      setoid_rewrite Hk. setoid_rewrite (elem_of_cons rest). split.
      * intros [Heq|[[Hk' Hin]|[-> (us & -> & Hor)]]].
        -- injection Heq as -> ->. left. split; [done|by left].
        -- left. split; [done|by right].
        -- right. split; [done|]. exists us. split; [done|].
           destruct Hor as [Hin|Hemp]; [left; by right | by right].
      * intros [[Hk' [Heq|Hin]]|[-> (us & -> & [[Heq|Hin]|Hemp])]].
        -- by left.
        -- right. left. done.
        -- injection Heq as Heq _. by symmetry in Heq.
        -- right. right. split; [done|]. exists us. split; [done|]. by left.
        -- right. right. split; [done|]. exists us. split; [done|]. by right.
Qed.

Lemma summary_push_sum k u s :
  sum_list (map (fun entry => length (snd entry)) (Reactions.summary_push k u s))
  = S (sum_list (map (fun entry : string * list string => length (snd entry)) s)).
Proof.
  induction s as [|[key users] rest IH]; [done|].
  cbn [Reactions.summary_push]. destruct (str_eqb key k).
  - cbn. rewrite length_app. cbn. lia.
  - cbn [map sum_list snd]. rewrite IH. lia.
Qed.

Lemma summary_push_concat k u s :
  concat (map snd (Reactions.summary_push k u s)) ≡ₚ u :: concat (map snd s).
Proof.
  induction s as [|[key users] rest IH]; [done|].
  cbn [Reactions.summary_push]. destruct (str_eqb key k).
  - cbn [map snd concat]. rewrite <- app_assoc. cbn [app].
    symmetry. apply Permutation_middle.
  - cbn [map snd concat]. rewrite IH. by rewrite <- Permutation_middle.
Qed.

(** The users of the rows with reaction [k], in row order. *)
Lemma users_with_app k (rs : list MessageReaction.t) r :
  map MessageReaction.userId
    (List.filter (fun x => str_eqb (MessageReaction.reaction x) k) (rs ++ [r]))
  = (map MessageReaction.userId
       (List.filter (fun x => str_eqb (MessageReaction.reaction x) k) rs)
     ++ if str_eqb (MessageReaction.reaction r) k then [MessageReaction.userId r] else [])%list.
Proof.
  rewrite List.filter_app, map_app. cbn [List.filter].
  by destruct (str_eqb (MessageReaction.reaction r) k).
Qed.

(** What the [forEach] of [getReactionsSummary] builds: one entry per
    reaction that occurs, holding the users of its rows. *)
Lemma summary_fold_spec (rs : list MessageReaction.t) :
  let s :=
    fold_left
      (fun summary r =>
         Reactions.summary_push (MessageReaction.reaction r) (MessageReaction.userId r)
           summary)
      rs [] in
  NoDup (map fst s)
  ∧ (∀ k us,
       (k, us) ∈ s
       ↔ us = map MessageReaction.userId
                (List.filter (fun x => str_eqb (MessageReaction.reaction x) k) rs)
         ∧ us ≠ [])
  ∧ sum_list (map (fun entry => length (snd entry)) s) = length rs
  ∧ concat (map snd s) ≡ₚ map MessageReaction.userId rs.
Proof.
  induction rs as [|r rs IH] using rev_ind.
  - cbn. split_and!; [constructor| |done|done].
    intros k us. split; [by intros ?%elem_of_nil | by intros [-> ?]].
  - rewrite fold_left_app. cbn [fold_left]. cbn zeta in IH.
    set (s := fold_left _ rs []) in *.
    destruct IH as (Hnd & Hspec & Hsum & Hperm). cbn zeta. split_and!.
    + by apply summary_push_NoDup.
    + intros k us. rewrite (elem_of_summary_push _ _ _ _ _ Hnd), users_with_app.
      destruct (decide (MessageReaction.reaction r = k)) as [Hk|Hk].
      * rewrite (proj2 (str_eqb_eq _ _) Hk). subst k. split.
        -- intros [[Hk _]|[_ (us0 & -> & [Hin|[-> Hin]])]]; [done| |].
           ++ apply Hspec in Hin as [-> _]. split; [done|].
              by intros [? ?]%app_eq_nil.
           ++ destruct (map MessageReaction.userId (List.filter _ rs)) as [|u0 us0] eqn:E; [done|].
              exfalso. apply Hin. apply list_elem_of_fmap.
              exists (MessageReaction.reaction r, u0 :: us0). split; [done|].
              apply Hspec. by rewrite E.
        -- intros [-> _]. right. split; [done|].
           eexists. split; [reflexivity|].
           destruct (map MessageReaction.userId (List.filter _ rs)) as [|u0 us0] eqn:E.
           ++ right. split; [done|]. intros Hin.
              apply list_elem_of_fmap in Hin as ([k0 us1] & Hk0 & Hin).
              cbn in Hk0. subst k0. apply Hspec in Hin as [-> Hne1].
              by rewrite E in Hne1.
           ++ left. apply Hspec. by rewrite E.
      * assert (Hf : str_eqb (MessageReaction.reaction r) k = false)
          by (apply not_true_iff_false; by intros ?%str_eqb_eq).
        rewrite Hf, app_nil_r. split.
        -- intros [[_ Hin]|[-> _]]; [by apply Hspec|done].
        -- intros H. left. split; [by intros ->|by apply Hspec].
    + rewrite summary_push_sum, Hsum, length_app. cbn. lia.
    + rewrite summary_push_concat, Hperm, map_app. cbn.
      by rewrite <- Permutation_cons_append.
Qed.

Lemma filter_filter_and {A} (f g : A → bool) (l : list A) :
  List.filter g (List.filter f l) = List.filter (fun x => f x && g x) l.
Proof.
  induction l as [|x l IH]; [done|]. cbn.
  destruct (f x); cbn; [destruct (g x)|]; by rewrite IH.
Qed.

(** In a table that obeys the pair constraint no user has two rows for
    one message. *)
Lemma getReactions_users_NoDup messageId rows :
  reaction_table_ok rows →
  NoDup (map MessageReaction.userId (Reactions.getReactions messageId rows)).
Proof.
  intros [_ Hpair]. unfold Reactions.getReactions.
  induction rows as [|x rows IH]; [constructor|].
  cbn [map] in Hpair. apply NoDup_cons in Hpair as [Hx Hpair].
  cbn [List.filter].
  destruct (str_eqb (MessageReaction.messageId x) messageId) eqn:E; [|by apply IH].
  apply str_eqb_eq in E. cbn [map]. apply NoDup_cons. split; [|by apply IH].
  intros Hin. apply list_elem_of_fmap in Hin as (y & Hu & Hy).
  apply elem_of_filter_bool in Hy as [Hm Hy]. apply str_eqb_eq in Hm.
  apply Hx. apply list_elem_of_fmap. exists y. split; [|done]. congruence.
Qed.

End Summary.

(** X21.  [getReactionsSummary] groups the reactions of a message: the
    entries carry pairwise distinct reactions; an entry is in the summary
    exactly when its users are the (at least one) users who put that
    reaction on the message, in row order, and its count is their
    number; the counts add up to the number of reaction rows of the
    message; and in a table that obeys the one-reaction-per-user
    constraint no user is listed twice. *)
Theorem reactions_summary_groups (messageId : string) (rows : list MessageReaction.t) :
  let summary := Reactions.getReactionsSummary messageId rows in
  NoDup (map Reactions.entry_reaction summary)
  ∧ (∀ e, e ∈ summary
          ↔ Reactions.entry_users e
            = users_reacting messageId (Reactions.entry_reaction e) rows
            ∧ Reactions.entry_users e ≠ []
            ∧ Reactions.entry_count e = length (Reactions.entry_users e))
  ∧ sum_list (map Reactions.entry_count summary)
    = length (Reactions.getReactions messageId rows)
  ∧ (reaction_table_ok rows → NoDup (concat (map Reactions.entry_users summary))).
Proof.
  intros summary. subst summary. unfold Reactions.getReactionsSummary. cbn zeta.
  destruct (summary_fold_spec (Reactions.getReactions messageId rows))
    as (Hnd & Hspec & Hsum & Hperm). cbn zeta in *.
  set (s := fold_left _ (Reactions.getReactions messageId rows) []) in *.
  assert (Husers : ∀ k,
            map MessageReaction.userId
              (List.filter (fun x => str_eqb (MessageReaction.reaction x) k)
                           (Reactions.getReactions messageId rows))
            = users_reacting messageId k rows).
  { intros k. unfold users_reacting, Reactions.getReactions.
    by rewrite filter_filter_and. }
  split_and!.
  - by rewrite map_map.
  - intros [k n us]. cbn [Reactions.entry_users Reactions.entry_reaction
                          Reactions.entry_count].
    rewrite <- Husers. split.
    + intros Hin. apply list_elem_of_fmap in Hin as ([k0 us0] & [= -> -> ->] & Hin).
      apply Hspec in Hin as [-> Hne]. done.
    + intros (-> & Hne & ->). apply list_elem_of_fmap.
      eexists (k, _). split; [reflexivity|]. by apply Hspec.
  - by rewrite map_map.
  - intros Hok. rewrite map_map. cbn [Reactions.entry_users].
    change (map (fun x : string * list string => snd x) s) with (map snd s).
    rewrite Hperm. by apply getReactions_users_NoDup.
Qed.

Section Paging.

Lemma ceil_div_bounds total limit :
  0 < limit →
  total ≤ ceil_div total limit * limit ∧ ceil_div total limit * limit < total + limit.
Proof.
  intros Hl. unfold ceil_div.
  pose proof (Nat.div_mod_eq total limit) as Hdm.
  pose proof (Nat.mod_upper_bound total limit ltac:(lia)) as Hub.
  destruct (total mod limit =? 0) eqn:E.
  - apply Nat.eqb_eq in E. nia.
  - apply Nat.eqb_neq in E. nia.
Qed.

(** The first [n] pages of size [limit], joined. *)
Lemma pages_joined {A} (limit n : nat) (l : list A) :
  flat_map (fun p => page limit ((p - 1) * limit) l) (seq 1 n) = take (n * limit) l.
Proof.
  induction n as [|n IH]; [done|].
  rewrite seq_S, flat_map_app, IH. cbn [flat_map]. rewrite app_nil_r.
  replace (1 + n - 1) with n by lia.
  pose proof (page_app (n * limit) limit 0 l) as H. unfold page in H at 1 3.
  rewrite !drop_0 in H. cbn [Nat.add] in H. rewrite H. f_equal. lia.
Qed.

Lemma filter_bool_prop {A} (sel : A → bool) (P : A → Prop) `{∀ x, Decision (P x)}
    (l : list A) :
  (∀ x, sel x = true ↔ P x) → List.filter sel l = filter P l.
Proof.
  intros Hsel. induction l as [|x l IH]; [done|]. cbn [List.filter].
  destruct (decide (P x)) as [HP|HP].
  - rewrite filter_cons_True by done. rewrite (proj2 (Hsel x) HP). by f_equal.
  - rewrite filter_cons_False by done.
    destruct (sel x) eqn:E; [by apply Hsel in E|done].
Qed.

Lemma gallery_selection kind conversationId st pageNumber limit :
  ∃ sel,
    gallery_query kind conversationId pageNumber limit st
    = Gallery.findAndCount sel pageNumber limit st
    ∧ (∀ p, outcome_of (gallery_query kind conversationId p limit) st
            = outcome_of (Gallery.findAndCount sel p limit) st)
    ∧ ∀ m, sel m = true ↔ in_gallery kind conversationId m.
Proof.
  assert (Hof : ∀ T m, Gallery.of_type conversationId T m = true
                       ↔ Message.conversationId m = conversationId
                         ∧ Message.isDeleted m = false ∧ Message.type m = T).
  { intros T m. unfold Gallery.of_type.
    rewrite !andb_true_iff, str_eqb_eq, !bool_decide_eq_true. tauto. }
  destruct kind.
  - exists (Gallery.of_type conversationId IMAGE). split_and!; [done|done|apply Hof].
  - exists (Gallery.of_type conversationId VIDEO). split_and!; [done|done|apply Hof].
  - exists (Gallery.of_type conversationId FILE). split_and!; [done|done|apply Hof].
  - exists (fun m => Gallery.of_type conversationId IMAGE m
                     || Gallery.of_type conversationId VIDEO m).
    split_and!; [done|done|]. intros m. rewrite orb_true_iff, !Hof.
    unfold in_gallery. tauto.
Qed.

End Paging.

(** X22.  The paged galleries (images, videos, files, media) for a
    positive page size and a page number from 1.  A call never writes;
    its items are rows of the store that belong in the gallery (right
    conversation and type, not globally deleted), newest first, at most
    [limit] of them; [total] is the number of all such rows, and
    [totalPages] is the least number of pages that holds them.  A page
    after the last one is empty, and walking the pages 1 to [totalPages]
    shows every such row exactly once, newest first. *)
Theorem gallery_pages (st : Store) (kind : GalleryKind) (conversationId : string)
    (pageNumber limit : nat) :
  0 < limit → 1 ≤ pageNumber →
  ∃ result,
    gallery_query kind conversationId pageNumber limit st = (Returned result, st)
    ∧ (∀ m, m ∈ PagedResult.items result →
            m ∈ messages st ∧ in_gallery kind conversationId m)
    ∧ StronglySorted not_older (PagedResult.items result)
    ∧ length (PagedResult.items result) ≤ limit
    ∧ PagedResult.page result = pageNumber
    ∧ PagedResult.total result
      = length (filter (in_gallery kind conversationId) (messages st))
    ∧ PagedResult.total result ≤ PagedResult.totalPages result * limit
    ∧ PagedResult.totalPages result * limit < PagedResult.total result + limit
    ∧ (PagedResult.totalPages result < pageNumber → PagedResult.items result = [])
    ∧ gallery_walk kind conversationId limit (PagedResult.totalPages result) st
      ≡ₚ filter (in_gallery kind conversationId) (messages st)
    ∧ StronglySorted not_older
        (gallery_walk kind conversationId limit (PagedResult.totalPages result) st).
Proof.
  intros Hl Hp.
  destruct (gallery_selection kind conversationId st pageNumber limit)
    as (sel & -> & Hall & Hsel).
  unfold Gallery.findAndCount. eexists. split; [reflexivity|].
  cbn [PagedResult.items PagedResult.total PagedResult.page PagedResult.totalPages].
  unfold gallery_walk.
  rewrite (flat_map_ext _
             (fun p => page limit ((p - 1) * limit)
                         (sort_by createdAt_desc (List.filter sel (messages st)))))
    by (intros p; by rewrite Hall).
  set (matching := sort_by createdAt_desc (List.filter sel (messages st))).
  assert (Hsorted : StronglySorted not_older matching) by apply sort_by_desc_sorted.
  assert (Hperm : matching ≡ₚ filter (in_gallery kind conversationId) (messages st)).
  { unfold matching. rewrite sort_by_Permutation.
    by rewrite (filter_bool_prop sel (in_gallery kind conversationId)). }
  destruct (ceil_div_bounds (length matching) limit Hl) as [Hlo Hhi].
  assert (Hwalk : take (ceil_div (length matching) limit * limit) matching = matching)
    by (apply take_ge; lia).
  rewrite pages_joined, Hwalk.
  split_and!.
  - intros m Hm. apply page_subseteq in Hm. rewrite Hperm in Hm.
    apply list_elem_of_filter in Hm. tauto.
  - unfold page. by apply StronglySorted_take, StronglySorted_drop.
  - unfold page. rewrite length_take. lia.
  - done.
  - by rewrite Hperm.
  - done.
  - done.
  - intros Hlast. unfold page. rewrite drop_ge; [by rewrite take_nil|]. nia.
  - done.
  - done.
Qed.

(** The album has three photos that are not deleted: with two per page
    there are two pages, the second one holding the oldest photo. *)
Lemma gallery_pages_witness :
  ∃ result,
    Gallery.getConversationImages "c1" 2 2 example_album = (Returned result, example_album)
    ∧ map Message.id (PagedResult.items result) = ["p1"]
    ∧ PagedResult.total result = 3
    ∧ PagedResult.totalPages result = 2
    ∧ StronglySorted not_older (gallery_walk Images "c1" 2 2 example_album).
Proof.
  destruct (gallery_pages example_album Images "c1" 2 2)
    as (result & Hrun & _ & _ & _ & _ & _ & _ & _ & _ & _ & Hwalk); [lia|lia|].
  exists result. cbn [gallery_query] in Hrun. split; [exact Hrun|].
  assert (Hres : Returned result
                 = outcome_of (Gallery.getConversationImages "c1" 2 2) example_album)
    by (unfold outcome_of; by rewrite Hrun).
  vm_compute in Hres. injection Hres as ->.
  split_and!; [reflexivity|reflexivity|reflexivity|exact Hwalk].
Defined.

Section Announcing.

Lemma find_conversation_after_map (f : Conversation.t → Conversation.t)
    (l : list Conversation.t) id :
  (∀ c, Conversation.id (f c) = Conversation.id c) →
  List.find (fun c => str_eqb (Conversation.id c) id) (map f l)
  = option_map f (List.find (fun c => str_eqb (Conversation.id c) id) l).
Proof.
  intros Hid. induction l as [|c l IH]; [done|]. cbn. rewrite Hid.
  by destruct (str_eqb (Conversation.id c) id).
Qed.

Lemma previewing_id now updatedAt message c :
  Conversation.id (previewing now updatedAt message c) = Conversation.id c.
Proof. unfold previewing. by destruct (str_eqb _ _). Qed.

Lemma conversation_exists_find st conversationId :
  conversation_exists st conversationId →
  ∃ c, List.find (fun c => str_eqb (Conversation.id c) conversationId) (conversations st)
       = Some c.
Proof.
  intros (c & Hin & Hid).
  destruct (List.find _ (conversations st)) as [c0|] eqn:Hf; [by exists c0|].
  apply list_elem_of_In in Hin. pose proof (find_none _ _ Hf c Hin) as Hn.
  cbn in Hn. by rewrite (proj2 (str_eqb_eq _ _) Hid) in Hn.
Qed.

(** The users of the participant rows of a conversation. *)
Lemma elem_of_participant_ids st conversationId p :
  p ∈ map ConversationParticipant.userId
        (List.filter
           (fun r => str_eqb (ConversationParticipant.conversationId r) conversationId)
           (participants st))
  ↔ participant_row st conversationId p.
Proof.
  unfold participant_row. rewrite list_elem_of_fmap. split.
  - intros (r & -> & Hr). apply elem_of_filter_bool in Hr as [Hc Hr].
    apply str_eqb_eq in Hc. by exists r.
  - intros (r & Hr & Hc & Hu). exists r. split; [done|].
    apply elem_of_filter_bool. split; [by apply str_eqb_eq | done].
Qed.

Lemma participant_ids_NoDup st conversationId :
  participant_table_ok st →
  NoDup (map ConversationParticipant.userId
           (List.filter
              (fun r => str_eqb (ConversationParticipant.conversationId r) conversationId)
              (participants st))).
Proof.
  unfold participant_table_ok. induction (participants st) as [|x rows IH];
    intros Hpair; [constructor|].
  cbn [map] in Hpair. apply NoDup_cons in Hpair as [Hx Hpair]. cbn [List.filter].
  destruct (str_eqb (ConversationParticipant.conversationId x) conversationId) eqn:E;
    [|by apply IH].
  apply str_eqb_eq in E. cbn [map]. apply NoDup_cons. split; [|by apply IH].
  intros Hin. apply list_elem_of_fmap in Hin as (y & Hu & Hy).
  apply elem_of_filter_bool in Hy as [Hc Hy]. apply str_eqb_eq in Hc.
  apply Hx. apply list_elem_of_fmap. exists y. split; [|done]. congruence.
Qed.

(** The fan-out of [broadcastToConversation] over the participant rows
    of a conversation. *)
Lemma broadcast_to_participants g st now conversationId response :
  sockets_disjoint g →
  participant_table_ok st →
  let effects :=
    ChatGateway.broadcastToConversation g now conversationId response
      (Some (map ConversationParticipant.userId
               (List.filter
                  (fun r => str_eqb (ConversationParticipant.conversationId r)
                                    conversationId)
                  (participants st)))) in
  room_events conversationId effects = 1
  ∧ (∀ p, participant_row st conversationId p →
          p ≠ MessageResponseDto.senderId response →
          notifications_received g p effects = size (ChatGateway.connectionsOf g p))
  ∧ notifications_received g (MessageResponseDto.senderId response) effects = 0
  ∧ (∀ p, ¬ participant_row st conversationId p →
          notifications_received g p effects = 0).
Proof.
  intros Hdis Hok effects. subst effects.
  set (ids := map ConversationParticipant.userId _).
  rewrite broadcast_unfold.
  assert (Hnd : NoDup ids) by by apply participant_ids_NoDup.
  split_and!.
  - unfold room_events. cbn [List.filter is_to_emit].
    unfold str_eqb. rewrite !bool_decide_eq_true_2 by done. cbn [andb length].
    f_equal. apply dispatch_all_no_room_event.
  - intros p Hrow Hne. unfold notifications_received. cbn [List.filter notifies].
    replace (str_eqb "newMessage" "conversationUpdated") with false by done.
    cbn [andb]. apply dispatch_all_present; [done|done| |done].
    by apply elem_of_participant_ids.
  - unfold notifications_received. cbn [List.filter notifies].
    replace (str_eqb "newMessage" "conversationUpdated") with false by done.
    cbn [andb]. by apply dispatch_all_sender.
  - intros p Hrow. unfold notifications_received. cbn [List.filter notifies].
    replace (str_eqb "newMessage" "conversationUpdated") with false by done.
    cbn [andb]. apply dispatch_all_absent; [done|].
    intros Hin. by apply Hrow, elem_of_participant_ids.
Qed.

End Announcing.

(** X23.  The endpoint [sendTextMessage] of the controller, for a visible
    text sent by a participant of an existing conversation.  The store
    it leaves is the one [saveMessage] leaves (row appended, preview
    updated), so the announcement comes after both writes.  The response
    is the new row as a SENT text message.  The gateway emits one
    [newMessage] event to the room of the conversation and one
    [conversationUpdated] event to every live connection of every other
    participant; the sender and the users without a participant row get
    none.  When the sender has no participant row the call throws the
    authorization error, writes nothing and announces nothing. *)
Theorem send_text_announces (g : ChatGateway.t) (st : Store) (newId : string)
    (createdAt now updatedAt announcedAt : Z) (conversationId : string)
    (content : option string) (senderId : string) :
  sockets_disjoint g →
  participant_table_ok st →
  conversation_exists st conversationId →
  visible_text content →
  let call :=
    MessagesController.sendTextMessage g newId createdAt now updatedAt announcedAt
      conversationId content senderId in
  (participant_row st conversationId senderId →
   ∃ effects,
     call st
     = (Returned
          (MessageResponseDto.mk newId conversationId senderId content TEXT
             None None None None SENT None None None createdAt,
           effects),
        store_after (MessagesService.saveMessage newId createdAt now updatedAt
                       (text_dto conversationId senderId content)) st)
     ∧ room_events conversationId effects = 1
     ∧ (∀ p, participant_row st conversationId p → p ≠ senderId →
             notifications_received g p effects
             = size (ChatGateway.connectionsOf g p))
     ∧ notifications_received g senderId effects = 0
     ∧ (∀ p, ¬ participant_row st conversationId p →
             notifications_received g p effects = 0))
  ∧ (¬ participant_row st conversationId senderId →
     call st
     = (Thrown (ForbiddenException "User is not a participant of this conversation"),
        st)).
Proof.
  intros Hdis Hok Hconv Hvis call. subst call.
  assert (Hvalid : payload_valid (text_dto conversationId senderId content)).
  { apply payload_valid_visible. split; [done|]. by intros [|]. }
  split.
  - intros Hp.
    pose proof (saveMessage_run st newId createdAt now updatedAt
                  (text_dto conversationId senderId content) Hp Hvalid) as Hsave.
    unfold MessagesController.sendTextMessage, store_after. fold (text_dto conversationId senderId content).
    unfold bind at 1. rewrite Hsave. cbn [snd].
    set (message := message_of_dto newId createdAt
                      (text_dto conversationId senderId content)) in *.
    destruct (conversation_exists_find st conversationId Hconv) as (c0 & Hf).
    unfold bind at 1, MessagesQueries.conversation_findById.
    cbn [conversations participants set_conversations set_messages].
    rewrite (find_conversation_after_map _ _ _ (previewing_id now updatedAt message)), Hf.
    cbn [option_map snd]. unfold ret.
    eexists. split; [reflexivity|].
    apply (broadcast_to_participants g st announcedAt conversationId
             (MessageResponseDto.mk newId conversationId senderId content TEXT
                None None None None SENT None None None createdAt) Hdis Hok).
  - intros Hn. unfold MessagesController.sendTextMessage.
    fold (text_dto conversationId senderId content). unfold bind at 1.
    destruct (saveMessage_non_participant st newId createdAt now updatedAt
                (text_dto conversationId senderId content) Hn) as (Hst & Hthrown & _).
    specialize (Hthrown Hvalid). unfold store_after in Hst. unfold outcome_of in Hthrown.
    destruct (MessagesService.saveMessage _ _ _ _ _ st) as [o s]. cbn in Hst, Hthrown.
    by subst.
Qed.

(** "alice" sends "hello" to "c1": both devices of "bob" are notified,
    "carol", who is not in "c1", is not. *)
Lemma send_text_announces_witness :
  ∃ effects,
    outcome_of (MessagesController.sendTextMessage example_gateway "m5" 50 51 52 53
                  "c1" (Some "hello") "alice") example_store
    = Returned (MessageResponseDto.mk "m5" "c1" "alice" (Some "hello") TEXT
                  None None None None SENT None None None 50,
                effects)
    ∧ notifications_received example_gateway "bob" effects = 2
    ∧ notifications_received example_gateway "carol" effects = 0.
Proof.
  assert (Hok : participant_table_ok example_store).
  { apply (bool_decide_unpack _). vm_compute. exact I. }
  assert (Hconv : conversation_exists example_store "c1").
  { eexists. split; [apply list_elem_of_In; cbn; left; reflexivity | reflexivity]. }
  assert (Hvis : visible_text (Some "hello")).
  { exists "hello". split; reflexivity. }
  assert (Hbob : participant_row example_store "c1" "bob")
    by (apply participant_row_decide; reflexivity).
  assert (Halice : participant_row example_store "c1" "alice")
    by (apply participant_row_decide; reflexivity).
  assert (Hcarol : ¬ participant_row example_store "c1" "carol").
  { intros H. apply participant_row_decide in H. discriminate H. }
  destruct (send_text_announces example_gateway example_store "m5" 50 51 52 53 "c1"
              (Some "hello") "alice" example_gateway_disjoint Hok Hconv Hvis)
    as [H _].
  destruct (H Halice) as (effects & Hrun & _ & Hothers & _ & Hout).
  exists effects. unfold outcome_of. rewrite Hrun. split_and!.
  - reflexivity.
  - rewrite (Hothers "bob" Hbob) by discriminate. vm_compute. reflexivity.
  - by apply Hout.
Defined.

Section ForwardAnnounced.

Lemma sendToUser_reaches g p event data s :
  s ∈ ChatGateway.connectionsOf g p →
  ToEmit s event data ∈ ChatGateway.sendToUser g p event data.
Proof.
  unfold ChatGateway.connectionsOf, ChatGateway.sendToUser.
  destruct (ChatGateway.userSockets g !! p) as [S|]; cbn.
  - intros Hs. apply list_elem_of_fmap. exists s. split; [done|].
    by apply elem_of_elements.
  - by intros ?%elem_of_empty.
Qed.

Lemma dispatch_all_reaches g sender data ids p s :
  p ∈ ids → p ≠ sender → s ∈ ChatGateway.connectionsOf g p →
  ToEmit s "conversationUpdated" data ∈ dispatch_all g sender data ids.
Proof.
  intros Hp Hne Hs. unfold dispatch_all. apply list_elem_of_In, in_flat_map.
  exists p. split; [by apply list_elem_of_In|].
  rewrite bool_decide_eq_true_2 by done.
  by apply list_elem_of_In, sendToUser_reaches.
Qed.

End ForwardAnnounced.

(** X24.  The endpoint [forwardMessage] of the controller, for an
    existing message and a forwarder with a participant row in an
    existing target conversation.  The copy is appended to the message
    table and nothing else is written: unlike [sendTextMessage], the
    last-message preview of the target conversation stays what it was, so
    the conversation lists are unchanged.  The gateway nevertheless emits
    one [newMessage] event to the room of the target and sends every
    live connection of every other participant a [conversationUpdated]
    event that names the copy as last message; the forwarder gets
    none. *)
Theorem forward_announces_without_preview (g : ChatGateway.t) (st : Store)
    (newId : string) (createdAt announcedAt : Z) (m : Message.t)
    (userId targetConversationId : string) :
  sockets_disjoint g →
  participant_table_ok st →
  primary_keys_unique st → m ∈ messages st →
  conversation_exists st targetConversationId →
  participant_row st targetConversationId userId →
  let copy := forwarded_copy newId createdAt userId targetConversationId m in
  let call :=
    MessagesController.forwardMessage g newId createdAt announcedAt (Message.id m)
      userId targetConversationId in
  ∃ effects,
    call st
    = (Returned (MessagesController.toMessageResponse copy, effects),
       set_messages (messages st ++ [copy]) st)
    ∧ conversations (store_after call st) = conversations st
    ∧ (∀ u, outcome_of (ConversationsService.findByUserId u) (store_after call st)
            = outcome_of (ConversationsService.findByUserId u) st)
    ∧ room_events targetConversationId effects = 1
    ∧ (∀ p, participant_row st targetConversationId p → p ≠ userId →
            notifications_received g p effects = size (ChatGateway.connectionsOf g p)
            ∧ ∀ s, s ∈ ChatGateway.connectionsOf g p →
                ToEmit s "conversationUpdated"
                  (ConversationUpdatedData targetConversationId newId
                     (Message.content m) (Message.type m) userId createdAt announcedAt)
                ∈ effects)
    ∧ notifications_received g userId effects = 0.
Proof.
  intros Hdis Hok Hpk Hm Hconv Hp copy call.
  assert (Hrun : call st
                 = (Returned
                      (MessagesController.toMessageResponse copy,
                       ChatGateway.broadcastToConversation g announcedAt
                         targetConversationId
                         (MessagesController.toMessageResponse copy)
                         (Some (map ConversationParticipant.userId
                                  (List.filter
                                     (fun r => str_eqb
                                                 (ConversationParticipant.conversationId r)
                                                 targetConversationId)
                                     (participants st))))),
                    set_messages (messages st ++ [copy]) st)).
  { subst call. unfold MessagesController.forwardMessage. unfold bind at 1.
    rewrite forwardMessage_run, (find_by_unique_id st m Hpk Hm).
    rewrite (proj1 (participant_row_decide st targetConversationId userId) Hp).
    cbn zeta. fold (forwarded_copy newId createdAt userId targetConversationId m).
    fold copy.
    destruct (conversation_exists_find st targetConversationId Hconv) as (c0 & Hf).
    unfold bind at 1, MessagesQueries.conversation_findById.
    cbn [conversations participants set_messages]. rewrite Hf. reflexivity. }
  eexists. split; [exact Hrun|]. unfold store_after. rewrite Hrun.
  cbn [snd conversations set_messages].
  destruct (broadcast_to_participants g st announcedAt targetConversationId
              (MessagesController.toMessageResponse copy) Hdis Hok)
    as (Hroom & Hothers & Hsender & _).
  split_and!; [done| |done| |done].
  - intros u. unfold outcome_of, ConversationsService.findByUserId.
    cbn [participants conversations set_messages].
    by destruct (map ConversationParticipant.conversationId _).
  - intros p Hrow Hne. split; [by apply Hothers|].
    intros s Hs. rewrite broadcast_unfold. right.
    apply (dispatch_all_reaches g userId _ _ p s); [|done|done].
    by apply elem_of_participant_ids.
Qed.

(** "carol" forwards "hi" of "c1" to "c2": the preview of "c2" is not
    touched. *)
Lemma forward_announces_without_preview_witness :
  conversations
    (store_after (MessagesController.forwardMessage example_gateway "m5" 50 51
                    "m1" "carol" "c2") example_store)
  = conversations example_store.
Proof.
  assert (Hok : participant_table_ok example_store).
  { apply (bool_decide_unpack _). vm_compute. exact I. }
  assert (Hconv : conversation_exists example_store "c2").
  { eexists. split; [apply list_elem_of_In; cbn; right; left; reflexivity
                    | reflexivity]. }
  assert (Hm : example_message_hi ∈ messages example_store).
  { apply list_elem_of_In. cbn. tauto. }
  assert (Hcarol : participant_row example_store "c2" "carol")
    by (apply participant_row_decide; reflexivity).
  destruct (forward_announces_without_preview example_gateway example_store "m5" 50 51
              example_message_hi "carol" "c2" example_gateway_disjoint Hok
              example_store_keys Hm Hconv Hcarol) as (effects & _ & H & _).
  exact H.
Defined.

Section Counting.

Lemma sort_by_length {A} (le : A → A → bool) (l : list A) :
  length (sort_by le l) = length l.
Proof. apply Permutation_length, sort_by_Permutation. Qed.

Lemma filter_or_length {A} (f g : A → bool) (l : list A) :
  (∀ x, f x = true → g x = false) →
  length (List.filter (fun x => f x || g x) l)
  = length (List.filter f l) + length (List.filter g l).
Proof.
  intros Hex. induction l as [|x l IH]; [done|]. cbn [List.filter].
  destruct (f x) eqn:Ef; cbn [orb].
  - rewrite (Hex x Ef). cbn [length]. by rewrite IH.
  - destruct (g x); cbn [length]; rewrite IH; lia.
Qed.

Lemma filter_length_le {A} (f : A → bool) (l : list A) :
  length (List.filter f l) ≤ length l.
Proof.
  induction l as [|x l IH]; [done|]. cbn [List.filter].
  destruct (f x); cbn [length]; lia.
Qed.

Lemma filter_length_mono {A} (f g : A → bool) (l : list A) :
  (∀ x, f x = true → g x = true) →
  length (List.filter f l) ≤ length (List.filter g l).
Proof.
  intros Himp. induction l as [|x l IH]; [done|]. cbn [List.filter].
  destruct (f x) eqn:Ef.
  - rewrite (Himp x Ef). cbn [length]. lia.
  - destruct (g x); cbn [length]; lia.
Qed.

Lemma of_type_exclusive c T1 T2 m :
  T1 ≠ T2 → Gallery.of_type c T1 m = true → Gallery.of_type c T2 m = false.
Proof.
  intros Hne. unfold Gallery.of_type. rewrite !andb_true_iff, !bool_decide_eq_true.
  intros [[_ HT] _]. rewrite (bool_decide_eq_false_2 (Message.type m = T2)) by congruence.
  by rewrite andb_false_r.
Qed.

End Counting.

(** X25.  The totals of the galleries agree with each other and with
    the message count, whatever page and page size each query is asked
    for: the total of the media gallery is the total of the image gallery
    plus the total of the video gallery, and images, videos and files
    together never exceed what [getMessageCount] reports for the
    conversation. *)
Theorem gallery_totals_add_up (st : Store) (conversationId : string)
    (p1 l1 p2 l2 p3 l3 p4 l4 : nat) :
  conversationId ≠ "" →
  ∃ images videos files media count,
    Gallery.getConversationImages conversationId p1 l1 st = (Returned images, st)
    ∧ Gallery.getConversationVideos conversationId p2 l2 st = (Returned videos, st)
    ∧ Gallery.getConversationFiles conversationId p3 l3 st = (Returned files, st)
    ∧ Gallery.getConversationMedia conversationId p4 l4 st = (Returned media, st)
    ∧ MessagesQueries.getMessageCount (Some conversationId) st = (Returned count, st)
    ∧ PagedResult.total media = PagedResult.total images + PagedResult.total videos
    ∧ PagedResult.total images + PagedResult.total videos + PagedResult.total files
      ≤ count.
Proof.
  intros Hne. eexists _, _, _, _, _.
  split_and!; [reflexivity|reflexivity|reflexivity|reflexivity| | |].
  - unfold MessagesQueries.getMessageCount.
    assert (truthy (Some conversationId) = Some conversationId) as ->
      by by apply truthy_Some_iff.
    reflexivity.
  - cbn [PagedResult.total]. rewrite !sort_by_length.
    apply filter_or_length. intros m. by apply of_type_exclusive.
  - cbn [PagedResult.total]. rewrite !sort_by_length.
    rewrite <- (filter_or_length (Gallery.of_type conversationId IMAGE)
                  (Gallery.of_type conversationId VIDEO))
      by (intros m; by apply of_type_exclusive).
    rewrite <- (filter_or_length
                  (fun m => Gallery.of_type conversationId IMAGE m
                            || Gallery.of_type conversationId VIDEO m)
                  (Gallery.of_type conversationId FILE)).
    + apply filter_length_mono. intros m.
      unfold Gallery.of_type. rewrite !orb_true_iff, !andb_true_iff. tauto.
    + intros m [H|H]%orb_true_iff.
      * by apply (of_type_exclusive _ IMAGE).
      * by apply (of_type_exclusive _ VIDEO).
Qed.

(** The album: three photos and one video make four media items; with
    the document that is five of the seven messages. *)
Lemma gallery_totals_add_up_witness :
  ∃ images videos files media count,
    Gallery.getConversationImages "c1" 1 2 example_album = (Returned images, example_album)
    ∧ Gallery.getConversationVideos "c1" 1 2 example_album
      = (Returned videos, example_album)
    ∧ Gallery.getConversationFiles "c1" 1 2 example_album = (Returned files, example_album)
    ∧ Gallery.getConversationMedia "c1" 1 2 example_album = (Returned media, example_album)
    ∧ MessagesQueries.getMessageCount (Some "c1") example_album
      = (Returned count, example_album)
    ∧ PagedResult.total media = PagedResult.total images + PagedResult.total videos
    ∧ PagedResult.total images + PagedResult.total videos + PagedResult.total files
      ≤ count.
Proof. apply (gallery_totals_add_up example_album "c1" 1 2 1 2 1 2 1 2). discriminate. Defined.

(** X26.  The plain history fetch and the message count agree:
    [getMessageCount] reports the number of all rows of the conversation,
    tombstones included, and for a participant [findByConversationId]
    returns as many rows as that count leaves after the offset, capped by
    the limit.  A missing or empty conversation id makes
    [getMessageCount] count the whole table. *)
Theorem history_length_is_count (st : Store) (now : Z) (conversationId userId : string)
    (limit offset : nat) :
  conversationId ≠ "" →
  participant_row st conversationId userId →
  ∃ count rows,
    MessagesQueries.getMessageCount (Some conversationId) st = (Returned count, st)
    ∧ count = length (filter (fun m => Message.conversationId m = conversationId)
                             (messages st))
    ∧ outcome_of (MessagesService.findByConversationId now conversationId userId
                    limit offset) st = Returned rows
    ∧ length rows = limit `min` (count - offset)
    ∧ MessagesQueries.getMessageCount (Some "") st
      = (Returned (length (messages st)), st)
    ∧ MessagesQueries.getMessageCount None st = (Returned (length (messages st)), st)
    ∧ count ≤ length (messages st).
Proof.
  intros Hne Hp. eexists _, _. split_and!.
  - unfold MessagesQueries.getMessageCount.
    assert (truthy (Some conversationId) = Some conversationId) as ->
      by by apply truthy_Some_iff.
    reflexivity.
  - f_equal. apply filter_bool_prop. intros m. apply str_eqb_eq.
  - unfold outcome_of. by rewrite (findByConversationId_run st now _ _ _ _ Hp).
  - unfold page. by rewrite length_take, length_drop, sort_by_length.
  - reflexivity.
  - reflexivity.
  - apply filter_length_le.
Qed.

(** "c1" holds three rows, one of them a tombstone: a fetch of ten rows
    after the first one returns two. *)
Lemma history_length_is_count_witness :
  ∃ rows,
    outcome_of (MessagesService.findByConversationId 60 "c1" "bob" 10 1) example_store
    = Returned rows
    ∧ length rows = 2.
Proof.
  assert (Hp : participant_row example_store "c1" "bob")
    by (apply participant_row_decide; reflexivity).
  destruct (history_length_is_count example_store 60 "c1" "bob" 10 1 ltac:(discriminate) Hp)
    as (count & rows & Hcount & _ & Hrows & Hlen & _).
  exists rows. split; [exact Hrows|].
  vm_compute in Hcount. injection Hcount as <-. exact Hlen.
Defined.
